(** * faen-injector: a shallow embedding of the query, mapping, aggregation
    and upload code, with the properties of its specification.

    Part I holds the definitions, one module per source file; Part II the
    theorems. *)

From Stdlib Require Import ZArith List String Ascii Bool Lia Permutation.
From Stdlib Require Import OrdersEx DecimalString RelationClasses.
From Stdlib Require Sorted.
From Stdlib Require Import Floats.PrimFloat.
From Equations Require Import Equations.
Import ListNotations.
Open Scope string_scope.
Open Scope list_scope.
Open Scope Z_scope.

(* Decimal literals such as 0.1 stand for the nearest binary64 value, as in
   Python. *)
Set Warnings "-inexact-float".

(* ===================================================================== *)
(** * Part I: definitions *)
(* ===================================================================== *)

(** ** Python values and insertion-ordered dictionaries *)

Module Py.

(** The scalar values that travel through the pipeline: [None], strings,
    integers and binary64 floats. *)
Inductive pyval : Type :=
| PyNone
| PyInt (n : Z)
| PyFloat (x : float)
| PyStr (s : string).

(** Truth value testing, as [if v:] and [v or w] do it. *)
Definition truthy (v : pyval) : bool :=
  match v with
  | PyNone => false
  | PyInt n => negb (n =? 0)%Z
  | PyFloat x => negb (PrimFloat.eqb x 0%float)
  | PyStr s => negb (String.eqb s "")
  end.

(** [a or b] *)
Definition py_or (a b : pyval) : pyval := if truthy a then a else b.

(** [v is None] / [None == v] *)
Definition is_none (v : pyval) : bool :=
  match v with PyNone => true | _ => false end.

(** [None in (v1, ..., vn)] *)
Definition none_in (vs : list pyval) : bool := existsb is_none vs.

(** Equality of two values used as dictionary keys.  Values of different
    types are taken as different keys (mixed int/float keys do not occur in
    the pipeline). *)
Definition key_eqb (a b : pyval) : bool :=
  match a, b with
  | PyNone, PyNone => true
  | PyInt n, PyInt m => (n =? m)%Z
  | PyFloat x, PyFloat y => PrimFloat.eqb x y
  | PyStr s, PyStr t => String.eqb s t
  | _, _ => false
  end.

(** A dictionary keeps its keys in insertion order. *)
Definition dict (K V : Type) : Type := list (K * V).

Section Dict.
Context {K V : Type} (eqb : K -> K -> bool).

(** [d.get(k)] as an option: [None] when the key is absent. *)
Fixpoint lookup (k : K) (d : dict K V) : option V :=
  match d with
  | [] => None
  | (k', v) :: d' => if eqb k k' then Some v else lookup k d'
  end.

(** [k in d] *)
Definition mem (k : K) (d : dict K V) : bool :=
  match lookup k d with Some _ => true | None => false end.

(** [d[k] = v]: an existing key keeps its position, a new key goes last. *)
Fixpoint set (k : K) (v : V) (d : dict K V) : dict K V :=
  match d with
  | [] => [(k, v)]
  | (k', v') :: d' => if eqb k k' then (k', v) :: d' else (k', v') :: set k v d'
  end.

(** [d.keys()] *)
Definition keys (d : dict K V) : list K := map fst d.

End Dict.

(** [d.get(k)] on a dictionary of values: [None] for an absent key. *)
Definition get (k : string) (d : dict string pyval) : pyval :=
  match lookup String.eqb k d with Some v => v | None => PyNone end.

(** What a call gives back: a value, or an exception that leaves it. *)
Inductive exn : Type :=
| AuthenticationRequired   (* [Exception("Authentication required ...")] *)
| RequestException         (* [requests.exceptions.RequestException] *)
| ZeroDivisionError
| OSError
| FileNotFoundError
| TypeError
| AttributeError.

Inductive outcome (A : Type) : Type :=
| Returned (a : A)
| Raised (e : exn).
Arguments Returned {A} a.
Arguments Raised {A} e.

(** [l[start:end]] with Python's treatment of negative and overshooting
    indices. *)
Definition clamp_index (n i : Z) : Z :=
  if (i <? 0)%Z then Z.max 0 (i + n) else Z.min i n.

Definition slice {A : Type} (l : list A) (start stop : Z) : list A :=
  let n := Z.of_nat (List.length l) in
  let a := clamp_index n start in
  let b := clamp_index n stop in
  firstn (Z.to_nat (b - a)) (skipn (Z.to_nat a) l).

(** [sorted(l)] on strings, which compare by code point. *)
Definition str_leb (a b : string) : bool :=
  match String_as_OT.compare a b with
  | Gt => false
  | _ => true
  end.

Fixpoint insert_sorted (x : string) (l : list string) : list string :=
  match l with
  | [] => [x]
  | y :: l' => if str_leb x y then x :: l else y :: insert_sorted x l'
  end.

Definition sorted (l : list string) : list string :=
  fold_right insert_sorted [] l.

(** [range(n)] *)
Definition range (n : Z) : list Z := map Z.of_nat (seq 0 (Z.to_nat n)).

End Py.

(** ** Dates and datetimes ([datetime] of the standard library) *)

Module Datetime.

(** A [date] is its proleptic Gregorian ordinal; a naive [datetime] is the
    number of microseconds since the start of ordinal 0.  Comparison,
    [min], adding a [timedelta] and subtracting two datetimes are then the
    operations of [Z]. *)
Definition date := Z.
Definition datetime := Z.
Definition timedelta := Z.

Definition us_per_day : Z := 86400000000.

(** [timedelta(days=n)] *)
Definition days (n : Z) : timedelta := n * us_per_day.

(** [delta.days]: the normalised day count, rounded towards minus infinity. *)
Definition td_days (delta : timedelta) : Z := delta / us_per_day.

(** [datetime.combine(d, datetime.min.time())] *)
Definition combine_min (d : date) : datetime := d * us_per_day.

(** [t.date()] *)
Definition date_of (t : datetime) : date := t / us_per_day.

(** [date(y, m, d).toordinal()], after [_ymd2ord] of the standard library. *)
Definition is_leap (y : Z) : bool :=
  ((y mod 4 =? 0) && (negb (y mod 100 =? 0) || (y mod 400 =? 0)))%Z.

Definition days_before_year (y : Z) : Z :=
  let y1 := y - 1 in y1 * 365 + y1 / 4 - y1 / 100 + y1 / 400.

Definition days_before_month (y m : Z) : Z :=
  nth (Z.to_nat m) [0; 0; 31; 59; 90; 120; 151; 181; 212; 243; 273; 304; 334] 0
  + (if (2 <? m) && is_leap y then 1 else 0).

Definition ymd (y m d : Z) : date :=
  days_before_year y + days_before_month y m + d.

(** Midnight at the start of a calendar day. *)
Definition midnight (y m d : Z) : datetime := combine_min (ymd y m d).

(** The text of a [$date] bound.  [Iso t] is the text [t.isoformat()], which
    [datetime.fromisoformat] reads back as [t]; [Malformed s] is any text
    [fromisoformat] rejects with [ValueError]. *)
Inductive datestr : Type :=
| Iso (t : datetime)
| Malformed (s : string).

Definition isoformat (t : datetime) : datestr := Iso t.

Definition fromisoformat (s : datestr) : option datetime :=
  match s with Iso t => Some t | Malformed _ => None end.

End Datetime.

(** ** faen_client.py *)

Module Faen.
Import Py Datetime.

(** A query document maps a field name ("datetime", "datetime_utc") to its
    bounds, which map a comparison operator ("$gte", "$lt", "$lte") to the
    text of a [{"$date": ...}] value. *)
Definition bounds : Type := dict string datestr.
Definition query : Type := dict string bounds.

(** The JSON body of a consumption request.  [req_sort] is present only
    when the caller's [sort] is truthy. *)
Record request : Type := mk_request {
  req_query : query;
  req_limit : Z;
  req_eumed : bool;
  req_sort : option string
}.

(** [if sort: request_body['sort'] = sort] *)
Definition sort_entry (sort : option string) : option string :=
  match sort with
  | Some s => if String.eqb s "" then None else Some s
  | None => None
  end.

Definition request_body (q : query) (limit : Z) (sort : option string)
    (eumed : bool) : request :=
  mk_request q limit eumed (sort_entry sort).

(** The comparison operators as the upstream store applies them to the
    timestamp [t] of a record. *)
Definition holds (op : string) (bound t : datetime) : bool :=
  if String.eqb op "$gte" then (bound <=? t)
  else if String.eqb op "$lt" then (t <? bound)
  else if String.eqb op "$lte" then (t <=? bound)
  else false.

Definition satisfies (b : bounds) (t : datetime) : bool :=
  forallb (fun '(op, s) =>
             match fromisoformat s with
             | Some bound => holds op bound t
             | None => false
             end) b.

(** [create_full_day_query] accepts [date] and [datetime] objects. *)
Inductive date_arg : Type :=
| ADate (d : date)
| ADatetime (t : datetime).

Definition as_date (a : date_arg) : date :=
  match a with
  | ADate d => d
  | ADatetime t => date_of t
  end.

Definition create_full_day_query (start_date end_date : date_arg) : query :=
  let start_date := as_date start_date in
  let end_date := as_date end_date in
  let start_datetime := combine_min start_date in
  let end_datetime := combine_min (end_date + 1) in
  [("datetime", [("$gte", isoformat start_datetime);
                 ("$lt", isoformat end_datetime)])].

Section Client.

(** [Rec] is the type of a consumption record; [World] is the state of
    everything outside the process (the upstream service, the network). *)
Context {Rec World : Type}.

(** What [session.post] followed by [raise_for_status] and [json] gives:
    the decoded list, or a [RequestException]. *)
Inductive response : Type :=
| Json (data : list Rec)
| RequestFailed.

Record upstream : Type := {
  token_post : World -> option string * World;
  session_post : request -> World -> response * World
}.

Context (api : upstream).

(** The client object, the world, and the requests posted so far. *)
Record state : Type := mk_state {
  access_token : option string;
  world : World;
  sent : list request
}.

(** [authenticate]: [True] and a stored token, or [False]. *)
Definition authenticate (st : state) : bool * state :=
  match token_post api (world st) with
  | (Some tok, w) => (true, mk_state (Some tok) w (sent st))
  | (None, w) => (false, mk_state (access_token st) w (sent st))
  end.

(** [not self.access_token] *)
Definition no_token (st : state) : bool :=
  match access_token st with
  | None => true
  | Some tok => String.eqb tok ""
  end.

Definition post (r : request) (st : state) : response * state :=
  let (resp, w) := session_post api r (world st) in
  (resp, mk_state (access_token st) w (sent st ++ [r])).

(** The body of the [try] in the chunk loop: [all_records] after the
    request. *)
Definition extend_records (all_records : list Rec) (resp : response)
    : list Rec :=
  match resp with
  | Json chunk_data =>
      if (0 <? Z.of_nat (List.length chunk_data)) then all_records ++ chunk_data
      else all_records
  | RequestFailed => all_records
  end.

Definition chunk_size_days : Z := 10.

(** The [while current_date < end_date] loop of
    [_query_consumption_chunked]. *)
Equations? chunk_loop (base_query : query) (limit : Z) (sort : option string)
    (eumed : bool) (end_date current_date : datetime)
    (all_records : list Rec) (st : state) : list Rec * state
    by wf (Z.to_nat (end_date - current_date)) lt :=
chunk_loop base_query limit sort eumed end_date current_date all_records st
    with Z_lt_dec current_date end_date := {
  | left _ =>
      let chunk_end_date :=
        Z.min (current_date + days chunk_size_days) end_date in
      let chunk_query :=
        set String.eqb "datetime"
            [("$gte", isoformat current_date);
             ("$lt", isoformat chunk_end_date)] base_query in
      let r := post (request_body chunk_query limit sort eumed) st in
      chunk_loop base_query limit sort eumed end_date chunk_end_date
                 (extend_records all_records (fst r)) (snd r)
  | right _ => (all_records, st) }.
Proof.
  unfold days, chunk_size_days, us_per_day. lia.
Qed.

Definition _query_consumption_chunked (base_query : query) (limit : Z)
    (sort : option string) (eumed : bool) (start_date end_date : datetime)
    (st : state) : list Rec * state :=
  chunk_loop base_query limit sort eumed end_date start_date [] st.

(** The single request at the end of [query_consumption]. *)
Definition single_request (q : query) (limit : Z) (sort : option string)
    (eumed : bool) (st : state) : outcome (list Rec) * state :=
  match post (request_body q limit sort eumed) st with
  | (Json data, st') => (Returned data, st')
  | (RequestFailed, st') => (Raised RequestException, st')
  end.

(** The parsed bounds of a query whose "datetime" entry has both "$gte"
    and "$lt"; [None] when the entry is absent or incomplete.  The inner
    option is [None] when a bound does not parse. *)
Definition datetime_range (q : query)
    : option (option (datetime * datetime)) :=
  match lookup String.eqb "datetime" q with
  | Some range =>
      match lookup String.eqb "$gte" range, lookup String.eqb "$lt" range with
      | Some start_date_str, Some end_date_str =>
          Some (match fromisoformat start_date_str,
                      fromisoformat end_date_str with
                | Some start_date, Some end_date => Some (start_date, end_date)
                | _, _ => None
                end)
      | _, _ => None
      end
  | None => None
  end.

Definition query_consumption_authenticated (q : query) (limit : Z)
    (sort : option string) (eumed : bool) (st : state)
    : outcome (list Rec) * state :=
  match datetime_range q with
  | Some (Some (start_date, end_date)) =>
      let date_diff := end_date - start_date in
      if (td_days date_diff >? 10) then
        let (records, st') :=
          _query_consumption_chunked q limit sort eumed start_date end_date st
        in (Returned records, st')
      else single_request q limit sort eumed st
  | _ => single_request q limit sort eumed st
  end.

Definition query_consumption (q : query) (limit : Z) (sort : option string)
    (eumed : bool) (st : state) : outcome (list Rec) * state :=
  if no_token st then
    match authenticate st with
    | (true, st') => query_consumption_authenticated q limit sort eumed st'
    | (false, st') => (Raised AuthenticationRequired, st')
    end
  else query_consumption_authenticated q limit sort eumed st.

End Client.

Arguments response : clear implicits.
Arguments upstream : clear implicits.
Arguments state : clear implicits.

(** The query of one chunk and the bounds a request carries. *)
Definition chunk_query (base_query : query) (c : datetime * datetime) : query :=
  set String.eqb "datetime"
      [("$gte", isoformat (fst c)); ("$lt", isoformat (snd c))] base_query.

Definition request_bounds (r : request) : option bounds :=
  lookup String.eqb "datetime" (req_query r).

(** The DateChunker of the specification: the sub-ranges of
    [[current_date, end_date)], ten days each, the last one cut at
    [end_date]. *)
Equations? date_chunks (end_date current_date : datetime)
    : list (datetime * datetime)
    by wf (Z.to_nat (end_date - current_date)) lt :=
date_chunks end_date current_date with Z_lt_dec current_date end_date := {
  | left _ =>
      (current_date, Z.min (current_date + days 10) end_date)
        :: date_chunks end_date (Z.min (current_date + days 10) end_date)
  | right _ => [] }.
Proof.
  unfold days, us_per_day. lia.
Qed.

(** Properties of a list of sub-ranges [[a, b)] of a range [[s, e)]. *)
Definition covers (s e : datetime) (cs : list (datetime * datetime)) : Prop :=
  forall t, s <= t < e <-> exists c, In c cs /\ fst c <= t < snd c.

Definition contiguous (cs : list (datetime * datetime)) : Prop :=
  forall i c d, nth_error cs i = Some c -> nth_error cs (S i) = Some d ->
                fst d = snd c.

Definition ascending (cs : list (datetime * datetime)) : Prop :=
  forall i j c d, (i < j)%nat -> nth_error cs i = Some c ->
                  nth_error cs j = Some d ->
                  fst c < snd c /\ snd c <= fst d /\ fst d < snd d.

Definition ten_days_but_last (e : datetime) (cs : list (datetime * datetime))
    : Prop :=
  forall i c, nth_error cs i = Some c ->
    if (S i <? List.length cs)%nat then snd c - fst c = days 10
    else snd c = e /\ 0 < snd c - fst c <= days 10.

(** The request of one chunk, and the requests posted one after another
    with every answer kept. *)
Definition chunk_request (base_query : query) (limit : Z)
    (sort : option string) (eumed : bool) (c : datetime * datetime) : request :=
  request_body (chunk_query base_query c) limit sort eumed.

Section Answers.
Context {Rec World : Type} (api : upstream Rec World).

Fixpoint post_all (reqs : list request) (st : state World)
    : list (response Rec) * state World :=
  match reqs with
  | [] => ([], st)
  | r :: rest =>
      let (resp, st1) := post api r st in
      let (resps, st2) := post_all rest st1 in
      (resp :: resps, st2)
  end.

(** The records of an answer; a failed request has none. *)
Definition records_of (resp : response Rec) : list Rec :=
  match resp with
  | Json data => data
  | RequestFailed => []
  end.

End Answers.

(** A tiling of [[s, e)] by ten-day pieces with a shorter or equal last
    piece. *)
Inductive tiling : datetime -> datetime -> list (datetime * datetime) -> Prop :=
| tiling_last s e :
    s < e -> e - s <= days 10 -> tiling s e [(s, e)]
| tiling_cons s e cs :
    s + days 10 < e -> tiling (s + days 10) e cs ->
    tiling s e ((s, s + days 10) :: cs).

End Faen.

(** ** cde_client.py *)

Module Cde.
Import Py.

Definition datapoint : Type := dict string pyval.

(** One line of the CSV payload, in the column order
    [measurement, timestamp, value, unit, timeseries]. *)
Definition row : Type := list pyval.

(** [datapoint.get("timeseries") or datapoint.get("timeseries_id")
     or datapoint.get("timeseriesId")] *)
Definition timeseries_id (dp : datapoint) : pyval :=
  py_or (py_or (get "timeseries" dp) (get "timeseries_id" dp))
        (get "timeseriesId" dp).

(** The five values read from a datapoint. *)
Definition cells (dp : datapoint) : row :=
  [get "measurement" dp; get "timestamp" dp; get "value" dp; get "unit" dp;
   timeseries_id dp].

Record upload_result : Type := mk_result {
  success : Z;
  failed : Z;
  total : Z
}.

(** The name of a saved file:
    [f"{safe_dataset_name}_{measurement_type}{date_range}.csv"], kept as its
    three parts. *)
Record csv_filename : Type := mk_filename {
  safe_dataset_name : string;
  measurement_type : pyval;
  date_range : option (string * string)
}.

(** [s.replace(" ", "_").replace("/", "_")] *)
Fixpoint sanitize (s : string) : string :=
  match s with
  | EmptyString => EmptyString
  | String c s' =>
      String (if Ascii.eqb c " " || Ascii.eqb c "/" then "_"%char else c)
             (sanitize s')
  end.

(** [if start_date and end_date: date_range = ...] *)
Definition date_range_of (start_date end_date : option string)
    : option (string * string) :=
  match start_date, end_date with
  | Some s, Some e =>
      if String.eqb s "" || String.eqb e "" then None else Some (s, e)
  | _, _ => None
  end.

(** The answer to an upload: a status code, or a [RequestException]. *)
Inductive post_result : Type :=
| Status (code : Z)
| PostFailed.

(** What the call does to the outside, in order; an upload is kept with
    its answer. *)
Inductive event : Type :=
| Mkdir
| WriteFile (name : csv_filename) (rows : list row)
| Post (batch_number : Z) (rows : list row) (answer : post_result).

Definition default_batch_size : Z := 1000.

Section Client.

Context {World : Type}.

(** The platform and the file system.  [fs_mkdir] answers [false] when the
    directory cannot be made; a failed file write is caught by the code and
    only changes the world. *)
Record downstream : Type := {
  fs_mkdir : World -> bool * World;
  fs_write : csv_filename -> list row -> World -> World;
  csv_post : Z -> list row -> World -> post_result * World
}.

Context (cde : downstream).

Record state : Type := mk_state {
  world : World;
  events : list event
}.

Definition log (e : event) (w : World) (st : state) : state :=
  mk_state w (events st ++ [e]).

(** Grouping by measurement type: one step of the first [for] loop. *)
Definition group_step (groups : dict pyval (list datapoint)) (dp : datapoint)
    : dict pyval (list datapoint) :=
  let measurement := get "measurement" dp in
  if truthy measurement then
    match lookup key_eqb measurement groups with
    | Some l => set key_eqb measurement (l ++ [dp]) groups
    | None => set key_eqb measurement [dp] groups
    end
  else groups.

(** The rows of a saved file: the datapoints with no [None] cell. *)
Definition file_rows (dps : list datapoint) : list row :=
  map cells (filter (fun dp => negb (none_in (cells dp))) dps).

Definition save_step (dataset_name : string)
    (start_date end_date : option string) (st : state)
    (entry : pyval * list datapoint) : state :=
  let (measurement_type, measurement_datapoints) := entry in
  let name := mk_filename (sanitize dataset_name) measurement_type
                          (date_range_of start_date end_date) in
  let rows := file_rows measurement_datapoints in
  log (WriteFile name rows) (fs_write cde name rows (world st)) st.

(** The inner [for datapoint in batch] loop: the counters
    [missing_fields], [rows_written] and the rows written. *)
Definition encode_step (acc : Z * Z * list row) (dp : datapoint)
    : Z * Z * list row :=
  let '(missing_fields, rows_written, rows) := acc in
  if none_in (cells dp) then (missing_fields + 1, rows_written, rows)
  else (missing_fields, rows_written + 1, rows ++ [cells dp]).

Definition encode (batch : list datapoint) : Z * Z * list row :=
  fold_left encode_step batch (0, 0, []).

Definition ok_status (code : Z) : bool := (code =? 200) || (code =? 201).

(** The body of [for batch_index in range(total_batches)]. *)
Definition upload_step (datapoints : list datapoint) (batch_size : Z)
    (acc : Z * Z * state) (batch_index : Z) : Z * Z * state :=
  let '(total_success, total_failed, st) := acc in
  let start := batch_index * batch_size in
  let stop := start + batch_size in
  let batch := slice datapoints start stop in
  let '(missing_fields, rows_written, rows) := encode batch in
  let total_failed :=
    if (missing_fields =? 0) then total_failed
    else total_failed + missing_fields in
  let (resp, w) := csv_post cde (batch_index + 1) rows (world st) in
  let st' := log (Post (batch_index + 1) rows resp) w st in
  match resp with
  | PostFailed => (total_success, total_failed + rows_written, st')
  | Status code =>
      if ok_status code then (total_success + rows_written, total_failed, st')
      else (total_success, total_failed + rows_written, st')
  end.

(** The first half of [add_datapoints_batch]: one file per measurement
    type. *)
Definition save_files (datapoints : list datapoint) (dataset_name : string)
    (start_date end_date : option string) (st : state) : state :=
  let datapoints_by_measurement := fold_left group_step datapoints [] in
  fold_left (save_step dataset_name start_date end_date)
            datapoints_by_measurement st.

Definition add_datapoints_batch (datapoints : list datapoint)
    (batch_size : Z) (dataset_name : string)
    (start_date end_date : option string) (st : state)
    : outcome upload_result * state :=
  match datapoints with
  | [] => (Returned (mk_result 0 0 0), st)
  | _ :: _ =>
      let (made, w) := fs_mkdir cde (world st) in
      let st1 := log Mkdir w st in
      if made then
        let st2 := save_files datapoints dataset_name start_date end_date st1 in
        let n := Z.of_nat (List.length datapoints) in
        if (batch_size =? 0) then (Raised ZeroDivisionError, st2)
        else
          let total_batches := (n + batch_size - 1) / batch_size in
          let '(total_success, total_failed, st3) :=
            fold_left (upload_step datapoints batch_size)
                      (range total_batches) (0, 0, st2) in
          (Returned (mk_result total_success total_failed n), st3)
      else (Raised OSError, st1)
  end.

(** The batch upload in the words of the specification: for each group,
    the rows missing any of the five fields are left out of the payload and
    counted as failed; the group is uploaded as one request; a failed
    request marks every row of the group as failed, and the next group
    follows. *)
Definition complete (dp : datapoint) : bool := negb (none_in (cells dp)).

Definition payload (group : list datapoint) : list row :=
  map cells (filter complete group).

Definition missing (group : list datapoint) : Z :=
  Z.of_nat (List.length (filter (fun dp => negb (complete dp)) group)).

Definition accepted (answer : post_result) : bool :=
  match answer with
  | Status code => ok_status code
  | PostFailed => false
  end.

Fixpoint spec_upload_groups (number : Z) (groups : list (list datapoint))
    (acc : Z * Z * state) : Z * Z * state :=
  match groups with
  | [] => acc
  | group :: rest =>
      let '(succeeded, failed, st) := acc in
      let rows := payload group in
      let sent := Z.of_nat (List.length rows) in
      let (answer, w) := csv_post cde number rows (world st) in
      let st' := log (Post number rows answer) w st in
      spec_upload_groups (number + 1) rest
        (if accepted answer
         then (succeeded + sent, failed + missing group, st')
         else (succeeded, failed + missing group + sent, st'))
  end.

End Client.

Arguments downstream : clear implicits.
Arguments state : clear implicits.

(** The events a call added, and whether every upload among some events
    was accepted. *)
Definition since {World : Type} (st st' : state World) : list event :=
  skipn (List.length (events st)) (events st').

Definition uploads_accepted (evs : list event) : bool :=
  forallb (fun ev => match ev with
                     | Post _ _ answer => accepted answer
                     | _ => true
                     end) evs.

Definition uploads (evs : list event) : list (Z * list row * post_result) :=
  flat_map (fun ev => match ev with
                      | Post number rows answer => [(number, rows, answer)]
                      | _ => []
                      end) evs.

(** The number of datapoints in some groups. *)
Definition total_length (gs : list (list datapoint)) : Z :=
  Z.of_nat (List.length (List.concat gs)).

(** The groups the loop cuts: [datapoints[start:end]] for each index. *)
Definition batches (datapoints : list datapoint) (batch_size : Z)
    : list (list datapoint) :=
  let n := Z.of_nat (List.length datapoints) in
  map (fun batch_index =>
         slice datapoints (batch_index * batch_size)
               (batch_index * batch_size + batch_size))
      (range ((n + batch_size - 1) / batch_size)).

End Cde.

(** ** A time series as the platform lists it *)

Module Descriptor.
Import Py.

(** [ts.get("datasetField", {}).get("datacellar:datasetFieldID")],
    [....get("datacellar:name")] and [ts.get("id")]; an absent key reads as
    [None]. *)
Record timeseries : Type := mk_timeseries {
  field_id : pyval;
  field_name : pyval;
  id : pyval
}.

(** [str(v) == text] for a [text] made of decimal digits.  The text of a
    float always has a point, an exponent or letters, so it never equals
    such a [text]. *)
Definition str_is (v : pyval) (text : string) : bool :=
  match v with
  | PyNone => String.eqb "None" text
  | PyInt n => String.eqb (NilZero.string_of_int (Z.to_int n)) text
  | PyFloat _ => false
  | PyStr s => String.eqb s text
  end.

(** [v == text] for a string [text]. *)
Definition is_str (v : pyval) (text : string) : bool :=
  match v with
  | PyStr s => String.eqb s text
  | _ => false
  end.

(** [[m for m in expected if m not in mapping]] *)
Definition missing_from (expected : list string) (mapping : dict string pyval)
    : list string :=
  filter (fun m => negb (mem String.eqb m mapping)) expected.

End Descriptor.

(** ** edg.py *)

Module Edg.
Import Py Datetime Descriptor.

(** A row as [csv.DictReader] yields it: column name to cell.  The cell of
    a column that a short line does not reach is [None]. *)
Definition csv_row : Type := dict string (option string).

(** [s.replace("Z", "")] *)
Fixpoint remove_Z (s : string) : string :=
  match s with
  | EmptyString => EmptyString
  | String c s' => if Ascii.eqb c "Z" then remove_Z s' else String c (remove_Z s')
  end.

(** [s.endswith("Z")] *)
Fixpoint endswith_Z (s : string) : bool :=
  match s with
  | EmptyString => false
  | String c EmptyString => Ascii.eqb c "Z"
  | String _ s' => endswith_Z s'
  end.

(** ["T" in s] *)
Fixpoint contains_T (s : string) : bool :=
  match s with
  | EmptyString => false
  | String c s' => Ascii.eqb c "T" || contains_T s'
  end.

(** The normalisation of a timestamp to the Z suffix. *)
Definition normalize_timestamp (timestamp : string) : string :=
  if endswith_Z timestamp then timestamp
  else if contains_T timestamp then (timestamp ++ "Z")%string
  else (timestamp ++ "T00:00:00Z")%string.

Section Loader.

(** [V] is the type of a measured value, [zero] its [0.0] and [add] its
    [+]; the program runs at binary64 floats (see [aggregate_floats]).
    [parse_datetime] is [datetime.fromisoformat] and [parse_value] is
    [float], each answering [None] for its [ValueError]. *)
Context {V : Type} (zero : V) (add : V -> V -> V).
Context (parse_datetime : string -> option datetime).
Context (parse_value : string -> option V).

Record record : Type := mk_record {
  BUS_name : option string;
  timestamp : string;
  measurement : option string;
  value : V;
  unit : option string
}.

(** What the [try] block makes of one row: a record, a skip ([continue],
    also from the [except (ValueError, KeyError)] handler) or an exception
    the handler does not catch. *)
Inductive row_result : Type :=
| Keep (r : record)
| Skip
| Abort (e : exn).

Definition load_row (start_date end_date : option date) (row : csv_row)
    : row_result :=
  match lookup String.eqb "timestamp" row with
  | None => Skip
  | Some None => Abort AttributeError
  | Some (Some timestamp_str) =>
      match parse_datetime (remove_Z timestamp_str) with
      | None => Skip
      | Some t =>
          let record_date := date_of t in
          if match start_date with
             | Some d => record_date <? d
             | None => false
             end then Skip
          else if match end_date with
                  | Some d => record_date >=? d
                  | None => false
                  end then Skip
          else
            match lookup String.eqb "value" row with
            | None => Skip
            | Some None => Abort TypeError
            | Some (Some text) =>
                match parse_value text with
                | None => Skip
                | Some v =>
                    match lookup String.eqb "BUS_name" row,
                          lookup String.eqb "measurement" row,
                          lookup String.eqb "unit" row with
                    | Some bus, Some m, Some u =>
                        Keep (mk_record bus timestamp_str m v u)
                    | _, _, _ => Skip
                    end
                end
            end
      end
  end.

(** The [for row in reader] loop, with [records] and [skipped_count]. *)
Fixpoint load_rows (start_date end_date : option date) (rows : list csv_row)
    (records : list record) (skipped_count : Z)
    : outcome (list record * Z) :=
  match rows with
  | [] => Returned (records, skipped_count)
  | row :: rest =>
      match load_row start_date end_date row with
      | Keep r => load_rows start_date end_date rest (records ++ [r]) skipped_count
      | Skip => load_rows start_date end_date rest records (skipped_count + 1)
      | Abort e => Raised e
      end
  end.

(** [return records]: the counter is only printed. *)
Definition records_only (o : outcome (list record * Z))
    : outcome (list record) :=
  match o with
  | Returned (records, _) => Returned records
  | Raised e => Raised e
  end.

(** [file] is [None] when the path does not exist. *)
Definition load_csv (file : option (list csv_row))
    (start_date end_date : option date) : outcome (list record) :=
  match file with
  | None => Raised FileNotFoundError
  | Some rows => records_only (load_rows start_date end_date rows [] 0)
  end.

(** A row whose timestamp text or whose value text cannot be read. *)
Definition unparseable (row : csv_row) : Prop :=
  (exists text,
      lookup String.eqb "timestamp" row = Some (Some text)
      /\ parse_datetime (remove_Z text) = None)
  \/ (exists stamp text,
         lookup String.eqb "timestamp" row = Some (Some stamp)
         /\ lookup String.eqb "value" row = Some (Some text)
         /\ parse_value text = None).

(** The value of the [defaultdict]: the two sums of one timestamp. *)
Record sums : Type := mk_sums {
  consumedEnergy : V;
  generatedEnergy : V
}.

Definition default_sums : sums := mk_sums zero zero.

(** [if measurement in aggregated[timestamp]:
       aggregated[timestamp][measurement] += value] *)
Definition add_measurement (measurement : option string) (value : V)
    (s : sums) : sums :=
  match measurement with
  | Some m =>
      if String.eqb m "consumedEnergy" then
        mk_sums (add (consumedEnergy s) value) (generatedEnergy s)
      else if String.eqb m "generatedEnergy" then
        mk_sums (consumedEnergy s) (add (generatedEnergy s) value)
      else s
  | None => s
  end.

(** [aggregated[timestamp]], which a [defaultdict] answers with the
    default when the key is new. *)
Definition entry (aggregated : dict string sums) (timestamp : string) : sums :=
  match lookup String.eqb timestamp aggregated with
  | Some s => s
  | None => default_sums
  end.

Definition aggregate_step (aggregated : dict string sums) (r : record)
    : dict string sums :=
  let timestamp := normalize_timestamp (timestamp r) in
  set String.eqb timestamp
      (add_measurement (measurement r) (value r) (entry aggregated timestamp))
      aggregated.

Record aggregated_record : Type := mk_aggregated {
  agg_timestamp : string;
  agg_consumedEnergy : V;
  agg_generatedEnergy : V
}.

Definition result_entry (aggregated : dict string sums) (timestamp : string)
    : aggregated_record :=
  mk_aggregated timestamp
                (consumedEnergy (entry aggregated timestamp))
                (generatedEnergy (entry aggregated timestamp)).

Definition aggregate_by_timestamp (records : list record)
    : list aggregated_record :=
  let aggregated := fold_left aggregate_step records [] in
  map (result_entry aggregated) (sorted (keys aggregated)).

(** The aggregation in the words of the specification: the values of the
    rows of one normalised timestamp and one measurement kind, in row
    order, and their sum from zero. *)
Definition is_kind (kind : string) (measurement : option string) : bool :=
  match measurement with
  | Some m => String.eqb m kind
  | None => false
  end.

Definition values_of (kind ts : string) (records : list record) : list V :=
  map value
      (filter (fun r =>
                 String.eqb (normalize_timestamp (timestamp r)) ts
                 && is_kind kind (measurement r)) records).

Definition total (values : list V) : V := fold_left add values zero.

(** Values that can be summed in any order: whatever part [summed] of them
    has been added up from zero, the next two additions can be exchanged. *)
Definition exchangeable (values : list V) : Prop :=
  forall (summed : list V) (a b : V) (rest : list V),
    Permutation (summed ++ a :: b :: rest) values ->
    add (add (total summed) a) b = add (add (total summed) b) a.

(** The two sums of one timestamp after the records [records], from the
    sums [s0]. *)
Definition sums_step (ts : string) (s : sums) (r : record) : sums :=
  if String.eqb (normalize_timestamp (timestamp r)) ts
  then add_measurement (measurement r) (value r) s
  else s.

Definition sums_for (ts : string) (records : list record) (s0 : sums) : sums :=
  fold_left (sums_step ts) records s0.

End Loader.

Arguments record : clear implicits.
Arguments sums : clear implicits.
Arguments aggregated_record : clear implicits.
Arguments row_result : clear implicits.

(** The aggregation as the program runs it, on binary64 floats. *)
Definition aggregate_floats (records : list (record float))
    : list (aggregated_record float) :=
  aggregate_by_timestamp 0%float PrimFloat.add records.

(** [field_id in field_map] and [field_map[field_id]] for the table
    [{1: "consumedEnergy", 2: "generatedEnergy"}]; a float equal to a key
    finds it. *)
Definition field_map (field_id : pyval) : option string :=
  match field_id with
  | PyInt n =>
      if (n =? 1) then Some "consumedEnergy"
      else if (n =? 2) then Some "generatedEnergy" else None
  | PyFloat x =>
      if PrimFloat.eqb x 1%float then Some "consumedEnergy"
      else if PrimFloat.eqb x 2%float then Some "generatedEnergy" else None
  | _ => None
  end.

Definition mapping_step (timeseries_mapping : dict string pyval)
    (ts : timeseries) : dict string pyval :=
  if truthy (field_id ts) && truthy (id ts) then
    match field_map (field_id ts) with
    | Some name => set String.eqb name (id ts) timeseries_mapping
    | None => timeseries_mapping
    end
  else timeseries_mapping.

(** The mapping and the names reported as missing. *)
Definition create_timeseries_mapping (timeseries_list : list timeseries)
    : dict string pyval * list string :=
  let timeseries_mapping := fold_left mapping_step timeseries_list [] in
  let expected_fields := ["consumedEnergy"; "generatedEnergy"] in
  (timeseries_mapping, missing_from expected_fields timeseries_mapping).

End Edg.

(** ** main.py: the mapping of the generation dataset *)

Module Main.
Import Py Descriptor.

Inductive warning : Type :=
| MissingIds (ts : timeseries)       (* "Missing field ID or timeseries ID" *)
| CouldNotMap (ts : timeseries)      (* "Could not map timeseries" *)
| MissingMappings (names : list string).

(** The name a descriptor binds, by field ID and then by field name. *)
Definition by_id (field_id : pyval) : option string :=
  if str_is field_id "1" then Some "generation"
  else if str_is field_id "2" then Some "outdoorTemperature"
  else if str_is field_id "3" then Some "humidity"
  else None.

Definition by_name (field_name : pyval) : option string :=
  if is_str field_name "generatedEnergy" then Some "generation"
  else if is_str field_name "outdoorTemperature" then Some "outdoorTemperature"
  else if is_str field_name "humidityLevel" then Some "humidity"
  else None.

(** The body of [for ts in timeseries_list]. *)
Definition generation_step (acc : dict string pyval * list warning)
    (ts : timeseries) : dict string pyval * list warning :=
  let (timeseries_mapping, warnings) := acc in
  if negb (truthy (field_id ts)) || negb (truthy (id ts)) then
    (timeseries_mapping, warnings ++ [MissingIds ts])
  else
    match by_id (field_id ts) with
    | Some name => (set String.eqb name (id ts) timeseries_mapping, warnings)
    | None =>
        if truthy (field_name ts) then
          match by_name (field_name ts) with
          | Some name =>
              (set String.eqb name (id ts) timeseries_mapping, warnings)
          | None => (timeseries_mapping, warnings ++ [CouldNotMap ts])
          end
        else (timeseries_mapping, warnings ++ [CouldNotMap ts])
    end.

Definition expected_mappings : list string :=
  ["generation"; "outdoorTemperature"; "humidity"].

Definition generation_mapping (timeseries_list : list timeseries)
    : dict string pyval * list warning :=
  let (timeseries_mapping, warnings) :=
    fold_left generation_step timeseries_list ([], []) in
  let missing_mappings := missing_from expected_mappings timeseries_mapping in
  (timeseries_mapping,
   match missing_mappings with
   | [] => warnings
   | _ :: _ => warnings ++ [MissingMappings missing_mappings]
   end).

(** The FieldMapper in the words of the specification: bind by field ID;
    else, when the ID did not bind, by field name; else leave the
    descriptor unresolved. *)
Definition spec_bind (ts : timeseries) : option string :=
  match by_id (field_id ts) with
  | Some name => Some name
  | None => by_name (field_name ts)
  end.

Definition spec_step (mapping : dict string pyval) (ts : timeseries)
    : dict string pyval :=
  match spec_bind ts with
  | Some name => set String.eqb name (id ts) mapping
  | None => mapping
  end.

Definition spec_resolve (timeseries_list : list timeseries)
    : dict string pyval :=
  fold_left spec_step timeseries_list [].

(** The descriptors the code looks at: those with a field ID and an id of
    their own. *)
Definition usable (ts : timeseries) : bool :=
  truthy (field_id ts) && truthy (id ts).

(** A descriptor without its field name. *)
Definition without_name (ts : timeseries) : timeseries :=
  mk_timeseries (field_id ts) PyNone (id ts).

End Main.

(** ** Small worlds on which the model runs *)

Module Fixture.
Import Py Datetime.

(** An upstream service that answers every chunk that starts before
    [fails_from] with the one record [gte] of its lower bound and fails the
    others.  The world counts the requests. *)
Definition lower_bound (r : Faen.request) : list Z :=
  match Faen.request_bounds r with
  | Some b =>
      match lookup String.eqb "$gte" b with
      | Some (Iso t) => [t]
      | _ => []
      end
  | None => []
  end.

Definition flaky (fails_from : Z) : Faen.upstream Z nat := {|
  Faen.token_post := fun w => (Some "token", w);
  Faen.session_post := fun r w =>
    (match lower_bound r with
     | t :: _ => if (t <? fails_from) then Faen.Json [t] else Faen.RequestFailed
     | [] => Faen.RequestFailed
     end, S w)
|}.

Definition signed_in : Faen.state nat := Faen.mk_state (Some "token") 0%nat [].

(** A platform that refuses the uploads whose number is in [refused] and
    accepts the others; the world counts the uploads. *)
Definition platform (refused : list Z) : Cde.downstream nat := {|
  Cde.fs_mkdir := fun w => (true, w);
  Cde.fs_write := fun _ _ w => w;
  Cde.csv_post := fun number _ w =>
    (if existsb (Z.eqb number) refused then Cde.PostFailed else Cde.Status 200,
     S w)
|}.

Definition fresh : Cde.state nat := Cde.mk_state 0%nat [].

(** Three datapoints, the second without a unit. *)
Definition reading (timestamp : string) (value : float) : Cde.datapoint :=
  [("measurement", PyStr "consumedEnergy"); ("unit", PyStr "kWh");
   ("value", PyFloat value); ("timestamp", PyStr timestamp);
   ("timeseries_id", PyStr "ts-1")].

Definition reading_without_unit (timestamp : string) (value : float)
    : Cde.datapoint :=
  [("measurement", PyStr "consumedEnergy");
   ("value", PyFloat value); ("timestamp", PyStr timestamp);
   ("timeseries_id", PyStr "ts-1")].

Definition three_readings : list Cde.datapoint :=
  [reading "2025-05-01T00:00:00Z" 1.5;
   reading_without_unit "2025-05-01T01:00:00Z" 2.5;
   reading "2025-05-01T02:00:00Z" 3.5].

(** The rows of the aggregation example, as loaded records. *)
Definition bus_record (bus measurement : string) (value : float)
    : Edg.record float :=
  Edg.mk_record (Some bus) "2025-05-01T00:00:00" (Some measurement) value
                (Some "kWh").

Definition bankya_records : list (Edg.record float) :=
  [bus_record "Bus1" "consumedEnergy" 10;
   bus_record "Bus2" "consumedEnergy" 5;
   bus_record "Bus1" "generatedEnergy" 2].

(** Three readings of one bus at one timestamp whose sum depends on the
    order of the additions. *)
Definition tenths : list (Edg.record float) :=
  [bus_record "Bus1" "consumedEnergy" 0.1;
   bus_record "Bus2" "consumedEnergy" 0.2;
   bus_record "Bus3" "consumedEnergy" 0.3].

(** Readers of the few texts the examples use. *)
Definition read_datetime (s : string) : option datetime :=
  if String.eqb s "2025-05-01T00:00:00" then Some (midnight 2025 5 1)
  else if String.eqb s "2025-06-01T00:00:00" then Some (midnight 2025 6 1)
  else None.

Definition read_value (s : string) : option float :=
  if String.eqb s "10" then Some 10%float
  else if String.eqb s "5" then Some 5%float
  else if String.eqb s "2" then Some 2%float
  else None.

(** The descriptors of the mapping example, and one whose field ID is 0. *)
Definition echoed : list Descriptor.timeseries :=
  [Descriptor.mk_timeseries (PyInt 1) (PyStr "generatedEnergy") (PyStr "ts-A");
   Descriptor.mk_timeseries (PyInt 2) (PyStr "outdoorTemperature") (PyStr "ts-B")].

Definition zero_id : Descriptor.timeseries :=
  Descriptor.mk_timeseries (PyInt 0) (PyStr "generatedEnergy") (PyStr "ts-A").

Definition csv_line (bus timestamp measurement value : string) : Edg.csv_row :=
  [("BUS_name", Some bus); ("timestamp", Some timestamp);
   ("measurement", Some measurement); ("value", Some value);
   ("unit", Some "kWh")].

End Fixture.

(** ** faen_client.py: the other queries *)

Module FaenGet.
Import Py Datetime Faen.

Definition create_weather_query (start_date end_date : date_arg) : query :=
  let start_date := as_date start_date in
  let end_date := as_date end_date in
  let start_datetime := combine_min start_date in
  let end_datetime := combine_min (end_date + 1) in
  [("datetime_utc", [("$gte", isoformat start_datetime);
                     ("$lt", isoformat end_datetime)])].

(** The legacy query takes the two texts as they are. *)
Definition create_date_range_query (start_date end_date : datestr) : query :=
  [("datetime", [("$gte", start_date); ("$lte", end_date)])].

(** [query_generation] and [query_weather] are the same code up to the
    endpoint ("generation/", "weather/") and the field that holds the date
    range. *)
Inductive endpoint : Type :=
| Generation
| Weather.

Definition date_field (ep : endpoint) : string :=
  match ep with
  | Generation => "datetime"
  | Weather => "datetime_utc"
  end.

(** The URL parameters of a GET: [param_query] stands for
    [json.dumps(query)]. *)
Record params : Type := mk_params {
  param_query : query;
  param_limit : Z;
  param_sort : option string
}.

Definition get_params (q : query) (limit : Z) (sort : option string) : params :=
  mk_params q limit (sort_entry sort).

Section Client.
Context {Rec World : Type}.

Record upstream : Type := {
  token_post : World -> option string * World;
  session_get : endpoint -> params -> World -> response Rec * World
}.

Context (api : upstream).

Record state : Type := mk_state {
  access_token : option string;
  world : World;
  sent : list (endpoint * params)
}.

Definition authenticate (st : state) : bool * state :=
  match token_post api (world st) with
  | (Some tok, w) => (true, mk_state (Some tok) w (sent st))
  | (None, w) => (false, mk_state (access_token st) w (sent st))
  end.

Definition no_token (st : state) : bool :=
  match access_token st with
  | None => true
  | Some tok => String.eqb tok ""
  end.

Definition get (ep : endpoint) (p : params) (st : state)
    : response Rec * state :=
  let (resp, w) := session_get api ep p (world st) in
  (resp, mk_state (access_token st) w (sent st ++ [(ep, p)])).

(** The query of one chunk: [base_query.copy()] with the date field set. *)
Definition chunk_query (ep : endpoint) (base_query : query)
    (c : datetime * datetime) : query :=
  set String.eqb (date_field ep)
      [("$gte", isoformat (fst c)); ("$lt", isoformat (snd c))] base_query.

Definition chunk_params (ep : endpoint) (base_query : query) (limit : Z)
    (sort : option string) (c : datetime * datetime) : params :=
  get_params (chunk_query ep base_query c) limit sort.

(** The [while current_date < end_date] loop of
    [_query_generation_chunked] and [_query_weather_chunked]. *)
Equations? chunk_loop (ep : endpoint) (base_query : query) (limit : Z)
    (sort : option string) (end_date current_date : datetime)
    (all_records : list Rec) (st : state) : list Rec * state
    by wf (Z.to_nat (end_date - current_date)) lt :=
chunk_loop ep base_query limit sort end_date current_date all_records st
    with Z_lt_dec current_date end_date := {
  | left _ =>
      let chunk_end_date :=
        Z.min (current_date + days chunk_size_days) end_date in
      let r := get ep (chunk_params ep base_query limit sort
                                    (current_date, chunk_end_date)) st in
      chunk_loop ep base_query limit sort end_date chunk_end_date
                 (extend_records all_records (fst r)) (snd r)
  | right _ => (all_records, st) }.
Proof.
  unfold days, chunk_size_days, us_per_day. lia.
Qed.

Definition query_chunked (ep : endpoint) (base_query : query) (limit : Z)
    (sort : option string) (start_date end_date : datetime) (st : state)
    : list Rec * state :=
  chunk_loop ep base_query limit sort end_date start_date [] st.

Definition single_request (ep : endpoint) (q : query) (limit : Z)
    (sort : option string) (st : state) : outcome (list Rec) * state :=
  match get ep (get_params q limit sort) st with
  | (Json data, st') => (Returned data, st')
  | (RequestFailed, st') => (Raised RequestException, st')
  end.

(** The parsed bounds under the endpoint's date field, as
    [Faen.datetime_range] reads them under "datetime". *)
Definition field_range (ep : endpoint) (q : query)
    : option (option (datetime * datetime)) :=
  match lookup String.eqb (date_field ep) q with
  | Some range =>
      match lookup String.eqb "$gte" range, lookup String.eqb "$lt" range with
      | Some start_date_str, Some end_date_str =>
          Some (match fromisoformat start_date_str,
                      fromisoformat end_date_str with
                | Some start_date, Some end_date => Some (start_date, end_date)
                | _, _ => None
                end)
      | _, _ => None
      end
  | None => None
  end.

Definition query_authenticated (ep : endpoint) (q : query) (limit : Z)
    (sort : option string) (st : state) : outcome (list Rec) * state :=
  match field_range ep q with
  | Some (Some (start_date, end_date)) =>
      let date_diff := end_date - start_date in
      if (td_days date_diff >? 10) then
        let (records, st') :=
          query_chunked ep q limit sort start_date end_date st
        in (Returned records, st')
      else single_request ep q limit sort st
  | _ => single_request ep q limit sort st
  end.

Definition query_endpoint (ep : endpoint) (q : query) (limit : Z)
    (sort : option string) (st : state) : outcome (list Rec) * state :=
  if no_token st then
    match authenticate st with
    | (true, st') => query_authenticated ep q limit sort st'
    | (false, st') => (Raised AuthenticationRequired, st')
    end
  else query_authenticated ep q limit sort st.

Definition query_generation : query -> Z -> option string -> state
                              -> outcome (list Rec) * state :=
  query_endpoint Generation.

Definition query_weather : query -> Z -> option string -> state
                           -> outcome (list Rec) * state :=
  query_endpoint Weather.

(** The GETs of some parameters one after another, every answer kept. *)
Fixpoint get_all (ep : endpoint) (ps : list params) (st : state)
    : list (response Rec) * state :=
  match ps with
  | [] => ([], st)
  | p :: rest =>
      let (resp, st1) := get ep p st in
      let (resps, st2) := get_all ep rest st1 in
      (resp :: resps, st2)
  end.

End Client.

Arguments upstream : clear implicits.
Arguments state : clear implicits.

End FaenGet.

(** ** edg.py: the transformer *)

Module EdgTransform.
Import Py Descriptor Edg.

(** An aggregated record as the dictionary [aggregate_by_timestamp]
    appends. *)
Definition as_dict (a : aggregated_record float) : dict string pyval :=
  [("timestamp", PyStr (agg_timestamp a));
   ("consumedEnergy", PyFloat (agg_consumedEnergy a));
   ("generatedEnergy", PyFloat (agg_generatedEnergy a))].

(** [FIELD_MAPPINGS.items()]: measurement name, then CDE field,
    measurement and unit. *)
Definition FIELD_MAPPINGS : list (string * (string * string * string)) :=
  [("consumedEnergy", ("consumedEnergy", "consumedEnergy", "kWh"));
   ("generatedEnergy", ("generatedEnergy", "generatedEnergy", "kWh"))].

(** What stops [transform_to_datapoints]: [timestamp.endswith] on a value
    that is not a string, or [float(value)] raising. *)
Inductive failure : Type :=
| NotAString
| NotANumber.

Inductive transformed : Type :=
| Datapoints (datapoints : list Cde.datapoint)
| Failed (f : failure).

Section Transform.

(** [py_float] is the builtin [float], [None] when it raises. *)
Context (py_float : pyval -> option float).

(** The inner [for] over the field mappings, for one record. *)
Fixpoint record_datapoints (record : dict string pyval) (timestamp : string)
    (timeseries_mapping : dict string pyval)
    (fields : list (string * (string * string * string)))
    (datapoints : list Cde.datapoint) : transformed :=
  match fields with
  | [] => Datapoints datapoints
  | (measurement_name, (cde_field, measurement, unit)) :: rest =>
      let value := get measurement_name record in
      if is_none value then
        record_datapoints record timestamp timeseries_mapping rest datapoints
      else
        let timeseries_id := get cde_field timeseries_mapping in
        if negb (truthy timeseries_id) then
          record_datapoints record timestamp timeseries_mapping rest datapoints
        else
          match py_float value with
          | None => Failed NotANumber
          | Some x =>
              record_datapoints record timestamp timeseries_mapping rest
                (datapoints
                 ++ [[("measurement", PyStr measurement);
                      ("unit", PyStr unit);
                      ("value", PyFloat x);
                      ("timestamp", PyStr timestamp);
                      ("timeseries_id", timeseries_id)]])
          end
  end.

(** The outer [for record in aggregated_data]. *)
Fixpoint transform_loop (aggregated_data : list (dict string pyval))
    (timeseries_mapping : dict string pyval)
    (datapoints : list Cde.datapoint) (skipped_records : Z) : transformed :=
  match aggregated_data with
  | [] => Datapoints datapoints
  | record :: rest =>
      let timestamp := get "timestamp" record in
      if negb (truthy timestamp) then
        transform_loop rest timeseries_mapping datapoints (skipped_records + 1)
      else
        match timestamp with
        | PyStr text =>
            match record_datapoints record (normalize_timestamp text)
                                    timeseries_mapping FIELD_MAPPINGS
                                    datapoints with
            | Datapoints datapoints' =>
                transform_loop rest timeseries_mapping datapoints'
                               skipped_records
            | Failed f => Failed f
            end
        | _ => Failed NotAString
        end
  end.

Definition transform_to_datapoints (aggregated_data : list (dict string pyval))
    (timeseries_mapping : dict string pyval) : transformed :=
  transform_loop aggregated_data timeseries_mapping [] 0.

(** The two datapoints of an aggregated record under a mapping that has
    both fields. *)
Definition datapoint_of (measurement timestamp : string) (value : float)
    (timeseries_id : pyval) : Cde.datapoint :=
  [("measurement", PyStr measurement); ("unit", PyStr "kWh");
   ("value", PyFloat value); ("timestamp", PyStr timestamp);
   ("timeseries_id", timeseries_id)].

End Transform.

(** A datapoint with its five values and a timestamp text that ends in
    "Z". *)
Definition well_formed (dp : Cde.datapoint) : Prop :=
  Cde.complete dp = true
  /\ exists ts, get "timestamp" dp = PyStr ts /\ endswith_Z ts = true.

(** The builtin [float] on floats, for the examples. *)
Definition float_of (v : pyval) : option float :=
  match v with
  | PyFloat x => Some x
  | _ => None
  end.

(** A record whose timestamp reads as a day on or after the start date
    and before the end date, where these are given. *)
Definition in_range {V : Type}
    (parse_datetime : string -> option Datetime.datetime)
    (start_date end_date : option Datetime.date) (r : record V) : Prop :=
  exists t,
    parse_datetime (remove_Z (timestamp r)) = Some t
    /\ (forall d, start_date = Some d -> d <= Datetime.date_of t)
    /\ (forall d, end_date = Some d -> Datetime.date_of t < d).

(** A record made of a row: the texts of the row as they are, and the
    value read from its value text. *)
Definition from_row {V : Type} (parse_value : string -> option V)
    (row : csv_row) (r : record V) : Prop :=
  lookup String.eqb "timestamp" row = Some (Some (timestamp r))
  /\ lookup String.eqb "BUS_name" row = Some (BUS_name r)
  /\ lookup String.eqb "measurement" row = Some (measurement r)
  /\ lookup String.eqb "unit" row = Some (unit r)
  /\ exists text,
       lookup String.eqb "value" row = Some (Some text)
       /\ parse_value text = Some (value r).

(** The rows of which [load_csv] makes a record. *)
Definition is_kept {V : Type}
    (parse_datetime : string -> option Datetime.datetime)
    (parse_value : string -> option V)
    (start_date end_date : option Datetime.date) (row : csv_row) : bool :=
  match load_row parse_datetime parse_value start_date end_date row with
  | Keep _ => true
  | _ => false
  end.

(** The order of [sorted], as a relation. *)
Definition le_str (a b : string) : Prop := str_leb a b = true.

(** The descriptor that binds a name last: the mappings keep the id of the
    last descriptor that binds. *)
Definition last_binding (binds : timeseries -> option string) (name : string)
    (timeseries_list : list timeseries) : option pyval :=
  option_map id
    (find (fun ts => match binds ts with
                     | Some n => String.eqb n name
                     | None => false
                     end) (rev timeseries_list)).

(** What a descriptor binds in the grid mapper and in the generation
    mapper. *)
Definition grid_binds (ts : timeseries) : option string :=
  if truthy (field_id ts) && truthy (id ts) then field_map (field_id ts)
  else None.

Definition generation_binds (ts : timeseries) : option string :=
  if Main.usable ts then Main.spec_bind ts else None.

End EdgTransform.

(** ** mrae.py and the MRAE branch of main.py *)

Module Mrae.
Import Py Descriptor.

(** [s.endswith(suffix)]: some tail of [s] is [suffix]. *)
Fixpoint ends_with (suffix s : string) : bool :=
  String.eqb s suffix
  || match s with
     | EmptyString => false
     | String _ s' => ends_with suffix s'
     end.

(** The timestamp of a period text, as the [try] block computes it. *)
Definition period_timestamp (period : string) : string :=
  if negb (ends_with "Z" period) then
    if negb (Edg.contains_T period) then (period ++ "T00:00:00Z")%string
    else if negb (ends_with "Z" period) && negb (ends_with "+00:00" period)
         then (period ++ "Z")%string
         else period
  else period.

Definition FIELD_MAPPINGS : list (string * (string * string * string)) :=
  [("total_kwh", ("consumedEnergy", "consumedEnergy", "kWh"))].

(** [float(value)] raising is the one way the transformer stops. *)
Inductive transformed : Type :=
| Datapoints (datapoints : list Cde.datapoint)
| NotANumber.

Section Transform.
Context (py_float : pyval -> option float).

Fixpoint record_datapoints (record : dict string pyval) (timestamp : string)
    (timeseries_mapping : dict string pyval)
    (fields : list (string * (string * string * string)))
    (datapoints : list Cde.datapoint) : transformed :=
  match fields with
  | [] => Datapoints datapoints
  | (mrae_field, (cde_field, measurement, unit)) :: rest =>
      let value := get mrae_field record in
      if is_none value then
        record_datapoints record timestamp timeseries_mapping rest datapoints
      else
        let timeseries_id := get cde_field timeseries_mapping in
        if negb (truthy timeseries_id) then
          record_datapoints record timestamp timeseries_mapping rest datapoints
        else
          match py_float value with
          | None => NotANumber
          | Some x =>
              record_datapoints record timestamp timeseries_mapping rest
                (datapoints
                 ++ [[("measurement", PyStr measurement);
                      ("unit", PyStr unit);
                      ("value", PyFloat x);
                      ("timestamp", PyStr timestamp);
                      ("timeseries_id", timeseries_id)]])
          end
  end.

(** The [for record in mrae_data] loop.  A period that is not a string
    raises [AttributeError] inside the [try] and the record is skipped. *)
Fixpoint transform_loop (mrae_data : list (dict string pyval))
    (timeseries_mapping : dict string pyval)
    (datapoints : list Cde.datapoint) (skipped_records : Z) : transformed :=
  match mrae_data with
  | [] => Datapoints datapoints
  | record :: rest =>
      let period := get "period" record in
      if negb (truthy period) then
        transform_loop rest timeseries_mapping datapoints (skipped_records + 1)
      else
        match period with
        | PyStr text =>
            match record_datapoints record (period_timestamp text)
                                    timeseries_mapping FIELD_MAPPINGS
                                    datapoints with
            | Datapoints datapoints' =>
                transform_loop rest timeseries_mapping datapoints'
                               skipped_records
            | NotANumber => NotANumber
            end
        | _ =>
            transform_loop rest timeseries_mapping datapoints
                           (skipped_records + 1)
        end
  end.

Definition transform_to_datapoints (mrae_data : list (dict string pyval))
    (timeseries_mapping : dict string pyval) : transformed :=
  transform_loop mrae_data timeseries_mapping [] 0.

End Transform.

(** [field_id in field_map] and [field_map[field_id]] for [{1:
    "consumedEnergy"}]. *)
Definition field_map (field_id : pyval) : option string :=
  match field_id with
  | PyInt n => if (n =? 1) then Some "consumedEnergy" else None
  | PyFloat x => if PrimFloat.eqb x 1%float then Some "consumedEnergy" else None
  | _ => None
  end.

Definition expected_fields : list string := ["consumedEnergy"].

(** [MRAEDataTransformer.create_timeseries_mapping] *)
Definition mapping_step (timeseries_mapping : dict string pyval)
    (ts : timeseries) : dict string pyval :=
  if truthy (field_id ts) && truthy (id ts) then
    match field_map (field_id ts) with
    | Some name => set String.eqb name (id ts) timeseries_mapping
    | None => timeseries_mapping
    end
  else timeseries_mapping.

Definition create_timeseries_mapping (timeseries_list : list timeseries)
    : dict string pyval * list string :=
  let timeseries_mapping := fold_left mapping_step timeseries_list [] in
  (timeseries_mapping, missing_from expected_fields timeseries_mapping).

(** The loop of main.py for the "mrae" dataset, with its warnings. *)
Inductive warning : Type :=
| MissingIds (ts : timeseries)
| UnknownFieldId (ts : timeseries)
| MissingMappings (names : list string).

Definition main_step (acc : dict string pyval * list warning) (ts : timeseries)
    : dict string pyval * list warning :=
  let (timeseries_mapping, warnings) := acc in
  if negb (truthy (field_id ts)) || negb (truthy (id ts)) then
    (timeseries_mapping, warnings ++ [MissingIds ts])
  else
    match field_map (field_id ts) with
    | Some name => (set String.eqb name (id ts) timeseries_mapping, warnings)
    | None => (timeseries_mapping, warnings ++ [UnknownFieldId ts])
    end.

Definition main_mapping (timeseries_list : list timeseries)
    : dict string pyval * list warning :=
  let (timeseries_mapping, warnings) :=
    fold_left main_step timeseries_list ([], []) in
  let missing_fields := missing_from expected_fields timeseries_mapping in
  (timeseries_mapping,
   match missing_fields with
   | [] => warnings
   | _ :: _ => warnings ++ [MissingMappings missing_fields]
   end).

(** What a descriptor binds in both. *)
Definition binds (ts : timeseries) : option string :=
  if truthy (field_id ts) && truthy (id ts) then field_map (field_id ts)
  else None.

(** A datapoint with its five values whose timestamp ends in "Z" or in
    "+00:00". *)
Definition well_formed (dp : Cde.datapoint) : Prop :=
  Cde.complete dp = true
  /\ exists ts, get "timestamp" dp = PyStr ts
                /\ (ends_with "Z" ts = true \/ ends_with "+00:00" ts = true).

End Mrae.

(** ** console_utils.py: the date range and the limit *)

Module Console.
Import Py Datetime.

(** What [input()] gives: the line typed, [EOFError] or
    [KeyboardInterrupt]. *)
Inductive typed : Type :=
| Line (text : string)
| EndOfFile
| Interrupt.

Definition default_start_date : date := ymd 2025 5 1.
Definition default_end_date : date := ymd 2025 6 1.

(** [if s:] on an optional string argument. *)
Definition given (s : option string) : bool :=
  match s with
  | Some text => negb (String.eqb text "")
  | None => false
  end.

Section Input.

(** [input] reads a line from the console; [strip] and [lower] are the
    string methods; [strptime] is
    [datetime.strptime(s, "%Y-%m-%d").date()] and [py_int] is [int], each
    [None] for its [ValueError]. *)
Context {World : Type} (input : World -> typed * World).
Context (strip lower : string -> string).
Context (strptime : string -> option date).
Context (py_int : string -> option Z).

(** The swap of a start date after the end date. *)
Definition ordered (start_date end_date : date) : date * date :=
  if (start_date >? end_date) then (end_date, start_date)
  else (start_date, end_date).

(** One date of the interactive part: the default for an empty or
    unreadable line. *)
Definition date_of_line (text : string) (default : date) : date :=
  let text := strip text in
  if String.eqb text "" then default
  else match strptime text with
       | Some d => d
       | None => default
       end.

Definition ask_date_range (w : World) : (date * date) * World :=
  match input w with
  | (Line start_input, w1) =>
      let start_date := date_of_line start_input default_start_date in
      match input w1 with
      | (Line end_input, w2) =>
          let end_date := date_of_line end_input default_end_date in
          (ordered start_date end_date, w2)
      | (_, w2) => ((default_start_date, default_end_date), w2)
      end
  | (_, w1) => ((default_start_date, default_end_date), w1)
  end.

(** [env] is whether the NON_INTERACTIVE variable is "1". *)
Definition get_date_range_input (start_date_str end_date_str : option string)
    (non_interactive env : bool) (w : World) : (date * date) * World :=
  if (non_interactive || env) && given start_date_str && given end_date_str
  then
    match start_date_str, end_date_str with
    | Some s, Some e =>
        match strptime s, strptime e with
        | Some start_date, Some end_date =>
            (ordered start_date end_date, w)
        | _, _ => ask_date_range w
        end
    | _, _ => ask_date_range w
    end
  else ask_date_range w.

Definition says_yes (text : string) : bool :=
  let answer := lower (strip text) in
  String.eqb answer "y" || String.eqb answer "yes".

Definition get_limit_input (default_limit : Z) (custom_limit : option Z)
    (w : World) : Z * World :=
  match custom_limit with
  | Some limit => (limit, w)
  | None =>
      match input w with
      | (Line user_input, w1) =>
          let user_input := strip user_input in
          if String.eqb user_input "" then (default_limit, w1)
          else
            match py_int user_input with
            | None => (default_limit, w1)
            | Some limit =>
                if (limit <=? 0) then (default_limit, w1)
                else if (limit >? 1000) then
                  match input w1 with
                  | (Line confirm, w2) =>
                      if says_yes confirm then (limit, w2)
                      else (default_limit, w2)
                  | (_, w2) => (default_limit, w2)
                  end
                else (limit, w1)
            end
      | (_, w1) => (default_limit, w1)
      end
  end.

End Input.

End Console.

(** ** More small worlds *)

Module Samples.
Import Py Datetime.

(** The upstream of [Fixture.flaky] with a token endpoint that refuses. *)
Definition locked (fails_from : Z) : Faen.upstream Z nat := {|
  Faen.token_post := fun w => (None, w);
  Faen.session_post := Faen.session_post (Fixture.flaky fails_from)
|}.

Definition signed_out : Faen.state nat := Faen.mk_state None 0%nat [].

(** A GET upstream that answers a chunk with the one record of its lower
    bound when the chunk starts before [fails_from], and fails the others. *)
Definition lower_bound_of (ep : FaenGet.endpoint) (p : FaenGet.params) : list Z :=
  match lookup String.eqb (FaenGet.date_field ep) (FaenGet.param_query p) with
  | Some b =>
      match lookup String.eqb "$gte" b with
      | Some (Iso t) => [t]
      | _ => []
      end
  | None => []
  end.

Definition flaky_get (fails_from : Z) : FaenGet.upstream Z nat := {|
  FaenGet.token_post := fun w => (Some "token", w);
  FaenGet.session_get := fun ep p w =>
    (match lower_bound_of ep p with
     | t :: _ => if (t <? fails_from) then Faen.Json [t] else Faen.RequestFailed
     | [] => Faen.RequestFailed
     end, S w)
|}.

Definition signed_in_get : FaenGet.state nat :=
  FaenGet.mk_state (Some "token") 0%nat [].

End Samples.

(* ===================================================================== *)
(** * Part II: theorems *)
(* ===================================================================== *)

Module PyFacts.
Import Py.

Section StringKeys.
Context {V : Type}.
Implicit Types (d : dict string V) (k : string) (v : V).

Lemma lookup_set_same k v d :
  lookup String.eqb k (set String.eqb k v d) = Some v.
Proof.
  induction d as [| [k' v'] d IH]; simpl.
  - now rewrite String.eqb_refl.
  - destruct (String.eqb k k') eqn:E; simpl; rewrite E; [reflexivity | exact IH].
Qed.

Lemma lookup_set_other k k' v d :
  k <> k' -> lookup String.eqb k (set String.eqb k' v d) = lookup String.eqb k d.
Proof.
  intros Hne. apply String.eqb_neq in Hne.
  induction d as [| [k0 v0] d IH]; simpl.
  - now rewrite Hne.
  - destruct (String.eqb k' k0) eqn:E; simpl.
    + apply String.eqb_eq in E. subst k0. now rewrite Hne.
    + destruct (String.eqb k k0); [reflexivity | exact IH].
Qed.

End StringKeys.

(** Keys of a dictionary with string keys. *)
Section Keys.
Context {V : Type}.
Implicit Types (d : dict string V) (k : string) (v : V).

Lemma mem_keys k d : mem String.eqb k d = true <-> In k (keys d).
Proof.
  unfold mem, keys. induction d as [| [k' v'] d IH]; cbn [lookup map fst In].
  - split; [discriminate | contradiction].
  - destruct (String.eqb_spec k k') as [-> | Hne].
    + split; auto.
    + rewrite IH. split; [auto | intros [E | H]; [congruence | exact H]].
Qed.

Lemma keys_set k v d :
  keys (set String.eqb k v d)
  = if mem String.eqb k d then keys d else keys d ++ [k].
Proof.
  unfold mem, keys. induction d as [| [k' v'] d IH]; cbn [set lookup map fst].
  - reflexivity.
  - destruct (String.eqb k k'); cbn [map fst]; [reflexivity |].
    rewrite IH. now destruct (lookup String.eqb k d).
Qed.

Lemma keys_set_in k v d k' :
  In k' (keys (set String.eqb k v d)) <-> In k' (keys d) \/ k' = k.
Proof.
  rewrite keys_set. destruct (mem String.eqb k d) eqn:E.
  - apply mem_keys in E. split; [auto | intros [H | ->]; assumption].
  - rewrite in_app_iff. cbn [In]. intuition congruence.
Qed.

Lemma keys_set_nodup k v d :
  NoDup (keys d) -> NoDup (keys (set String.eqb k v d)).
Proof.
  intros H. rewrite keys_set. destruct (mem String.eqb k d) eqn:E; [exact H |].
  apply NoDup_app; [exact H | repeat constructor; intros [] | ].
  intros x Hx [<- | []]. apply mem_keys in Hx. congruence.
Qed.

End Keys.

(** The order of [sorted] and the independence of its result from the
    order of its argument. *)
Lemma lt_irrefl (a : string) : ~ String_as_OT.lt a a.
Proof. exact (@StrictOrder_Irreflexive _ _ String_as_OT.lt_strorder a). Qed.

Lemma lt_trans (a b c : string) :
  String_as_OT.lt a b -> String_as_OT.lt b c -> String_as_OT.lt a c.
Proof. exact (@StrictOrder_Transitive _ _ String_as_OT.lt_strorder a b c). Qed.

Lemma str_leb_iff (a b : string) :
  str_leb a b = true <-> a = b \/ String_as_OT.lt a b.
Proof.
  unfold str_leb.
  destruct (String_as_OT.compare_spec a b) as [E | L | G]; split; auto;
    try discriminate.
  intros [-> | L]; exfalso.
  - exact (lt_irrefl _ G).
  - exact (lt_irrefl _ (lt_trans _ _ _ L G)).
Qed.

Lemma str_leb_total (a b : string) : str_leb a b = true \/ str_leb b a = true.
Proof.
  rewrite !str_leb_iff.
  destruct (String_as_OT.compare_spec a b) as [E | L | G]; auto.
Qed.

Lemma str_leb_antisym (a b : string) :
  str_leb a b = true -> str_leb b a = true -> a = b.
Proof.
  rewrite !str_leb_iff. intros [-> | H1] [E | H2]; auto.
  exfalso. exact (lt_irrefl _ (lt_trans _ _ _ H1 H2)).
Qed.

Lemma str_leb_trans (a b c : string) :
  str_leb a b = true -> str_leb b c = true -> str_leb a c = true.
Proof.
  rewrite !str_leb_iff. intros [-> | H1] [-> | H2]; auto.
  right. exact (lt_trans _ _ _ H1 H2).
Qed.

Lemma str_leb_false (a b : string) : str_leb a b = false -> str_leb b a = true.
Proof. destruct (str_leb_total a b) as [H | H]; [congruence | auto]. Qed.

Lemma insert_sorted_comm (x y : string) (l : list string) :
  insert_sorted x (insert_sorted y l) = insert_sorted y (insert_sorted x l).
Proof.
  induction l as [| h l IH]; cbn [insert_sorted].
  - destruct (str_leb x y) eqn:Exy, (str_leb y x) eqn:Eyx; try reflexivity.
    + now rewrite (str_leb_antisym x y Exy Eyx).
    + apply str_leb_false in Exy. congruence.
  - destruct (str_leb x h) eqn:Exh, (str_leb y h) eqn:Eyh; cbn [insert_sorted].
    + destruct (str_leb x y) eqn:Exy, (str_leb y x) eqn:Eyx;
        rewrite ?Exh, ?Eyh; try reflexivity.
      * now rewrite (str_leb_antisym x y Exy Eyx).
      * apply str_leb_false in Exy. congruence.
    + rewrite Exh.
      assert (Eyx : str_leb y x = false).
      { destruct (str_leb y x) eqn:E; [| reflexivity].
        rewrite (str_leb_trans y x h E Exh) in Eyh. discriminate. }
      now rewrite Eyx, Eyh.
    + rewrite Eyh.
      assert (Exy : str_leb x y = false).
      { destruct (str_leb x y) eqn:E; [| reflexivity].
        rewrite (str_leb_trans x y h E Eyh) in Exh. discriminate. }
      now rewrite Exy, Exh.
    + now rewrite Exh, Eyh, IH.
Qed.

Lemma sorted_permutation (l l' : list string) :
  Permutation l l' -> sorted l = sorted l'.
Proof.
  unfold sorted. induction 1 as [| x l l' _ IH | x y l | l l' l'' _ IH1 _ IH2];
    cbn [fold_right].
  - reflexivity.
  - now rewrite IH.
  - apply insert_sorted_comm.
  - now rewrite IH1.
Qed.

Lemma insert_sorted_in (x y : string) (l : list string) :
  In y (insert_sorted x l) <-> y = x \/ In y l.
Proof.
  induction l as [| h l IH]; cbn [insert_sorted In].
  - split; intros [H | H]; auto.
  - destruct (str_leb x h); cbn [In]; [split; intros [H | H]; auto |].
    rewrite IH. tauto.
Qed.

Lemma sorted_in (y : string) (l : list string) : In y (sorted l) <-> In y l.
Proof.
  unfold sorted. induction l as [| x l IH]; cbn [fold_right In]; [tauto |].
  rewrite insert_sorted_in, IH. split; intros [H | H]; auto.
Qed.

Lemma insert_sorted_nodup (x : string) (l : list string) :
  ~ In x l -> NoDup l -> NoDup (insert_sorted x l).
Proof.
  induction l as [| h l IH]; cbn [insert_sorted]; intros Hx Hl.
  - repeat constructor. intros [].
  - destruct (str_leb x h); [constructor; assumption |].
    inversion Hl as [| ? ? Hh Hl']; subst. constructor.
    + rewrite insert_sorted_in. intros [-> | H]; [apply Hx; now left | auto].
    + apply IH; [intros H; apply Hx; now right | assumption].
Qed.

Lemma sorted_nodup (l : list string) : NoDup l -> NoDup (sorted l).
Proof.
  unfold sorted. induction 1 as [| x l Hx Hl IH]; cbn [fold_right].
  - constructor.
  - apply insert_sorted_nodup; [| exact IH].
    intros H. apply Hx. now apply sorted_in.
Qed.

(** Slices and the cutting of a list into consecutive pieces. *)
Section Slices.
Context {A : Type}.
Implicit Types (l : list A).

Lemma firstn_add_skipn (a c : nat) l :
  firstn (a + c) l = firstn a l ++ firstn c (skipn a l).
Proof.
  revert l. induction a as [| a IH]; intros l; [reflexivity |].
  destruct l as [| x l]; cbn [Nat.add firstn skipn app].
  - now rewrite firstn_nil.
  - now rewrite IH.
Qed.

Lemma slice_nonneg l (a c : Z) :
  0 <= a -> 0 <= c ->
  slice l a (a + c) = firstn (Z.to_nat c) (skipn (Z.to_nat a) l).
Proof.
  intros Ha Hc. unfold slice, clamp_index.
  destruct (Z.ltb_spec a 0) as [| _]; [lia |].
  destruct (Z.ltb_spec (a + c) 0) as [| _]; [lia |].
  set (n := Z.of_nat (List.length l)).
  destruct (Z_lt_dec a n) as [Hin | Hout].
  - rewrite (Z.min_l a n) by lia.
    destruct (Z_le_dec (a + c) n) as [Hfit | Hcut].
    + rewrite Z.min_l by lia. do 2 f_equal. lia.
    + rewrite Z.min_r by lia.
      rewrite !firstn_all2; [reflexivity | |]; rewrite length_skipn; lia.
  - rewrite !Z.min_r by lia. rewrite Z.sub_diag. cbn [Z.to_nat firstn].
    rewrite (skipn_all2 l) by lia. now rewrite firstn_nil.
Qed.

Lemma concat_pieces (b k : nat) l :
  List.concat (map (fun i => firstn b (skipn (i * b) l)) (seq 0 k))
  = firstn (k * b) l.
Proof.
  induction k as [| k IH]; [reflexivity |].
  rewrite seq_S, map_app, concat_app, IH. cbn [map List.concat Nat.add].
  rewrite app_nil_r. replace (S k * b)%nat with (k * b + b)%nat by lia.
  now rewrite firstn_add_skipn.
Qed.

Lemma slice_incl l (a b : Z) (x : A) : In x (slice l a b) -> In x l.
Proof.
  unfold slice.
  generalize (Z.to_nat (clamp_index (Z.of_nat (List.length l)) a)).
  generalize (Z.to_nat (clamp_index (Z.of_nat (List.length l)) b
                        - clamp_index (Z.of_nat (List.length l)) a)).
  intros m n H.
  rewrite <- (firstn_skipn n l). apply in_or_app. right.
  rewrite <- (firstn_skipn m (skipn n l)). apply in_or_app. now left.
Qed.

Lemma skipn_length_app (l1 l2 : list A) : skipn (List.length l1) (l1 ++ l2) = l2.
Proof. induction l1 as [| x l1 IH]; [reflexivity | exact IH]. Qed.

End Slices.

End PyFacts.

Module FaenFacts.
Import Py Datetime Faen PyFacts.

#[local] Arguments days : simpl never.

Lemma date_chunks_step (e s : datetime) :
  s < e ->
  date_chunks e s
  = (s, Z.min (s + days 10) e) :: date_chunks e (Z.min (s + days 10) e).
Proof.
  intros H. rewrite date_chunks_equation_1.
  destruct (Z_lt_dec s e); [reflexivity | contradiction].
Qed.

Lemma date_chunks_done (e s : datetime) : ~ s < e -> date_chunks e s = [].
Proof.
  intros H. rewrite date_chunks_equation_1.
  destruct (Z_lt_dec s e); [contradiction | reflexivity].
Qed.

Lemma days_10_pos : 0 < days 10.
Proof. unfold days, us_per_day. lia. Qed.

Lemma date_chunks_tiling (e s : datetime) :
  s < e -> tiling s e (date_chunks e s).
Proof.
  remember (Z.to_nat (e - s)) as n eqn:Hn.
  revert s Hn. induction n as [n IH] using lt_wf_ind. intros s Hn Hlt.
  rewrite date_chunks_step by assumption.
  pose proof days_10_pos as Hpos.
  destruct (Z_lt_dec (s + days 10) e) as [Hmore | Hlast].
  - rewrite Z.min_l by lia. apply tiling_cons; [assumption |].
    apply (IH (Z.to_nat (e - (s + days 10)))); [lia | reflexivity | assumption].
  - rewrite Z.min_r by lia. rewrite date_chunks_done by lia.
    apply tiling_last; lia.
Qed.

Lemma tiling_head s e cs :
  tiling s e cs -> exists b cs', cs = (s, b) :: cs' /\ s < b <= e.
Proof.
  pose proof days_10_pos.
  intros [s0 e0 H1 H2 | s0 e0 cs0 H1 H2]; eexists; eexists; split;
    try reflexivity; lia.
Qed.

Lemma tiling_within s e cs :
  tiling s e cs -> forall c, In c cs -> s <= fst c /\ fst c < snd c /\ snd c <= e.
Proof.
  pose proof days_10_pos as Hpos.
  induction 1 as [s e H1 H2 | s e cs H1 H2 IH]; intros c Hin.
  - destruct Hin as [<- | []]. cbn [fst snd List.length Nat.ltb Nat.leb]. lia.
  - destruct Hin as [<- | Hin]; [cbn [fst snd]; lia |].
    specialize (IH c Hin). lia.
Qed.

Lemma tiling_covers s e cs : tiling s e cs -> covers s e cs.
Proof.
  pose proof days_10_pos as Hpos.
  induction 1 as [s e H1 H2 | s e cs H1 H2 IH]; intros t; split.
  - intros Ht. exists (s, e). simpl. auto.
  - intros [c [[<- | []] Hc]]. exact Hc.
  - intros Ht. destruct (Z_lt_dec t (s + days 10)) as [Hl | Hr].
    + exists (s, s + days 10). cbn [fst snd In]. split; [auto | lia].
    + destruct (proj1 (IH t)) as [c [Hin Hc]]; [lia |].
      exists c. simpl. auto.
  - intros [c [[<- | Hin] Hc]]; [cbn [fst snd] in Hc; lia |].
    assert (s + days 10 <= t < e) by (apply IH; exists c; auto). lia.
Qed.

Lemma tiling_contiguous s e cs : tiling s e cs -> contiguous cs.
Proof.
  induction 1 as [s e H1 H2 | s e cs H1 H2 IH]; intros i c d Hc Hd.
  - destruct i; simpl in Hd; [discriminate | destruct i; discriminate].
  - destruct i as [| i]; simpl in Hc, Hd.
    + injection Hc as <-.
      destruct (tiling_head _ _ _ H2) as [b [cs' [-> _]]].
      simpl in Hd. injection Hd as <-. reflexivity.
    + exact (IH i c d Hc Hd).
Qed.

Lemma tiling_ascending s e cs : tiling s e cs -> ascending cs.
Proof.
  pose proof days_10_pos as Hpos.
  induction 1 as [s e H1 H2 | s e cs H1 H2 IH]; intros i j c d Hij Hc Hd.
  - destruct j as [| j]; [lia |]. simpl in Hd. destruct j; discriminate.
  - destruct j as [| j]; [lia |]. simpl in Hd.
    destruct i as [| i]; simpl in Hc.
    + injection Hc as <-. cbn [fst snd].
      apply nth_error_In in Hd.
      pose proof (tiling_within _ _ _ H2 d Hd). lia.
    + apply (IH i j c d); [lia | assumption | assumption].
Qed.

Lemma tiling_ten_days s e cs : tiling s e cs -> ten_days_but_last e cs.
Proof.
  induction 1 as [s e H1 H2 | s e cs H1 H2 IH]; intros i c Hc.
  - destruct i as [| i]; simpl in Hc; [| destruct i; discriminate].
    injection Hc as <-. cbn [fst snd List.length Nat.ltb Nat.leb]. lia.
  - destruct i as [| i]; simpl in Hc.
    + injection Hc as <-.
      destruct (tiling_head _ _ _ H2) as [b [cs' [-> _]]]. cbn [fst snd List.length Nat.ltb Nat.leb]. lia.
    + specialize (IH i c Hc). simpl List.length.
      change (S (S i) <? S (List.length cs))%nat
        with (S i <? List.length cs)%nat.
      exact IH.
Qed.

Section Chunked.
Context {Rec World : Type} (api : upstream Rec World).
Implicit Types (q : query) (st : state World) (recs : list Rec).

Lemma extend_records_app recs (resp : response Rec) :
  extend_records recs resp = recs ++ records_of resp.
Proof.
  destruct resp as [data |]; simpl; [| now rewrite app_nil_r].
  destruct data; simpl; [now rewrite app_nil_r | reflexivity].
Qed.

Lemma chunk_loop_step q limit sort eumed e s recs st :
  s < e ->
  chunk_loop api q limit sort eumed e s recs st
  = let c := (s, Z.min (s + days 10) e) in
    let r := post api (chunk_request q limit sort eumed c) st in
    chunk_loop api q limit sort eumed e (snd c)
               (extend_records recs (fst r)) (snd r).
Proof.
  intros H. rewrite chunk_loop_equation_1.
  destruct (Z_lt_dec s e); [reflexivity | contradiction].
Qed.

Lemma chunk_loop_done q limit sort eumed e s recs st :
  ~ s < e -> chunk_loop api q limit sort eumed e s recs st = (recs, st).
Proof.
  intros H. rewrite chunk_loop_equation_1.
  destruct (Z_lt_dec s e); [contradiction | reflexivity].
Qed.

(** The loop posts the requests of [date_chunks] in order and appends the
    records of every answer. *)
Lemma chunk_loop_post_all q limit sort eumed e s recs st :
  chunk_loop api q limit sort eumed e s recs st
  = let r := post_all api (map (chunk_request q limit sort eumed)
                               (date_chunks e s)) st in
    (recs ++ flat_map records_of (fst r), snd r).
Proof.
  remember (Z.to_nat (e - s)) as n eqn:Hn.
  revert s recs st Hn. induction n as [n IH] using lt_wf_ind.
  intros s recs st Hn.
  destruct (Z_lt_dec s e) as [Hlt | Hge].
  - rewrite chunk_loop_step, date_chunks_step by assumption.
    cbv zeta. cbn [map post_all snd]. unfold datetime in *.
    pose proof days_10_pos as Hpos.
    destruct (post api (chunk_request q limit sort eumed
                          (s, Z.min (s + days 10) e)) st) as [resp st1].
    cbn [fst snd].
    rewrite (IH (Z.to_nat (e - Z.min (s + days 10) e))); [| lia | reflexivity].
    cbv zeta.
    destruct (post_all api _ st1) as [resps st2]. cbn [fst snd flat_map].
    now rewrite extend_records_app, <- app_assoc.
  - rewrite chunk_loop_done, date_chunks_done by assumption.
    simpl. now rewrite app_nil_r.
Qed.

Lemma post_all_sent (reqs : list request) st :
  sent (snd (post_all api reqs st)) = sent st ++ reqs.
Proof.
  revert st. induction reqs as [| r reqs IH]; intros st; simpl.
  - now rewrite app_nil_r.
  - unfold post at 1. destruct (session_post api r (world st)) as [resp w].
    match goal with |- context [post_all api reqs ?s] =>
      specialize (IH s); destruct (post_all api reqs s) as [resps st2] end.
    simpl in *. rewrite IH. now rewrite <- app_assoc.
Qed.

Lemma post_all_length (reqs : list request) st :
  List.length (fst (post_all api reqs st)) = List.length reqs.
Proof.
  revert st. induction reqs as [| r reqs IH]; intros st; simpl; [reflexivity |].
  destruct (post api r st) as [resp st1].
  specialize (IH st1). destruct (post_all api reqs st1). simpl in *. lia.
Qed.

Lemma chunk_request_bounds q limit sort eumed (c : datetime * datetime) :
  request_bounds (chunk_request q limit sort eumed c)
  = Some [("$gte", isoformat (fst c)); ("$lt", isoformat (snd c))].
Proof. unfold request_bounds, chunk_request, chunk_query. apply lookup_set_same. Qed.

Lemma chunked_sent q limit sort eumed s e st :
  sent (snd (_query_consumption_chunked api q limit sort eumed s e st))
  = sent st ++ map (chunk_request q limit sort eumed) (date_chunks e s).
Proof.
  unfold _query_consumption_chunked. rewrite chunk_loop_post_all.
  cbv zeta. cbn [snd]. apply post_all_sent.
Qed.

Lemma query_consumption_signed_in q limit sort eumed st :
  no_token st = false ->
  query_consumption api q limit sort eumed st
  = query_consumption_authenticated api q limit sort eumed st.
Proof. intros H. unfold query_consumption. now rewrite H. Qed.

Lemma td_days_gt_10 (delta : Z) : td_days delta > 10 -> days 11 <= delta.
Proof.
  unfold td_days, days. intros H.
  pose proof (Z.mul_div_le delta us_per_day ltac:(reflexivity)) as Hle.
  unfold us_per_day in *. lia.
Qed.

Lemma tiling_two s e cs :
  tiling s e cs -> days 10 < e - s -> (2 <= List.length cs)%nat.
Proof.
  intros [s0 e0 H1 H2 | s0 e0 cs0 H1 H2] Hspan; [lia |].
  destruct (tiling_head _ _ _ H2) as [b [cs' [-> _]]]. simpl. lia.
Qed.

End Chunked.

(** C1.  [create_full_day_query] puts its strict upper bound at midnight of
    the day AFTER [end_date], for every pair of dates; so the query built for
    2025-05-01 to 2025-06-01 selects a record stamped 2025-06-01T00:00:00,
    and one stamped 23:59:59 of that day, and the first instant it leaves
    out is 2025-06-02T00:00:00. *)
Theorem full_day_query_upper_bound_is_day_after_end :
  (forall start_date end_date : date,
      create_full_day_query (ADate start_date) (ADate end_date)
      = [("datetime", [("$gte", Iso (combine_min start_date));
                       ("$lt", Iso (combine_min (end_date + 1)))])])
  /\ (let b := [("$gte", Iso (midnight 2025 5 1));
                ("$lt", Iso (midnight 2025 6 2))] in
      create_full_day_query (ADate (ymd 2025 5 1)) (ADate (ymd 2025 6 1))
      = [("datetime", b)]
      /\ satisfies b (midnight 2025 6 1) = true
      /\ satisfies b (midnight 2025 6 2 - 1000000) = true
      /\ satisfies b (midnight 2025 6 2) = false).
Proof.
  split; [reflexivity |]. cbv zeta. repeat split; vm_compute; reflexivity.
Qed.

(** C2.  The requests posted by the chunk loop for a range [[s, e)] with
    [s < e] (in particular for every span above ten days) carry sub-ranges
    that cover exactly [[s, e)], each starting where the one before ends,
    in ascending order without overlap, ten days long except the last,
    which ends at [e] and is at most ten days long.  The range 2025-05-01
    to 2025-05-15 gives the two requests [[05-01, 05-11)] and
    [[05-11, 05-15)]. *)
Theorem chunked_query_ranges_partition :
  forall (Rec World : Type) (api : upstream Rec World) (q : query)
         (limit : Z) (sort : option string) (eumed : bool),
    (forall (s e : datetime) (st : state World),
        s < e ->
        exists cs,
          sent (snd (_query_consumption_chunked api q limit sort eumed s e st))
          = sent st ++ map (chunk_request q limit sort eumed) cs
          /\ Forall (fun c =>
                       request_bounds (chunk_request q limit sort eumed c)
                       = Some [("$gte", isoformat (fst c));
                               ("$lt", isoformat (snd c))]) cs
          /\ covers s e cs /\ contiguous cs /\ ascending cs
          /\ ten_days_but_last e cs)
    /\ (forall st : state World,
          sent st = [] ->
          map request_bounds
              (sent (snd (_query_consumption_chunked api q limit sort eumed
                            (midnight 2025 5 1) (midnight 2025 5 15) st)))
          = [Some [("$gte", Iso (midnight 2025 5 1));
                   ("$lt", Iso (midnight 2025 5 11))];
             Some [("$gte", Iso (midnight 2025 5 11));
                   ("$lt", Iso (midnight 2025 5 15))]]).
Proof.
  intros Rec World api q limit sort eumed. split.
  - intros s e st Hlt. exists (date_chunks e s).
    pose proof (date_chunks_tiling e s Hlt) as T.
    split; [apply chunked_sent |].
    split; [apply Forall_forall; intros c _; apply chunk_request_bounds |].
    split; [exact (tiling_covers _ _ _ T) |].
    split; [exact (tiling_contiguous _ _ _ T) |].
    split; [exact (tiling_ascending _ _ _ T) | exact (tiling_ten_days _ _ _ T)].
  - intros st Hst. rewrite chunked_sent, Hst. cbn [app].
    assert (E : date_chunks (midnight 2025 5 15) (midnight 2025 5 1)
                = [(midnight 2025 5 1, midnight 2025 5 11);
                   (midnight 2025 5 11, midnight 2025 5 15)]).
    { rewrite date_chunks_step by (vm_compute; reflexivity).
      replace (Z.min (midnight 2025 5 1 + days 10) (midnight 2025 5 15))
        with (midnight 2025 5 11) by (vm_compute; reflexivity).
      rewrite date_chunks_step by (vm_compute; reflexivity).
      replace (Z.min (midnight 2025 5 11 + days 10) (midnight 2025 5 15))
        with (midnight 2025 5 15) by (vm_compute; reflexivity).
      rewrite date_chunks_done by (vm_compute; discriminate).
      reflexivity. }
    rewrite E. cbn [map]. now rewrite !chunk_request_bounds.
Qed.

Lemma chunked_query_ranges_partition_witness :
  midnight 2025 5 1 < midnight 2025 5 15
  /\ exists cs,
      sent (snd (_query_consumption_chunked (Fixture.flaky (midnight 2025 5 11))
                   [] 100 (Some "+datetime") false
                   (midnight 2025 5 1) (midnight 2025 5 15) Fixture.signed_in))
      = sent Fixture.signed_in
        ++ map (chunk_request [] 100 (Some "+datetime") false) cs
      /\ Forall (fun c =>
                   request_bounds (chunk_request [] 100 (Some "+datetime") false c)
                   = Some [("$gte", isoformat (fst c));
                           ("$lt", isoformat (snd c))]) cs
      /\ covers (midnight 2025 5 1) (midnight 2025 5 15) cs
      /\ contiguous cs /\ ascending cs
      /\ ten_days_but_last (midnight 2025 5 15) cs.
Proof.
  split; [vm_compute; reflexivity |].
  apply (proj1 (chunked_query_ranges_partition Z nat
                  (Fixture.flaky (midnight 2025 5 11)) []
                  100 (Some "+datetime") false)).
  vm_compute; reflexivity.
Defined.

(** A run: 2025-05-01 to 2025-05-24 (an upper bound of 05-25, three
    chunks) against an upstream that fails every chunk starting on 05-11 or
    later.  The records of the first chunk are returned, and all three
    requests were posted. *)
Example flaky_run :
  let q := create_full_day_query (ADate (ymd 2025 5 1)) (ADate (ymd 2025 5 24)) in
  let r := query_consumption (Fixture.flaky (midnight 2025 5 11)) q 100 None
                             false Fixture.signed_in in
  fst r = Returned [midnight 2025 5 1]
  /\ world (snd r) = 3%nat
  /\ map Fixture.lower_bound (sent (snd r))
     = [[midnight 2025 5 1]; [midnight 2025 5 11]; [midnight 2025 5 21]].
Proof.
  cbv zeta. rewrite query_consumption_signed_in by reflexivity.
  unfold query_consumption_authenticated.
  change (datetime_range _)
    with (Some (Some (midnight 2025 5 1, midnight 2025 5 25))).
  cbv iota beta.
  change (td_days (midnight 2025 5 25 - midnight 2025 5 1) >? 10) with true.
  cbv iota. unfold _query_consumption_chunked. rewrite chunk_loop_post_all.
  rewrite date_chunks_step by (vm_compute; reflexivity).
  replace (Z.min (midnight 2025 5 1 + days 10) (midnight 2025 5 25))
    with (midnight 2025 5 11) by (vm_compute; reflexivity).
  rewrite date_chunks_step by (vm_compute; reflexivity).
  replace (Z.min (midnight 2025 5 11 + days 10) (midnight 2025 5 25))
    with (midnight 2025 5 21) by (vm_compute; reflexivity).
  rewrite date_chunks_step by (vm_compute; reflexivity).
  replace (Z.min (midnight 2025 5 21 + days 10) (midnight 2025 5 25))
    with (midnight 2025 5 25) by (vm_compute; reflexivity).
  rewrite date_chunks_done by (vm_compute; discriminate).
  vm_compute. repeat split.
Qed.

(** C3.  For a signed-in client and a query whose bounds parse to
    [[s, e)]: when the day count of [e - s] exceeds 10 the requests posted
    are those of at least two ten-day chunks tiling [[s, e)]; when it is 10
    or fewer exactly one request is posted and it carries the query
    unchanged.  Every span of ten days or fewer has a day count of at most
    10, and for bounds at midnight the day count is the difference of the
    two dates. *)
Theorem query_consumption_chunks_iff_span_exceeds_10_days :
  forall (Rec World : Type) (api : upstream Rec World) (q : query)
         (limit : Z) (sort : option string) (eumed : bool)
         (s e : datetime) (st : state World),
    no_token st = false ->
    datetime_range q = Some (Some (s, e)) ->
    let st' := snd (query_consumption api q limit sort eumed st) in
    (td_days (e - s) > 10 ->
       exists cs, tiling s e cs /\ (2 <= List.length cs)%nat
                  /\ sent st' = sent st ++ map (chunk_request q limit sort eumed) cs)
    /\ (td_days (e - s) <= 10 ->
          sent st' = sent st ++ [request_body q limit sort eumed])
    /\ (e - s <= days 10 -> td_days (e - s) <= 10)
    /\ (forall ds de : date,
          s = combine_min ds -> e = combine_min de ->
          td_days (e - s) = de - ds).
Proof.
  intros Rec World api q limit sort eumed s e st Htok Hrange st'.
  subst st'. rewrite query_consumption_signed_in by assumption.
  unfold query_consumption_authenticated. rewrite Hrange.
  repeat split.
  - intros Hdays.
    destruct (Z.gtb_spec (td_days (e - s)) 10) as [_ | Hno]; [| lia].
    pose proof (td_days_gt_10 _ Hdays) as H11.
    assert (Hlt : s < e) by (unfold days, us_per_day in H11; lia).
    exists (date_chunks e s).
    pose proof (date_chunks_tiling e s Hlt) as T.
    split; [exact T |]. split.
    + apply (tiling_two _ _ _ T). unfold days, us_per_day in *. lia.
    + pose proof (chunked_sent api q limit sort eumed s e st) as Hs.
      destruct (_query_consumption_chunked api q limit sort eumed s e st).
      exact Hs.
  - intros Hdays.
    destruct (Z.gtb_spec (td_days (e - s)) 10) as [Hno | _]; [lia |].
    unfold single_request, post.
    destruct (session_post api _ (world st)) as [[data |] w]; reflexivity.
  - unfold td_days, days, us_per_day. intros H.
    apply Z.lt_succ_r. apply Z.div_lt_upper_bound; lia.
  - intros ds de -> ->. unfold td_days, combine_min.
    rewrite <- Z.mul_sub_distr_r. apply Z.div_mul. discriminate.
Qed.

Lemma query_consumption_chunks_iff_span_exceeds_10_days_witness :
  let q := create_full_day_query (ADate (ymd 2025 5 1)) (ADate (ymd 2025 5 14)) in
  let s := midnight 2025 5 1 in
  let e := midnight 2025 5 15 in
  let api := Fixture.flaky (midnight 2025 5 11) in
  let st' := snd (query_consumption api q 100 (Some "+datetime") false
                                    Fixture.signed_in) in
  (no_token Fixture.signed_in = false /\ datetime_range q = Some (Some (s, e)))
  /\ (td_days (e - s) > 10 ->
        exists cs, tiling s e cs /\ (2 <= List.length cs)%nat
                   /\ sent st' = sent Fixture.signed_in
                        ++ map (chunk_request q 100 (Some "+datetime") false) cs)
  /\ (td_days (e - s) <= 10 ->
        sent st' = sent Fixture.signed_in
                   ++ [request_body q 100 (Some "+datetime") false])
  /\ (e - s <= days 10 -> td_days (e - s) <= 10)
  /\ (forall ds de : date,
        s = combine_min ds -> e = combine_min de -> td_days (e - s) = de - ds).
Proof.
  cbv zeta. split; [split; vm_compute; reflexivity |].
  apply (query_consumption_chunks_iff_span_exceeds_10_days Z nat
           (Fixture.flaky (midnight 2025 5 11))
           (create_full_day_query (ADate (ymd 2025 5 1)) (ADate (ymd 2025 5 14)))
           100 (Some "+datetime") false
           (midnight 2025 5 1) (midnight 2025 5 15) Fixture.signed_in);
    vm_compute; reflexivity.
Defined.

(** C4.  For a signed-in client: a query whose day count exceeds 10 returns,
    whatever the answers; every chunk of the tiling is posted, in ascending
    order, and the list returned is the concatenation, in that order, of the
    records of the chunks that succeeded (a failed chunk gives none).  A
    query that is not chunked raises the [RequestException] of its one
    request. *)
Theorem chunk_failures_are_skipped_single_failure_is_raised :
  forall (Rec World : Type) (api : upstream Rec World) (q : query)
         (limit : Z) (sort : option string) (eumed : bool) (st : state World),
    no_token st = false ->
    (forall s e : datetime,
        datetime_range q = Some (Some (s, e)) ->
        td_days (e - s) > 10 ->
        exists cs,
          covers s e cs /\ ascending cs
          /\ let answers :=
                post_all api (map (chunk_request q limit sort eumed) cs) st in
             List.length (fst answers) = List.length cs
             /\ query_consumption api q limit sort eumed st
                = (Returned (flat_map records_of (fst answers)), snd answers))
    /\ (match datetime_range q with
         | Some (Some (s, e)) => td_days (e - s) <= 10
         | _ => True
         end ->
         fst (session_post api (request_body q limit sort eumed) (world st))
         = RequestFailed ->
         fst (query_consumption api q limit sort eumed st)
         = Raised RequestException).
Proof.
  intros Rec World api q limit sort eumed st Htok.
  rewrite query_consumption_signed_in by assumption.
  unfold query_consumption_authenticated. split.
  - intros s e Hrange Hdays. rewrite Hrange.
    destruct (Z.gtb_spec (td_days (e - s)) 10) as [_ | Hno]; [| lia].
    pose proof (td_days_gt_10 _ Hdays) as H11.
    assert (Hlt : s < e) by (unfold days, us_per_day in H11; lia).
    pose proof (date_chunks_tiling e s Hlt) as T.
    exists (date_chunks e s).
    split; [exact (tiling_covers _ _ _ T) |].
    split; [exact (tiling_ascending _ _ _ T) |].
    cbv zeta. split; [now rewrite post_all_length, length_map |].
    unfold _query_consumption_chunked. rewrite chunk_loop_post_all.
    reflexivity.
  - intros Hsmall Hfail.
    assert (E : single_request api q limit sort eumed st
                = (Raised RequestException,
                   snd (post api (request_body q limit sort eumed) st))).
    { unfold single_request, post.
      destruct (session_post api _ (world st)) as [resp w].
      simpl in Hfail. subst resp. reflexivity. }
    destruct (datetime_range q) as [[[s e] |] |]; try (now rewrite E).
    destruct (Z.gtb_spec (td_days (e - s)) 10) as [Hno | _]; [lia |].
    now rewrite E.
Qed.

Lemma chunk_failures_are_skipped_single_failure_is_raised_witness :
  let api := Fixture.flaky (midnight 2025 5 11) in
  let q := create_full_day_query (ADate (ymd 2025 5 1)) (ADate (ymd 2025 5 24)) in
  let small := create_full_day_query (ADate (ymd 2025 5 12)) (ADate (ymd 2025 5 14)) in
  let s := midnight 2025 5 1 in
  let e := midnight 2025 5 25 in
  (no_token Fixture.signed_in = false
   /\ datetime_range q = Some (Some (s, e)) /\ td_days (e - s) > 10)
  /\ (exists cs,
        covers s e cs /\ ascending cs
        /\ let answers :=
              post_all api (map (chunk_request q 100 None false) cs)
                       Fixture.signed_in in
           List.length (fst answers) = List.length cs
           /\ query_consumption api q 100 None false Fixture.signed_in
              = (Returned (flat_map records_of (fst answers)), snd answers))
  /\ fst (query_consumption api small 100 None false Fixture.signed_in)
     = Raised RequestException.
Proof.
  cbv zeta.
  split; [repeat split; vm_compute; reflexivity |].
  split.
  - apply (proj1 (chunk_failures_are_skipped_single_failure_is_raised Z nat
                    (Fixture.flaky (midnight 2025 5 11))
                    (create_full_day_query (ADate (ymd 2025 5 1))
                                           (ADate (ymd 2025 5 24)))
                    100 None false Fixture.signed_in eq_refl));
      vm_compute; reflexivity.
  - apply (proj2 (chunk_failures_are_skipped_single_failure_is_raised Z nat
                    (Fixture.flaky (midnight 2025 5 11))
                    (create_full_day_query (ADate (ymd 2025 5 12))
                                           (ADate (ymd 2025 5 14)))
                    100 None false Fixture.signed_in eq_refl));
      vm_compute; [discriminate | reflexivity].
Defined.

End FaenFacts.

Module EdgFacts.
Import Py Datetime Edg PyFacts.

Section Aggregation.
Context {V : Type} (zero : V) (add : V -> V -> V).
Implicit Types (d : dict string (sums V)) (r : record V)
         (l : list (record V)) (ts : string).

#[local] Abbreviation aggregate_step := (aggregate_step zero add).
#[local] Abbreviation entry := (entry zero).
#[local] Abbreviation sums_for := (sums_for add).
#[local] Abbreviation aggregate := (aggregate_by_timestamp zero add).

Lemma entry_step d r ts :
  entry (aggregate_step d r) ts = sums_step add ts (entry d ts) r.
Proof.
  unfold Edg.aggregate_step, sums_step, Edg.entry at 1.
  destruct (String.eqb_spec (normalize_timestamp (timestamp r)) ts) as [<- | Hne].
  - now rewrite lookup_set_same.
  - rewrite lookup_set_other by congruence. reflexivity.
Qed.

Lemma entry_fold l d ts :
  entry (fold_left aggregate_step l d) ts = sums_for ts l (entry d ts).
Proof.
  revert d. induction l as [| r l IH]; intros d; [reflexivity |].
  cbn [fold_left]. unfold Edg.sums_for in *. cbn [fold_left].
  now rewrite IH, entry_step.
Qed.

Lemma keys_step d r :
  NoDup (keys d) -> NoDup (keys (aggregate_step d r)).
Proof. apply keys_set_nodup. Qed.

Lemma keys_fold_nodup l d :
  NoDup (keys d) -> NoDup (keys (fold_left aggregate_step l d)).
Proof.
  revert d. induction l as [| r l IH]; intros d H; [exact H |].
  cbn [fold_left]. apply IH, keys_step, H.
Qed.

Lemma keys_fold_in l d ts :
  In ts (keys (fold_left aggregate_step l d))
  <-> In ts (keys d)
      \/ In ts (map (fun r => normalize_timestamp (timestamp r)) l).
Proof.
  revert d. induction l as [| r l IH]; intros d; cbn [fold_left map In].
  - tauto.
  - rewrite IH. unfold Edg.aggregate_step. rewrite keys_set_in.
    intuition congruence.
Qed.

(** The sums of one timestamp are the sums, in row order, of the values of
    its rows of each kind. *)
Lemma sums_for_consumed ts l (s0 : sums V) :
  consumedEnergy (sums_for ts l s0)
  = fold_left add (values_of "consumedEnergy" ts l) (consumedEnergy s0).
Proof.
  unfold Edg.sums_for, values_of. revert s0.
  induction l as [| r l IH]; intros s0; [reflexivity |].
  cbn [fold_left filter]. rewrite IH. unfold sums_step.
  destruct (String.eqb (normalize_timestamp (timestamp r)) ts);
    cbn [andb]; [| reflexivity].
  unfold add_measurement, is_kind. destruct (measurement r) as [m |];
    [| reflexivity].
  destruct (String.eqb_spec m "consumedEnergy") as [-> | Hne]; [reflexivity |].
  now destruct (String.eqb m "generatedEnergy").
Qed.

Lemma sums_for_generated ts l (s0 : sums V) :
  generatedEnergy (sums_for ts l s0)
  = fold_left add (values_of "generatedEnergy" ts l) (generatedEnergy s0).
Proof.
  unfold Edg.sums_for, values_of. revert s0.
  induction l as [| r l IH]; intros s0; [reflexivity |].
  cbn [fold_left filter]. rewrite IH. unfold sums_step.
  destruct (String.eqb (normalize_timestamp (timestamp r)) ts);
    cbn [andb]; [| reflexivity].
  unfold add_measurement, is_kind. destruct (measurement r) as [m |];
    [| reflexivity].
  destruct (String.eqb_spec m "consumedEnergy") as [-> | Hne]; [reflexivity |].
  now destruct (String.eqb m "generatedEnergy").
Qed.

Lemma aggregate_timestamps l :
  map agg_timestamp (aggregate l)
  = sorted (keys (fold_left aggregate_step l [])).
Proof.
  unfold aggregate_by_timestamp. rewrite map_map. cbn [result_entry agg_timestamp].
  apply map_id.
Qed.

Lemma aggregate_entries l :
  aggregate l
  = map (fun ts => mk_aggregated ts
                     (total zero add (values_of "consumedEnergy" ts l))
                     (total zero add (values_of "generatedEnergy" ts l)))
        (sorted (keys (fold_left aggregate_step l []))).
Proof.
  unfold aggregate_by_timestamp. apply map_ext. intros ts.
  unfold result_entry, total. rewrite entry_fold.
  now rewrite sums_for_consumed, sums_for_generated.
Qed.

(** Reordering the rows. *)
Lemma keys_permutation l l' :
  Permutation l l' ->
  sorted (keys (fold_left aggregate_step l' []))
  = sorted (keys (fold_left aggregate_step l [])).
Proof.
  intros HP. apply sorted_permutation. apply NoDup_Permutation.
  - apply keys_fold_nodup. constructor.
  - apply keys_fold_nodup. constructor.
  - intros ts. rewrite !keys_fold_in. cbn [keys map In].
    split; intros [[] | H]; right.
    + apply (Permutation_in ts (Permutation_map _ (Permutation_sym HP))), H.
    + apply (Permutation_in ts (Permutation_map _ HP)), H.
Qed.

Lemma sums_for_permutation ts l l' :
  (forall s a b : V, add (add s a) b = add (add s b) a) ->
  Permutation l l' -> forall s0, sums_for ts l' s0 = sums_for ts l s0.
Proof.
  intros Hcomm. unfold Edg.sums_for.
  assert (Hstep : forall s r1 r2,
             sums_step add ts (sums_step add ts s r1) r2
             = sums_step add ts (sums_step add ts s r2) r1).
  { intros s r1 r2. unfold sums_step.
    destruct (String.eqb (normalize_timestamp (timestamp r1)) ts),
             (String.eqb (normalize_timestamp (timestamp r2)) ts);
      try reflexivity.
    unfold add_measurement.
    destruct (measurement r1) as [m1 |], (measurement r2) as [m2 |];
      try reflexivity.
    destruct (String.eqb m1 "consumedEnergy"), (String.eqb m2 "consumedEnergy"),
             (String.eqb m1 "generatedEnergy"), (String.eqb m2 "generatedEnergy");
      cbn [consumedEnergy generatedEnergy]; try reflexivity;
      now rewrite Hcomm. }
  induction 1 as [| x l l' _ IH | x y l | l l' l'' _ IH1 _ IH2]; intros s0;
    cbn [fold_left].
  - reflexivity.
  - apply IH.
  - now rewrite Hstep.
  - now rewrite IH2, IH1.
Qed.

Lemma values_of_permutation kind ts l l' :
  Permutation l l' ->
  Permutation (values_of kind ts l) (values_of kind ts l').
Proof.
  intros HP. unfold values_of. apply Permutation_map.
  induction HP as [| x l l' _ IH | x y l | l l' l'' _ IH1 _ IH2];
    cbn [filter].
  - constructor.
  - destruct (_ && _); [now constructor | exact IH].
  - destruct (String.eqb (normalize_timestamp (timestamp y)) ts
              && is_kind kind (measurement y)),
             (String.eqb (normalize_timestamp (timestamp x)) ts
              && is_kind kind (measurement x));
      try apply Permutation_refl.
    apply perm_swap.
  - exact (perm_trans IH1 IH2).
Qed.

Lemma total_app (p vs : list V) :
  total zero add (p ++ vs) = fold_left add vs (total zero add p).
Proof. unfold total. apply fold_left_app. Qed.

Lemma exchangeable_permutation (vs vs' : list V) :
  Permutation vs vs' ->
  exchangeable zero add vs -> exchangeable zero add vs'.
Proof.
  intros HP H summed a b rest Hs. apply (H summed a b rest).
  exact (perm_trans Hs (Permutation_sym HP)).
Qed.

Lemma fold_exchangeable (vs vs' : list V) :
  Permutation vs vs' ->
  forall p : list V,
    exchangeable zero add (p ++ vs) ->
    fold_left add vs' (total zero add p) = fold_left add vs (total zero add p).
Proof.
  induction 1 as [| x l l' _ IH | x y l | l l' l'' HP1 IH1 _ IH2];
    intros p Hex; cbn [fold_left].
  - reflexivity.
  - replace (add (total zero add p) x) with (total zero add (p ++ [x]))
      by (rewrite total_app; reflexivity).
    apply IH. now rewrite <- app_assoc.
  - f_equal. symmetry. exact (Hex p y x l (Permutation_refl _)).
  - rewrite IH2, IH1; [reflexivity | exact Hex |].
    exact (exchangeable_permutation _ _
             (Permutation_app_head p HP1) Hex).
Qed.

Lemma total_permutation (vs vs' : list V) :
  Permutation vs vs' -> exchangeable zero add vs ->
  total zero add vs' = total zero add vs.
Proof. intros HP Hex. exact (fold_exchangeable vs vs' HP [] Hex). Qed.

(** Two values at most are exchangeable as soon as they can be added to
    zero in either order. *)
Lemma exchangeable_short (vs : list V) :
  (List.length vs <= 2)%nat ->
  (forall a b, In a vs -> In b vs ->
               add (add zero a) b = add (add zero b) a) ->
  exchangeable zero add vs.
Proof.
  intros Hlen H summed a b rest HP.
  pose proof (Permutation_length HP) as Hl.
  rewrite length_app in Hl. cbn [List.length] in Hl.
  destruct summed as [| c summed]; [| cbn [List.length] in Hl; lia].
  apply H.
  - apply (Permutation_in a HP). now left.
  - apply (Permutation_in b HP). right. now left.
Qed.

End Aggregation.

Section Loading.
Context {V : Type}.
Context (parse_datetime : string -> option datetime).
Context (parse_value : string -> option V).
Implicit Types (row : csv_row) (rows : list csv_row)
         (start_date end_date : option date).

#[local] Abbreviation load_row := (load_row parse_datetime parse_value).
#[local] Abbreviation load_rows := (load_rows parse_datetime parse_value).
#[local] Abbreviation load_csv := (load_csv parse_datetime parse_value).

Lemma load_row_unparseable start_date end_date row :
  unparseable parse_datetime parse_value row ->
  load_row start_date end_date row = Skip.
Proof.
  unfold Edg.load_row.
  intros [(text & -> & ->) | (stamp & text & -> & Hv & Hp)]; [reflexivity |].
  destruct (parse_datetime (remove_Z stamp)) as [t |]; [| reflexivity].
  cbv zeta.
  destruct (match start_date with Some d => date_of t <? d | None => false end);
    [reflexivity |].
  destruct (match end_date with Some d => date_of t >=? d | None => false end);
    [reflexivity |].
  now rewrite Hv, Hp.
Qed.

(** The loader drops a row dated on or after the end date. *)
Lemma load_row_end_exclusive start_date (d : date) row (text : string)
    (t : datetime) :
  lookup String.eqb "timestamp" row = Some (Some text) ->
  parse_datetime (remove_Z text) = Some t ->
  d <= date_of t ->
  load_row start_date (Some d) row = Skip.
Proof.
  intros Hl Hp Hd. unfold Edg.load_row. rewrite Hl, Hp. cbv zeta.
  destruct (match start_date with Some d0 => date_of t <? d0 | None => false end);
    [reflexivity |].
  destruct (Z.geb_spec (date_of t) d) as [_ |]; [reflexivity | lia].
Qed.

Lemma load_rows_counter start_date end_date rows (records : list (record V))
    (k k' : Z) :
  records_only (load_rows start_date end_date rows records k)
  = records_only (load_rows start_date end_date rows records k').
Proof.
  revert records k k'. induction rows as [| row rows IH]; intros records k k';
    cbn [Edg.load_rows]; [reflexivity |].
  destruct (load_row start_date end_date row); [apply IH | apply IH | reflexivity].
Qed.

Lemma load_rows_skip start_date end_date rows1 row rows2
    (records : list (record V)) (k : Z) :
  load_row start_date end_date row = Skip ->
  records_only (load_rows start_date end_date (rows1 ++ row :: rows2) records k)
  = records_only (load_rows start_date end_date (rows1 ++ rows2) records k).
Proof.
  intros Hskip. revert records k.
  induction rows1 as [| r rows1 IH]; intros records k; cbn [app Edg.load_rows].
  - rewrite Hskip. apply load_rows_counter.
  - destruct (load_row start_date end_date r); [apply IH | apply IH | reflexivity].
Qed.

End Loading.

(** C8.  The aggregation gives one record per distinct normalised
    timestamp of its rows; the two sums of a record are the sums, from
    zero and in row order, of the values of the rows of that timestamp and
    that kind over all buses, hence zero for a kind without rows.  The three
    rows of the example give the one record (2025-05-01T00:00:00Z, 15.0,
    2.0).  Loading a file with an unparseable row gives what loading the
    file without that row gives. *)
Theorem grid_aggregation_sums_per_timestamp :
  (forall (V : Type) (zero : V) (add : V -> V -> V)
          (records : list (record V)),
      let out := aggregate_by_timestamp zero add records in
      NoDup (map agg_timestamp out)
      /\ (forall ts,
            In ts (map agg_timestamp out)
            <-> exists r, In r records
                          /\ normalize_timestamp (timestamp r) = ts)
      /\ (forall a, In a out ->
            agg_consumedEnergy a
            = total zero add
                    (values_of "consumedEnergy" (agg_timestamp a) records)
            /\ agg_generatedEnergy a
               = total zero add
                       (values_of "generatedEnergy" (agg_timestamp a) records))
      /\ (forall kind ts,
            (forall r, In r records ->
                       normalize_timestamp (timestamp r) = ts ->
                       measurement r <> Some kind) ->
            total zero add (values_of kind ts records) = zero))
  /\ aggregate_floats Fixture.bankya_records
     = [mk_aggregated "2025-05-01T00:00:00Z" 15%float 2%float]
  /\ (forall (V : Type) (parse_datetime : string -> option datetime)
             (parse_value : string -> option V)
             (start_date end_date : option date)
             (rows1 rows2 : list csv_row) (row : csv_row),
         unparseable parse_datetime parse_value row ->
         load_csv parse_datetime parse_value
                  (Some (rows1 ++ row :: rows2)) start_date end_date
         = load_csv parse_datetime parse_value
                    (Some (rows1 ++ rows2)) start_date end_date).
Proof.
  split; [| split].
  - intros V zero add records out. subst out.
    rewrite aggregate_timestamps. repeat split.
    + apply sorted_nodup, keys_fold_nodup. constructor.
    + rewrite sorted_in, keys_fold_in, in_map_iff. cbn [keys map In].
      intros [[] | (r & E & Hr)]. exists r. auto.
    + intros (r & Hr & E). rewrite sorted_in, keys_fold_in, in_map_iff.
      right. exists r. auto.
    + rewrite aggregate_entries in H. apply in_map_iff in H.
      destruct H as (ts & <- & _). reflexivity.
    + rewrite aggregate_entries in H. apply in_map_iff in H.
      destruct H as (ts & <- & _). reflexivity.
    + intros kind ts Hnone. unfold values_of.
      replace (filter _ records) with (@nil (record V)); [reflexivity |].
      symmetry. induction records as [| r records IH]; [reflexivity |].
      cbn [filter].
      destruct (String.eqb_spec (normalize_timestamp (timestamp r)) ts)
        as [E | _]; cbn [andb].
      * assert (Hk : is_kind kind (measurement r) = false).
        { pose proof (Hnone r (or_introl eq_refl) E) as Hm.
          unfold is_kind. destruct (measurement r) as [m |]; [| reflexivity].
          destruct (String.eqb_spec m kind) as [-> | _]; [congruence | reflexivity]. }
        rewrite Hk. apply IH. intros r' Hr'. apply Hnone. now right.
      * apply IH. intros r' Hr'. apply Hnone. now right.
  - vm_compute. reflexivity.
  - intros V parse_datetime parse_value start_date end_date rows1 rows2 row Hbad.
    unfold load_csv. apply load_rows_skip.
    now apply load_row_unparseable.
Qed.

Lemma grid_aggregation_sums_per_timestamp_witness :
  let bad := Fixture.csv_line "Bus2" "2025-05-01T00:00:00" "consumedEnergy"
                              "n/a" in
  let good := Fixture.csv_line "Bus1" "2025-05-01T00:00:00Z" "consumedEnergy"
                               "10" in
  unparseable Fixture.read_datetime Fixture.read_value bad
  /\ load_csv Fixture.read_datetime Fixture.read_value
              (Some ([good] ++ bad :: [good])) None None
     = load_csv Fixture.read_datetime Fixture.read_value
                (Some ([good] ++ [good])) None None.
Proof.
  cbv zeta.
  assert (Hbad : unparseable Fixture.read_datetime Fixture.read_value
                   (Fixture.csv_line "Bus2" "2025-05-01T00:00:00"
                                     "consumedEnergy" "n/a")).
  { right. exists "2025-05-01T00:00:00", "n/a". repeat split. }
  split; [exact Hbad |].
  exact (proj2 (proj2 grid_aggregation_sums_per_timestamp) float
               Fixture.read_datetime Fixture.read_value None None
               [_] [_] _ Hbad).
Defined.

(** A load, evaluated: the row without a readable value is skipped, and so
    is the row dated on the end date. *)
Example load_run :
  load_csv Fixture.read_datetime Fixture.read_value
    (Some [Fixture.csv_line "Bus1" "2025-05-01T00:00:00Z" "consumedEnergy" "10";
           Fixture.csv_line "Bus2" "2025-05-01T00:00:00" "consumedEnergy" "n/a";
           Fixture.csv_line "Bus2" "yesterday" "consumedEnergy" "5";
           Fixture.csv_line "Bus1" "2025-06-01T00:00:00" "generatedEnergy" "2";
           Fixture.csv_line "Bus1" "2025-05-01T00:00:00" "generatedEnergy" "2"])
    (Some (ymd 2025 5 1)) (Some (ymd 2025 6 1))
  = Returned
      [mk_record (Some "Bus1") "2025-05-01T00:00:00Z" (Some "consumedEnergy")
                 10%float (Some "kWh");
       mk_record (Some "Bus1") "2025-05-01T00:00:00" (Some "generatedEnergy")
                 2%float (Some "kWh")].
Proof. vm_compute. reflexivity. Qed.

(** C9, as the claim states it, fails on binary64 sums: 0.1 + 0.2 + 0.3 and
    0.3 + 0.2 + 0.1 differ. *)
Lemma float_sums_depend_on_row_order :
  ~ (forall l l' : list (record float),
        Permutation l l' -> aggregate_floats l' = aggregate_floats l).
Proof.
  intros H.
  specialize (H Fixture.tenths (rev Fixture.tenths) (Permutation_rev _)).
  vm_compute in H. discriminate H.
Qed.

(** C9, amended.  Reordering the rows leaves the timestamps of the output
    and their order as they are; the sums too are unchanged when, for
    every timestamp and each of the two kinds, the values of its rows are
    exchangeable: summed from zero in any order, two successive additions
    [(s + a) + b] and [(s + b) + a] agree.  This holds of binary64 values
    whose partial sums are exact, and of any exact numbers. *)
Theorem aggregation_under_row_permutation :
  forall (V : Type) (zero : V) (add : V -> V -> V) (l l' : list (record V)),
    Permutation l l' ->
    map agg_timestamp (aggregate_by_timestamp zero add l')
    = map agg_timestamp (aggregate_by_timestamp zero add l)
    /\ ((forall ts,
           exchangeable zero add (values_of "consumedEnergy" ts l)
           /\ exchangeable zero add (values_of "generatedEnergy" ts l)) ->
        aggregate_by_timestamp zero add l' = aggregate_by_timestamp zero add l).
Proof.
  intros V zero add l l' HP. split.
  - rewrite !aggregate_timestamps. now apply keys_permutation.
  - intros Hex. rewrite !aggregate_entries.
    rewrite (keys_permutation zero add l l' HP).
    apply map_ext. intros ts. destruct (Hex ts) as [Hc Hg].
    f_equal; apply total_permutation;
      solve [now apply values_of_permutation | assumption].
Qed.

Lemma aggregation_under_row_permutation_witness :
  Permutation Fixture.bankya_records (rev Fixture.bankya_records)
  /\ (forall ts,
        exchangeable 0%float PrimFloat.add
          (values_of "consumedEnergy" ts Fixture.bankya_records)
        /\ exchangeable 0%float PrimFloat.add
             (values_of "generatedEnergy" ts Fixture.bankya_records))
  /\ aggregate_floats (rev Fixture.bankya_records)
     = aggregate_floats Fixture.bankya_records.
Proof.
  assert (Hex : forall ts,
             exchangeable 0%float PrimFloat.add
               (values_of "consumedEnergy" ts Fixture.bankya_records)
             /\ exchangeable 0%float PrimFloat.add
                  (values_of "generatedEnergy" ts Fixture.bankya_records)).
  { intros ts. unfold values_of, Fixture.bankya_records, Fixture.bus_record.
    cbn [filter timestamp measurement is_kind].
    destruct (String.eqb _ ts); cbn [andb String.eqb Ascii.eqb Bool.eqb map value];
      split; apply exchangeable_short; cbn [List.length]; try lia;
      cbn [In]; intros a b Ha Hb;
      repeat match goal with
             | H : _ \/ _ |- _ => destruct H as [H | H]
             | H : False |- _ => destruct H
             | H : _ = _ |- _ => subst
             end; vm_compute; reflexivity. }
  split; [apply Permutation_rev |]. split; [exact Hex |].
  exact (proj2 (aggregation_under_row_permutation float 0%float PrimFloat.add
                  Fixture.bankya_records (rev Fixture.bankya_records)
                  (Permutation_rev _)) Hex).
Defined.

End EdgFacts.

Module CdeFacts.
Import Py Cde PyFacts.

Lemma batches_pos (dps : list datapoint) (bs : Z) :
  0 < bs ->
  batches dps bs
  = map (fun i => firstn (Z.to_nat bs) (skipn (i * Z.to_nat bs) dps))
        (seq 0 (Z.to_nat ((Z.of_nat (List.length dps) + bs - 1) / bs))).
Proof.
  intros Hbs. unfold batches, range. cbv zeta. rewrite map_map.
  apply map_ext. intros i.
  rewrite slice_nonneg by lia. do 2 f_equal.
  rewrite Z2Nat.inj_mul by lia. now rewrite Nat2Z.id.
Qed.

Lemma batches_cover (n bs : Z) :
  0 < bs -> 0 <= n -> n <= (n + bs - 1) / bs * bs.
Proof.
  intros Hbs Hn.
  pose proof (Z.div_mod (n + bs - 1) bs ltac:(lia)) as Hdm.
  pose proof (Z.mod_pos_bound (n + bs - 1) bs Hbs) as Hmod. nia.
Qed.

Lemma batches_concat (dps : list datapoint) (bs : Z) :
  0 < bs -> List.concat (batches dps bs) = dps.
Proof.
  intros Hbs. rewrite batches_pos by assumption. rewrite concat_pieces.
  apply firstn_all2.
  set (n := Z.of_nat (List.length dps)).
  pose proof (batches_cover n bs Hbs ltac:(lia)) as Hc.
  assert (Hk : 0 <= (n + bs - 1) / bs) by (apply Z.div_pos; lia).
  apply Nat2Z.inj_le. rewrite Nat2Z.inj_mul, !Z2Nat.id by lia. exact Hc.
Qed.

Lemma batches_at_most (dps : list datapoint) (bs : Z) :
  0 < bs ->
  Forall (fun g => Z.of_nat (List.length g) <= bs) (batches dps bs).
Proof.
  intros Hbs. rewrite batches_pos by assumption.
  apply Forall_forall. intros g Hg.
  apply in_map_iff in Hg. destruct Hg as [i [<- _]].
  pose proof (firstn_le_length (Z.to_nat bs) (skipn (i * Z.to_nat bs) dps)).
  lia.
Qed.

Lemma batches_neg_empty (dps : list datapoint) (bs : Z) :
  bs < 0 -> Forall (fun g => g = []) (batches dps bs).
Proof.
  intros Hbs. unfold batches. cbv zeta.
  set (n := Z.of_nat (List.length dps)).
  destruct (Z_le_dec 2 n) as [Hbig | Hsmall].
  - assert (Hk : (n + bs - 1) / bs <= 0).
    { pose proof (Z.div_mod (n + bs - 1) bs ltac:(lia)) as Hdm.
      pose proof (Z.mod_neg_bound (n + bs - 1) bs Hbs) as Hmod. nia. }
    unfold range. replace (Z.to_nat ((n + bs - 1) / bs)) with 0%nat by lia.
    constructor.
  - apply Forall_forall. intros g Hg.
    apply in_map_iff in Hg. destruct Hg as [i [<- Hi]].
    unfold range in Hi. apply in_map_iff in Hi. destruct Hi as [j [<- _]].
    unfold slice, clamp_index. fold n.
    assert (Hstop : Z.of_nat j * bs + bs < 0) by nia.
    destruct (Z.ltb_spec (Z.of_nat j * bs + bs) 0) as [_ |]; [| lia].
    rewrite (Z.max_l 0 (Z.of_nat j * bs + bs + n)) by lia.
    assert (Hstart : 0 <= (if Z.of_nat j * bs <? 0
                           then Z.max 0 (Z.of_nat j * bs + n)
                           else Z.min (Z.of_nat j * bs) n)).
    { destruct (Z.ltb_spec (Z.of_nat j * bs) 0); lia. }
    replace (Z.to_nat (0 - _)) with 0%nat by lia. reflexivity.
Qed.

Lemma concat_all_nil {A : Type} (gs : list (list A)) :
  Forall (fun g => g = []) gs -> List.concat gs = [].
Proof. induction 1 as [| g gs -> _ IH]; [reflexivity | exact IH]. Qed.

Lemma batches_total_le (dps : list datapoint) (bs : Z) :
  bs <> 0 -> total_length (batches dps bs) <= Z.of_nat (List.length dps).
Proof.
  intros Hbs. unfold total_length.
  destruct (Z_lt_dec 0 bs) as [Hpos | Hneg].
  - rewrite batches_concat by assumption. lia.
  - rewrite (concat_all_nil _ (batches_neg_empty dps bs ltac:(lia))).
    cbn [List.length]. lia.
Qed.

Lemma batches_incl (dps : list datapoint) (bs : Z) (g : list datapoint)
    (dp : datapoint) :
  In g (batches dps bs) -> In dp g -> In dp dps.
Proof.
  unfold batches. cbv zeta. intros Hg Hdp.
  apply in_map_iff in Hg. destruct Hg as [i [<- _]].
  exact (slice_incl _ _ _ _ Hdp).
Qed.

Lemma uploads_app (a b : list event) : uploads (a ++ b) = uploads a ++ uploads b.
Proof. unfold uploads. apply flat_map_app. Qed.

Lemma uploads_accepted_app (a b : list event) :
  uploads_accepted (a ++ b) = uploads_accepted a && uploads_accepted b.
Proof. unfold uploads_accepted. apply forallb_app. Qed.

Lemma since_app {World : Type} (st st' : state World) (evs : list event) :
  events st' = events st ++ evs -> since st st' = evs.
Proof. unfold since. intros ->. apply skipn_length_app. Qed.

Lemma complete_none_in (dp : datapoint) :
  none_in (cells dp) = negb (complete dp).
Proof. unfold complete. now rewrite negb_involutive. Qed.

Lemma missing_nonneg (g : list datapoint) : 0 <= missing g.
Proof. unfold missing. lia. Qed.

Lemma missing_payload_length (g : list datapoint) :
  missing g + Z.of_nat (List.length (payload g)) = Z.of_nat (List.length g).
Proof.
  unfold missing, payload. rewrite length_map.
  induction g as [| dp g IH]; [reflexivity |].
  cbn [filter]. destruct (complete dp); cbn [negb List.length]; lia.
Qed.

Lemma missing_all_complete (g : list datapoint) :
  (forall dp, In dp g -> complete dp = true) -> missing g = 0.
Proof.
  intros H. unfold missing.
  induction g as [| dp g IH]; [reflexivity |].
  cbn [filter]. rewrite (H dp (or_introl eq_refl)). cbn [negb].
  apply IH. intros d Hd. apply H. now right.
Qed.

Lemma encode_from (batch : list datapoint) (m w : Z) (rows : list row) :
  fold_left encode_step batch (m, w, rows)
  = (m + missing batch, w + Z.of_nat (List.length (payload batch)),
     rows ++ payload batch).
Proof.
  revert m w rows. induction batch as [| dp batch IH]; intros m w rows.
  - cbn. now rewrite !Z.add_0_r, app_nil_r.
  - cbn [fold_left encode_step]. rewrite complete_none_in.
    unfold missing, payload in *. cbn [filter].
    destruct (complete dp); cbn [negb]; rewrite IH; cbn [map List.length].
    + f_equal; [f_equal; lia | now rewrite <- app_assoc].
    + f_equal. f_equal. lia.
Qed.

Lemma encode_spec (batch : list datapoint) :
  encode batch
  = (missing batch, Z.of_nat (List.length (payload batch)), payload batch).
Proof. unfold encode. now rewrite encode_from. Qed.

Lemma uploads_cons_post (k : Z) (rows : list row) (a : post_result)
    (evs : list event) :
  uploads (Post k rows a :: evs) = (k, rows, a) :: uploads evs.
Proof. reflexivity. Qed.

Section Upload.
Context {World : Type} (cde : downstream World).
Implicit Types (st : state World) (dps : list datapoint).

Lemma upload_step_spec dps (bs s f : Z) st (i : Z) :
  upload_step cde dps bs (s, f, st) i
  = spec_upload_groups cde (i + 1)
      [slice dps (i * bs) (i * bs + bs)] (s, f, st).
Proof.
  unfold upload_step. cbn [spec_upload_groups]. rewrite encode_spec.
  set (g := slice dps (i * bs) (i * bs + bs)).
  assert (Hf : (if missing g =? 0 then f else f + missing g) = f + missing g).
  { destruct (Z.eqb_spec (missing g) 0) as [-> | _]; lia. }
  rewrite Hf.
  destruct (csv_post cde (i + 1) (payload g) (world st)) as [[code |] w];
    cbn [accepted]; [destruct (ok_status code) |]; reflexivity.
Qed.

Lemma spec_upload_groups_app (gs1 gs2 : list (list datapoint)) (k : Z)
    (acc : Z * Z * state World) :
  spec_upload_groups cde k (gs1 ++ gs2) acc
  = spec_upload_groups cde (k + Z.of_nat (List.length gs1)) gs2
      (spec_upload_groups cde k gs1 acc).
Proof.
  revert k acc. induction gs1 as [| g gs1 IH]; intros k [[s f] st].
  - cbn. now rewrite Z.add_0_r.
  - cbn [app spec_upload_groups List.length].
    destruct (csv_post cde k (payload g) (world st)) as [answer w].
    rewrite IH. f_equal. lia.
Qed.

(** The loop over the batch indices is the specification's upload of the
    slices. *)
Lemma upload_loop_spec dps (bs : Z) (k : nat) (acc : Z * Z * state World) :
  fold_left (upload_step cde dps bs) (map Z.of_nat (seq 0 k)) acc
  = spec_upload_groups cde 1
      (map (fun i => slice dps (i * bs) (i * bs + bs)) (map Z.of_nat (seq 0 k)))
      acc.
Proof.
  induction k as [| k IH].
  - reflexivity.
  - rewrite seq_S, !map_app, fold_left_app, IH. cbn [map fold_left Nat.add].
    rewrite spec_upload_groups_app, !length_map, length_seq.
    destruct (spec_upload_groups cde 1 _ acc) as [[s f] st].
    rewrite upload_step_spec. f_equal. lia.
Qed.

(** What the upload of some groups does to the counters and the events. *)
Lemma spec_upload_groups_counts (gs : list (list datapoint)) (k s f : Z) st :
  let '(s', f', st') := spec_upload_groups cde k gs (s, f, st) in
  s <= s' /\ f <= f'
  /\ (s' - s) + (f' - f) = total_length gs
  /\ exists evs,
      events st' = events st ++ evs
      /\ List.length (uploads evs) = List.length gs
      /\ map (fun u => snd (fst u)) (uploads evs) = map payload gs
      /\ (uploads_accepted evs = true ->
          (forall g dp, In g gs -> In dp g -> complete dp = true) ->
          f' = f).
Proof.
  revert k s f st. induction gs as [| g gs IH]; intros k s f st.
  - cbn. repeat split; try lia. exists []. rewrite app_nil_r. auto.
  - cbn [spec_upload_groups].
    destruct (csv_post cde k (payload g) (world st)) as [answer w].
    set (st1 := log (Post k (payload g) answer) w st).
    pose proof (missing_nonneg g) as Hm.
    pose proof (missing_payload_length g) as Hl.
    assert (Htot : total_length (g :: gs)
                   = Z.of_nat (List.length g) + total_length gs).
    { unfold total_length. cbn [List.concat]. rewrite length_app. lia. }
    destruct (accepted answer) eqn:Hacc.
    + specialize (IH (k + 1) (s + Z.of_nat (List.length (payload g)))
                     (f + missing g) st1).
      destruct (spec_upload_groups cde (k + 1) gs _) as [[s' f'] st'].
      destruct IH as (Hs & Hf & Hsum & evs & Hev & Hlen & Hrows & Hzero).
      repeat split; try lia.
      exists (Post k (payload g) answer :: evs). repeat split.
      * rewrite Hev. unfold st1, log. cbn [events]. now rewrite <- app_assoc.
      * rewrite uploads_cons_post. cbn [List.length]. now rewrite Hlen.
      * rewrite uploads_cons_post. cbn [map fst snd]. now rewrite Hrows.
      * cbn [uploads_accepted forallb]. rewrite Hacc. cbn [andb].
        intros Hok Hall.
        rewrite Hzero; [| exact Hok | intros g' dp Hg; apply Hall; now right].
        rewrite missing_all_complete; [lia |].
        intros dp Hdp. apply (Hall g dp); [now left | exact Hdp].
    + specialize (IH (k + 1) s
                     (f + missing g + Z.of_nat (List.length (payload g))) st1).
      destruct (spec_upload_groups cde (k + 1) gs _) as [[s' f'] st'].
      destruct IH as (Hs & Hf & Hsum & evs & Hev & Hlen & Hrows & Hzero).
      repeat split; try lia.
      exists (Post k (payload g) answer :: evs). repeat split.
      * rewrite Hev. unfold st1, log. cbn [events]. now rewrite <- app_assoc.
      * rewrite uploads_cons_post. cbn [List.length]. now rewrite Hlen.
      * rewrite uploads_cons_post. cbn [map fst snd]. now rewrite Hrows.
      * cbn [uploads_accepted forallb]. rewrite Hacc. cbn [andb]. discriminate.
Qed.

(** Saving the files posts nothing. *)
Lemma save_files_events dps (name : string) (sd ed : option string) st :
  exists ws,
    events (save_files cde dps name sd ed st) = events st ++ ws
    /\ uploads ws = [] /\ uploads_accepted ws = true.
Proof.
  unfold save_files. generalize (fold_left group_step dps []). intros groups.
  revert st. induction groups as [| [m l] groups IH]; intros st.
  - exists []. cbn. now rewrite app_nil_r.
  - cbn [fold_left].
    destruct (IH (save_step cde name sd ed st (m, l))) as (ws & Hev & Hu & Ha).
    eexists (WriteFile _ _ :: ws). rewrite Hev.
    unfold save_step at 1, log. cbn [events]. rewrite <- app_assoc.
    cbn [app]. split; [reflexivity | split; [exact Hu | exact Ha]].
Qed.

(** The call on a non-empty list, once the directory is made. *)
Lemma add_datapoints_batch_uploads dps (bs : Z) (name : string)
    (sd ed : option string) st :
  dps <> [] -> bs <> 0 -> fst (fs_mkdir cde (world st)) = true ->
  add_datapoints_batch cde dps bs name sd ed st
  = let st2 := save_files cde dps name sd ed
                          (log Mkdir (snd (fs_mkdir cde (world st))) st) in
    let '(s, f, st3) := spec_upload_groups cde 1 (batches dps bs) (0, 0, st2) in
    (Returned (mk_result s f (Z.of_nat (List.length dps))), st3).
Proof.
  intros Hne Hbs Hmk. unfold add_datapoints_batch.
  destruct dps as [| dp dps]; [contradiction |].
  destruct (fs_mkdir cde (world st)) as [made w]. cbn [fst snd] in *. subst made.
  destruct (Z.eqb_spec bs 0) as [| _]; [contradiction |].
  cbv zeta. unfold range. rewrite upload_loop_spec. reflexivity.
Qed.

End Upload.

(** C10.  With an empty list the call returns the three zero counts and
    leaves the state as it was: the world is untouched and no event (no
    directory, no file, no upload) is added. *)
Theorem empty_upload_returns_zeros_without_effects :
  forall (World : Type) (cde : downstream World) (batch_size : Z)
         (dataset_name : string) (start_date end_date : option string)
         (st : state World),
    add_datapoints_batch cde [] batch_size dataset_name start_date end_date st
    = (Returned (mk_result 0 0 0), st)
    /\ since st (snd (add_datapoints_batch cde [] batch_size dataset_name
                                           start_date end_date st)) = [].
Proof.
  intros. split; [reflexivity |]. cbn [add_datapoints_batch snd].
  unfold since. apply skipn_all.
Qed.

(** C5.  Whenever the call returns counts: success and failed are not
    negative, their sum is at most total, and total is the number of
    datapoints given; and failed is 0 when every datapoint has its five
    values and every upload of the call was accepted.  The call returns
    counts whenever the batch size is not zero and the directory can be
    made. *)
Theorem upload_counts_invariant :
  forall (World : Type) (cde : downstream World) (datapoints : list datapoint)
         (batch_size : Z) (dataset_name : string)
         (start_date end_date : option string) (st : state World),
    (forall (r : upload_result) (st' : state World),
        add_datapoints_batch cde datapoints batch_size dataset_name
                             start_date end_date st = (Returned r, st') ->
        0 <= success r /\ 0 <= failed r
        /\ success r + failed r <= total r
        /\ total r = Z.of_nat (List.length datapoints)
        /\ ((forall dp, In dp datapoints -> complete dp = true) ->
            uploads_accepted (since st st') = true ->
            failed r = 0))
    /\ (batch_size <> 0 -> fst (fs_mkdir cde (world st)) = true ->
        exists r, fst (add_datapoints_batch cde datapoints batch_size
                         dataset_name start_date end_date st) = Returned r).
Proof.
  intros World cde dps bs name sd ed st. split.
  - intros r st' Hrun.
    destruct dps as [| dp0 dps0] eqn:Edps.
    { cbn in Hrun. injection Hrun as <- <-. cbn. repeat split; lia. }
    rewrite <- Edps in *. assert (Hne : dps <> []) by (subst dps; discriminate).
    clear Edps.
    destruct (fst (fs_mkdir cde (world st))) eqn:Hmk.
    2:{ unfold add_datapoints_batch in Hrun. destruct dps; [contradiction |].
        destruct (fs_mkdir cde (world st)) as [made w]. cbn in Hmk. subst made.
        discriminate. }
    destruct (Z.eq_dec bs 0) as [-> | Hbs].
    { unfold add_datapoints_batch in Hrun. destruct dps; [contradiction |].
      destruct (fs_mkdir cde (world st)) as [made w]. cbn in Hmk. subst made.
      cbn in Hrun. discriminate. }
    rewrite add_datapoints_batch_uploads in Hrun by assumption. cbv zeta in Hrun.
    set (st1 := log Mkdir (snd (fs_mkdir cde (world st))) st) in *.
    destruct (save_files_events cde dps name sd ed st1) as (ws & Hws & Hwu & Hwa).
    set (st2 := save_files cde dps name sd ed st1) in *.
    pose proof (spec_upload_groups_counts cde (batches dps bs) 1 0 0 st2) as Hc.
    destruct (spec_upload_groups cde 1 (batches dps bs) (0, 0, st2))
      as [[s f] st3].
    injection Hrun as <- <-. cbn [success failed total].
    destruct Hc as (Hs & Hf & Hsum & evs & Hev & _ & _ & Hzero).
    pose proof (batches_total_le dps bs Hbs) as Hle.
    repeat split; try lia.
    intros Hall Hok. apply Hzero.
    + assert (E : since st st3 = Mkdir :: ws ++ evs).
      { apply since_app. rewrite Hev, Hws. unfold st1, log. cbn [events].
        rewrite <- !app_assoc. reflexivity. }
      rewrite E in Hok.
      change (uploads_accepted (ws ++ evs) = true) in Hok.
      rewrite uploads_accepted_app, Hwa in Hok. exact Hok.
    + intros g dp Hg Hdp. apply Hall. exact (batches_incl dps bs g dp Hg Hdp).
  - intros Hbs Hmk. destruct dps as [| dp0 dps0] eqn:Edps.
    { eexists. reflexivity. }
    rewrite <- Edps. assert (Hne : dps <> []) by (subst dps; discriminate).
    rewrite add_datapoints_batch_uploads by assumption. cbv zeta.
    destruct (spec_upload_groups cde 1 _ _) as [[s f] st3].
    eexists. reflexivity.
Qed.

Lemma upload_counts_invariant_witness :
  let run := add_datapoints_batch (Fixture.platform [2]) Fixture.three_readings
                                  2 "edg west" (Some "2025-05-01") None
                                  Fixture.fresh in
  exists r st',
    run = (Returned r, st')
    /\ 0 <= success r /\ 0 <= failed r
    /\ success r + failed r <= total r
    /\ total r = Z.of_nat (List.length Fixture.three_readings)
    /\ ((forall dp, In dp Fixture.three_readings -> complete dp = true) ->
        uploads_accepted (since Fixture.fresh st') = true ->
        failed r = 0).
Proof.
  cbv zeta. eexists. eexists. split; [vm_compute; reflexivity |].
  apply (proj1 (upload_counts_invariant nat (Fixture.platform [2])
                  Fixture.three_readings 2 "edg west" (Some "2025-05-01") None
                  Fixture.fresh)).
  vm_compute; reflexivity.
Defined.

(** C6.  For a positive batch size and a non-empty list, once the directory
    is made: the groups cut by the loop are consecutive (their
    concatenation is the input) and hold at most [batch_size] datapoints;
    nothing is uploaded while the files are saved; the call is the
    specification's upload of these groups, which leaves the rows with a
    missing value out of each payload, counts them as failed, adds the rows
    of a refused or failed upload to failed and goes on with the next
    group; and the payloads uploaded are, group by group, the complete
    rows.  Of three datapoints of which the second has no unit, the single
    upload carries the two other rows, and the counts are (2, 1, 3) when it
    is accepted and (0, 3, 3) when it is not. *)
Theorem upload_batch_follows_specification :
  forall (World : Type) (cde : downstream World) (dataset_name : string)
         (start_date end_date : option string) (st : state World),
    fst (fs_mkdir cde (world st)) = true ->
    (forall (datapoints : list datapoint) (batch_size : Z),
        0 < batch_size -> datapoints <> [] ->
        let groups := batches datapoints batch_size in
        let st2 := save_files cde datapoints dataset_name start_date end_date
                              (log Mkdir (snd (fs_mkdir cde (world st))) st) in
        let run := add_datapoints_batch cde datapoints batch_size dataset_name
                                        start_date end_date st in
        List.concat groups = datapoints
        /\ Forall (fun g => Z.of_nat (List.length g) <= batch_size) groups
        /\ uploads (since st st2) = []
        /\ run = (let '(s, f, st3) :=
                    spec_upload_groups cde 1 groups (0, 0, st2) in
                  (Returned (mk_result s f (Z.of_nat (List.length datapoints))),
                   st3))
        /\ map (fun u => snd (fst u)) (uploads (since st (snd run)))
           = map payload groups)
    /\ (let run := add_datapoints_batch cde Fixture.three_readings
                                        default_batch_size dataset_name
                                        start_date end_date st in
        exists answer,
          uploads (since st (snd run))
          = [(1, [cells (Fixture.reading "2025-05-01T00:00:00Z" 1.5);
                  cells (Fixture.reading "2025-05-01T02:00:00Z" 3.5)], answer)]
          /\ fst run = Returned (if accepted answer then mk_result 2 1 3
                                 else mk_result 0 3 3)).
Proof.
  intros World cde name sd ed st Hmk.
  assert (General : forall dps bs, 0 < bs -> dps <> [] ->
            let st2 := save_files cde dps name sd ed
                         (log Mkdir (snd (fs_mkdir cde (world st))) st) in
            uploads (since st st2) = []
            /\ forall s f st3,
                spec_upload_groups cde 1 (batches dps bs) (0, 0, st2)
                = (s, f, st3) ->
                uploads (since st st3) = uploads (since st2 st3)
                /\ map (fun u => snd (fst u)) (uploads (since st st3))
                   = map payload (batches dps bs)).
  { intros dps bs Hbs Hne st2.
    set (st1 := log Mkdir (snd (fs_mkdir cde (world st))) st) in *.
    destruct (save_files_events cde dps name sd ed st1) as (ws & Hws & Hwu & Hwa).
    fold st2 in Hws.
    assert (E2 : since st st2 = Mkdir :: ws).
    { apply since_app. rewrite Hws. unfold st1, log. cbn [events].
      now rewrite <- app_assoc. }
    split; [rewrite E2; exact Hwu |].
    intros s f st3 Hrun.
    pose proof (spec_upload_groups_counts cde (batches dps bs) 1 0 0 st2) as Hc.
    rewrite Hrun in Hc.
    destruct Hc as (_ & _ & _ & evs & Hev & _ & Hrows & _).
    assert (E3 : since st st3 = Mkdir :: ws ++ evs).
    { apply since_app. rewrite Hev, Hws. unfold st1, log. cbn [events].
      now rewrite <- !app_assoc. }
    rewrite E3, (since_app st2 st3 evs Hev).
    change (uploads (Mkdir :: ws ++ evs)) with (uploads (ws ++ evs)).
    rewrite uploads_app, Hwu. cbn [app]. split; [reflexivity | exact Hrows]. }
  split.
  - intros dps bs Hbs Hne groups st2 run.
    destruct (General dps bs Hbs Hne) as [Hquiet Hposts]. fold st2 in Hquiet, Hposts.
    assert (Hrun : run = (let '(s, f, st3) :=
                            spec_upload_groups cde 1 groups (0, 0, st2) in
                          (Returned (mk_result s f (Z.of_nat (List.length dps))),
                           st3))).
    { unfold run. rewrite add_datapoints_batch_uploads by (assumption || lia).
      reflexivity. }
    split; [apply batches_concat; assumption |].
    split; [apply batches_at_most; assumption |].
    split; [exact Hquiet |]. split; [exact Hrun |].
    rewrite Hrun. unfold groups in *.
    destruct (spec_upload_groups cde 1 (batches dps bs) (0, 0, st2))
      as [[s f] st3] eqn:Hgo.
    cbn [snd]. exact (proj2 (Hposts s f st3 eq_refl)).
  - intros run.
    destruct (General Fixture.three_readings default_batch_size
                ltac:(reflexivity) ltac:(discriminate)) as [_ Hposts].
    unfold run.
    rewrite add_datapoints_batch_uploads
      by (assumption || discriminate).
    cbv zeta.
    set (st2 := save_files cde Fixture.three_readings name sd ed
                  (log Mkdir (snd (fs_mkdir cde (world st))) st)) in *.
    change (batches Fixture.three_readings default_batch_size)
      with [Fixture.three_readings] in *.
    cbn [spec_upload_groups] in *.
    change (payload Fixture.three_readings)
      with [cells (Fixture.reading "2025-05-01T00:00:00Z" 1.5);
            cells (Fixture.reading "2025-05-01T02:00:00Z" 3.5)] in *.
    change (missing Fixture.three_readings) with 1 in *.
    destruct (csv_post cde 1 _ (world st2)) as [answer w].
    exists answer.
    destruct (accepted answer) eqn:Hacc.
    + destruct (Hposts _ _ _ eq_refl) as [Hu _]. cbn [fst snd].
      rewrite Hu. split; [| reflexivity].
      erewrite since_app; [| unfold log; cbn [events]; reflexivity].
      reflexivity.
    + destruct (Hposts _ _ _ eq_refl) as [Hu _]. cbn [fst snd].
      rewrite Hu. split; [| reflexivity].
      erewrite since_app; [| unfold log; cbn [events]; reflexivity].
      reflexivity.
Qed.

Lemma upload_batch_follows_specification_witness :
  fst (fs_mkdir (Fixture.platform [1]) (world Fixture.fresh)) = true
  /\ let run := add_datapoints_batch (Fixture.platform [1])
                   Fixture.three_readings default_batch_size "edg" None None
                   Fixture.fresh in
     exists answer,
       uploads (since Fixture.fresh (snd run))
       = [(1, [cells (Fixture.reading "2025-05-01T00:00:00Z" 1.5);
               cells (Fixture.reading "2025-05-01T02:00:00Z" 3.5)], answer)]
       /\ fst run = Returned (if accepted answer then mk_result 2 1 3
                              else mk_result 0 3 3).
Proof.
  split; [reflexivity |].
  apply (proj2 (upload_batch_follows_specification nat (Fixture.platform [1])
                  "edg" None None Fixture.fresh eq_refl)).
Defined.

(** Runs, evaluated: a refused single upload leaves (0, 3, 3), an accepted
    one (2, 1, 3); with one datapoint per upload and the third refused,
    (1, 2, 3). *)
Example refused_upload_run :
  fst (add_datapoints_batch (Fixture.platform [1]) Fixture.three_readings
         default_batch_size "edg" None None Fixture.fresh)
  = Returned (mk_result 0 3 3)
  /\ fst (add_datapoints_batch (Fixture.platform []) Fixture.three_readings
            default_batch_size "edg" None None Fixture.fresh)
     = Returned (mk_result 2 1 3)
  /\ fst (add_datapoints_batch (Fixture.platform [3]) Fixture.three_readings
            1 "edg" None None Fixture.fresh)
     = Returned (mk_result 1 2 3).
Proof. vm_compute. repeat split. Qed.

End CdeFacts.

Module MainFacts.
Import Py Descriptor Main PyFacts.

Lemma by_name_truthy (v : pyval) (name : string) :
  by_name v = Some name -> truthy v = true.
Proof.
  unfold by_name, is_str. destruct v as [| n | x | s]; try discriminate.
  destruct s; [discriminate | reflexivity].
Qed.

(** On a usable descriptor the loop body is the specification's step, with
    a warning when nothing binds. *)
Lemma generation_step_usable (mapping : dict string pyval)
    (warnings : list warning) (ts : timeseries) :
  usable ts = true ->
  generation_step (mapping, warnings) ts
  = (spec_step mapping ts,
     match spec_bind ts with
     | Some _ => warnings
     | None => warnings ++ [CouldNotMap ts]
     end).
Proof.
  unfold usable, generation_step, spec_step, spec_bind. intros Hu.
  apply andb_true_iff in Hu. destruct Hu as [-> ->]. cbn [negb orb].
  destruct (by_id (field_id ts)) as [name |]; [reflexivity |].
  destruct (by_name (field_name ts)) as [name |] eqn:En.
  - now rewrite (by_name_truthy _ _ En).
  - now destruct (truthy (field_name ts)).
Qed.

Lemma generation_step_unusable (mapping : dict string pyval)
    (warnings : list warning) (ts : timeseries) :
  usable ts = false ->
  generation_step (mapping, warnings) ts
  = (mapping, warnings ++ [MissingIds ts]).
Proof.
  unfold usable, generation_step. intros Hu.
  apply andb_false_iff in Hu. destruct Hu as [-> | ->]; cbn [negb orb];
    [reflexivity | now rewrite orb_true_r].
Qed.

(** The loop: the mapping is the specification's over the usable
    descriptors; the warnings only grow, and hold one warning for each
    descriptor skipped or left unresolved. *)
Lemma generation_fold (l : list timeseries) (mapping : dict string pyval)
    (warnings : list warning) :
  exists more,
    fold_left generation_step l (mapping, warnings)
    = (fold_left spec_step (filter usable l) mapping, warnings ++ more)
    /\ (forall ts, In ts l -> usable ts = false -> In (MissingIds ts) more)
    /\ (forall ts, In ts l -> usable ts = true -> spec_bind ts = None ->
                   In (CouldNotMap ts) more).
Proof.
  revert mapping warnings. induction l as [| ts l IH]; intros mapping warnings.
  - exists []. cbn. rewrite app_nil_r. repeat split; intros ts [].
  - cbn [fold_left filter]. destruct (usable ts) eqn:Hu.
    + rewrite generation_step_usable by assumption. cbn [fold_left].
      destruct (spec_bind ts) as [name |] eqn:Eb.
      * destruct (IH (spec_step mapping ts) warnings) as (more & E & H1 & H2).
        exists more. split; [exact E |]. split.
        -- intros t [<- | Ht] Hf; [congruence | auto].
        -- intros t [<- | Ht] Ht1 Ht2; [congruence | auto].
      * destruct (IH (spec_step mapping ts) (warnings ++ [CouldNotMap ts]))
          as (more & E & H1 & H2).
        exists (CouldNotMap ts :: more). rewrite E, <- app_assoc.
        split; [reflexivity |]. split.
        -- intros t [<- | Ht] Hf; [congruence | right; auto].
        -- intros t [<- | Ht] Ht1 Ht2; [now left | right; auto].
    + rewrite generation_step_unusable by assumption.
      destruct (IH mapping (warnings ++ [MissingIds ts])) as (more & E & H1 & H2).
      exists (MissingIds ts :: more). rewrite E, <- app_assoc.
      split; [reflexivity |]. split.
      * intros t [<- | Ht] Hf; [now left | right; auto].
      * intros t [<- | Ht] Ht1 Ht2; [congruence | right; auto].
Qed.

Lemma missing_from_in (expected : list string) (mapping : dict string pyval)
    (name : string) :
  In name (missing_from expected mapping)
  <-> In name expected /\ mem String.eqb name mapping = false.
Proof.
  unfold missing_from. rewrite filter_In.
  now destruct (mem String.eqb name mapping).
Qed.

Lemma generation_mapping_shape (l : list timeseries) :
  exists more,
    generation_mapping l
    = (spec_resolve (filter usable l),
       more ++ match missing_from expected_mappings
                                  (spec_resolve (filter usable l)) with
               | [] => []
               | _ :: _ =>
                   [MissingMappings
                      (missing_from expected_mappings
                                    (spec_resolve (filter usable l)))]
               end)
    /\ (forall ts, In ts l -> usable ts = false -> In (MissingIds ts) more)
    /\ (forall ts, In ts l -> usable ts = true -> spec_bind ts = None ->
                   In (CouldNotMap ts) more).
Proof.
  destruct (generation_fold l [] []) as (more & E & H1 & H2).
  exists more. split; [| split; assumption].
  unfold generation_mapping, spec_resolve. unfold dict in *. rewrite E.
  cbn [app].
  destruct (missing_from expected_mappings _) as [| n names];
    [now rewrite app_nil_r | reflexivity].
Qed.

(** C7, as the claim states it, fails: a descriptor whose field ID is 0
    binds nothing by ID and has a known name, but the code does not bind
    it, while the specification's resolution does. *)
Lemma zero_field_id_is_not_bound_by_name :
  ~ (forall l : list timeseries, fst (generation_mapping l) = spec_resolve l).
Proof.
  intros H. specialize (H [Fixture.zero_id]). vm_compute in H. discriminate H.
Qed.

(** C7, amended.  The mapping of the generation dataset is the
    specification's resolution (field ID first, field name only when the
    ID did not bind) of the descriptors that have a field ID and an id;
    each descriptor without one of them is skipped with a warning, each
    usable descriptor that binds nothing is left unresolved with a warning,
    and every expected name left unbound is reported as missing.  The two
    descriptors of the example give generation = ts-A and
    outdoorTemperature = ts-B, with humidity reported missing.  The mapper
    of the grid dataset binds by field ID alone: the field names do not
    change its result. *)
Theorem generation_mapping_resolves_usable_descriptors :
  (forall l : list timeseries,
      fst (generation_mapping l) = spec_resolve (filter usable l)
      /\ (forall ts, In ts l -> usable ts = false ->
                     In (MissingIds ts) (snd (generation_mapping l)))
      /\ (forall ts, In ts l -> usable ts = true -> spec_bind ts = None ->
                     In (CouldNotMap ts) (snd (generation_mapping l)))
      /\ (forall name,
            In name expected_mappings ->
            mem String.eqb name (fst (generation_mapping l)) = false ->
            exists names, In (MissingMappings names) (snd (generation_mapping l))
                          /\ In name names))
  /\ generation_mapping Fixture.echoed
     = ([("generation", PyStr "ts-A"); ("outdoorTemperature", PyStr "ts-B")],
        [MissingMappings ["humidity"]])
  /\ (forall l : list timeseries,
        Edg.create_timeseries_mapping (map without_name l)
        = Edg.create_timeseries_mapping l).
Proof.
  split; [| split].
  - intros l.
    destruct (generation_mapping_shape l) as (more & -> & H1 & H2).
    cbn [fst snd]. split; [reflexivity |].
    split; [intros ts Ht Hu; apply in_or_app; left; exact (H1 ts Ht Hu) |].
    split; [intros ts Ht Hu Hb; apply in_or_app; left; exact (H2 ts Ht Hu Hb) |].
    intros name Hexp Hmem.
    pose proof (proj2 (missing_from_in expected_mappings _ name)
                      (conj Hexp Hmem)) as Hn.
    exists (missing_from expected_mappings (spec_resolve (filter usable l))).
    split; [| exact Hn].
    apply in_or_app. right.
    destruct (missing_from expected_mappings (spec_resolve (filter usable l)));
      [destruct Hn | now left].
  - vm_compute. reflexivity.
  - intros l. unfold Edg.create_timeseries_mapping.
    replace (fold_left Edg.mapping_step (map without_name l) [])
      with (fold_left Edg.mapping_step l []); [reflexivity |].
    generalize (@nil (string * pyval)).
    induction l as [| ts l IH]; intros d; [reflexivity |].
    cbn [map fold_left]. rewrite IH. reflexivity.
Qed.

Lemma generation_mapping_resolves_usable_descriptors_witness :
  let unknown := mk_timeseries (PyStr "7") (PyStr "windSpeed") (PyStr "ts-C") in
  let l := Fixture.echoed ++ [Fixture.zero_id; unknown] in
  (In Fixture.zero_id l /\ usable Fixture.zero_id = false
   /\ In unknown l /\ usable unknown = true /\ spec_bind unknown = None)
  /\ fst (generation_mapping l) = spec_resolve (filter usable l)
  /\ In (MissingIds Fixture.zero_id) (snd (generation_mapping l))
  /\ In (CouldNotMap unknown) (snd (generation_mapping l)).
Proof.
  cbv zeta.
  pose proof (proj1 generation_mapping_resolves_usable_descriptors
                (Fixture.echoed
                 ++ [Fixture.zero_id;
                     mk_timeseries (PyStr "7") (PyStr "windSpeed") (PyStr "ts-C")]))
    as (Hmap & Hskip & Hleft & _).
  split; [repeat split; vm_compute; auto |].
  split; [exact Hmap |]. split.
  - apply Hskip; vm_compute; auto.
  - apply Hleft; vm_compute; auto.
Defined.

(** The name fallback at work, and its absence in the grid mapper. *)
Example name_fallback_run :
  fst (generation_mapping
         [mk_timeseries (PyStr "9") (PyStr "humidityLevel") (PyStr "ts-H")])
  = [("humidity", PyStr "ts-H")]
  /\ fst (generation_mapping
            [mk_timeseries PyNone (PyStr "humidityLevel") (PyStr "ts-H")])
     = []
  /\ Edg.create_timeseries_mapping
       [mk_timeseries (PyInt 9) (PyStr "consumedEnergy") (PyStr "ts-C");
        mk_timeseries (PyInt 2) (PyStr "anything") (PyStr "ts-G")]
     = ([("generatedEnergy", PyStr "ts-G")], ["consumedEnergy"]).
Proof. vm_compute. repeat split. Qed.

End MainFacts.

(** * More of faen_client.py *)

Module FaenMore.
Import Py Datetime Faen PyFacts FaenFacts.

#[local] Arguments days : simpl never.

Lemma midnight_le (d : date) (t : datetime) :
  combine_min d <= t <-> d <= date_of t.
Proof.
  unfold combine_min, date_of, us_per_day. split; intros H.
  - apply Z.div_le_lower_bound; lia.
  - pose proof (Z.mul_div_le t 86400000000 ltac:(lia)). nia.
Qed.

Lemma midnight_gt (d : date) (t : datetime) :
  t < combine_min d <-> date_of t < d.
Proof.
  pose proof (midnight_le d t) as H. lia.
Qed.

Lemma full_day_bounds (s e : date) (t : datetime) :
  satisfies [("$gte", Iso (combine_min s)); ("$lt", Iso (combine_min (e + 1)))] t
  = true
  <-> s <= date_of t <= e.
Proof.
  cbn [satisfies forallb fromisoformat].
  change (holds "$gte" (combine_min s) t) with (combine_min s <=? t).
  change (holds "$lt" (combine_min (e + 1)) t) with (t <? combine_min (e + 1)).
  rewrite andb_true_r, andb_true_iff, Z.leb_le, Z.ltb_lt.
  rewrite midnight_le, midnight_gt. lia.
Qed.

(** X1.  The filter of [create_full_day_query], and of
    [create_weather_query], is met exactly by the instants whose calendar
    day lies between the start day and the end day, both included;
    [datetime] arguments count by their day. *)
Theorem full_day_queries_select_whole_days :
  forall (a b : date_arg) (t : datetime),
    (exists bounds,
        lookup String.eqb "datetime" (create_full_day_query a b) = Some bounds
        /\ (satisfies bounds t = true <-> as_date a <= date_of t <= as_date b))
    /\ (exists bounds,
          lookup String.eqb "datetime_utc" (FaenGet.create_weather_query a b)
          = Some bounds
          /\ (satisfies bounds t = true
              <-> as_date a <= date_of t <= as_date b)).
Proof.
  intros a b t. split; eexists; (split; [reflexivity | apply full_day_bounds]).
Qed.

Section Consumption.
Context {Rec World : Type} (api : upstream Rec World).
Implicit Types (q : query) (st : state World).

Lemma single_request_sent q limit sort eumed st :
  sent (snd (single_request api q limit sort eumed st))
  = sent st ++ [request_body q limit sort eumed].
Proof.
  unfold single_request, post.
  destruct (session_post api _ (world st)) as [[data |] w]; reflexivity.
Qed.

(** What a signed-in call posts. *)
Lemma signed_in_sent q limit sort eumed st :
  no_token st = false ->
  sent (snd (query_consumption api q limit sort eumed st))
  = sent st
    ++ match datetime_range q with
       | Some (Some (s, e)) =>
           if td_days (e - s) >? 10
           then map (chunk_request q limit sort eumed) (date_chunks e s)
           else [request_body q limit sort eumed]
       | _ => [request_body q limit sort eumed]
       end.
Proof.
  intros Htok. rewrite query_consumption_signed_in by assumption.
  unfold query_consumption_authenticated.
  destruct (datetime_range q) as [[[s e] |] |];
    try apply single_request_sent.
  destruct (td_days (e - s) >? 10); [| apply single_request_sent].
  pose proof (chunked_sent api q limit sort eumed s e st) as H.
  destruct (_query_consumption_chunked api q limit sort eumed s e st).
  exact H.
Qed.

Lemma post_all_ext (api' : upstream Rec World) (reqs : list request) st :
  (forall r w, session_post api r w = session_post api' r w) ->
  post_all api reqs st = post_all api' reqs st.
Proof.
  intros Hsame. revert st. induction reqs as [| r reqs IH]; intros st;
    cbn [post_all]; [reflexivity |].
  unfold post. rewrite Hsame.
  destruct (session_post api' r (world st)) as [resp w]. now rewrite IH.
Qed.

End Consumption.

(** X2.  A signed-in consumption query built by [create_full_day_query]
    from the days [s] to [e] is cut into chunks as soon as [e - s] is 10 or
    more, the chunks tiling midnight of [s] to midnight of the day after
    [e]; for [e - s] below 10 it is one request with the query as built. *)
Theorem full_day_query_is_chunked_from_ten_days_apart :
  forall (Rec World : Type) (api : upstream Rec World) (s e : date)
         (limit : Z) (sort : option string) (eumed : bool) (st : state World),
    no_token st = false ->
    let q := create_full_day_query (ADate s) (ADate e) in
    let st' := snd (query_consumption api q limit sort eumed st) in
    (10 <= e - s ->
       exists cs, tiling (combine_min s) (combine_min (e + 1)) cs
                  /\ (2 <= List.length cs)%nat
                  /\ sent st' = sent st ++ map (chunk_request q limit sort eumed) cs)
    /\ (e - s < 10 -> sent st' = sent st ++ [request_body q limit sort eumed]).
Proof.
  intros Rec World api s e limit sort eumed st Htok q st'. subst st'.
  rewrite signed_in_sent by assumption.
  change (datetime_range q)
    with (Some (Some (combine_min s, combine_min (e + 1)))).
  cbv iota beta.
  assert (Hd : td_days (combine_min (e + 1) - combine_min s) = e + 1 - s).
  { unfold td_days, combine_min. rewrite <- Z.mul_sub_distr_r.
    apply Z.div_mul. discriminate. }
  rewrite Hd. split; intros Hspan.
  - destruct (Z.gtb_spec (e + 1 - s) 10) as [_ |]; [| lia].
    assert (Hlt : combine_min s < combine_min (e + 1))
      by (unfold combine_min, us_per_day; lia).
    pose proof (date_chunks_tiling _ _ Hlt) as T.
    exists (date_chunks (combine_min (e + 1)) (combine_min s)).
    split; [exact T |]. split; [| reflexivity].
    apply (tiling_two _ _ _ T). unfold combine_min, days, us_per_day. lia.
  - destruct (Z.gtb_spec (e + 1 - s) 10) as [| _]; [lia | reflexivity].
Qed.

Lemma full_day_query_is_chunked_from_ten_days_apart_witness :
  let s := ymd 2025 5 1 in
  let e := ymd 2025 5 11 in
  let q := create_full_day_query (ADate s) (ADate e) in
  let st' := snd (query_consumption (Fixture.flaky 0) q 100 None false
                                    Fixture.signed_in) in
  no_token Fixture.signed_in = false
  /\ 10 <= e - s
  /\ exists cs, tiling (combine_min s) (combine_min (e + 1)) cs
                /\ (2 <= List.length cs)%nat
                /\ sent st' = sent Fixture.signed_in
                              ++ map (chunk_request q 100 None false) cs.
Proof.
  cbv zeta. split; [reflexivity |]. split; [vm_compute; discriminate |].
  apply (proj1 (full_day_query_is_chunked_from_ten_days_apart Z nat
                  (Fixture.flaky 0) (ymd 2025 5 1) (ymd 2025 5 11)
                  100 None false Fixture.signed_in eq_refl)).
  vm_compute. discriminate.
Defined.

(** X3.  A query built by the legacy [create_date_range_query] has no
    "$lt" bound, so a signed-in [query_consumption] never cuts it: whatever
    the two dates, exactly one request is posted, with the query as built. *)
Theorem legacy_range_query_is_never_chunked :
  forall (Rec World : Type) (api : upstream Rec World)
         (start_date end_date : datestr) (limit : Z) (sort : option string)
         (eumed : bool) (st : state World),
    no_token st = false ->
    let q := FaenGet.create_date_range_query start_date end_date in
    sent (snd (query_consumption api q limit sort eumed st))
    = sent st ++ [request_body q limit sort eumed].
Proof.
  intros Rec World api a b limit sort eumed st Htok q.
  now rewrite signed_in_sent by assumption.
Qed.

Lemma legacy_range_query_is_never_chunked_witness :
  let q := FaenGet.create_date_range_query (Iso (midnight 2025 1 1))
                                           (Iso (midnight 2025 12 31)) in
  no_token Fixture.signed_in = false
  /\ sent (snd (query_consumption (Fixture.flaky 0) q 100 None false
                                  Fixture.signed_in))
     = sent Fixture.signed_in ++ [request_body q 100 None false].
Proof.
  cbv zeta. split; [reflexivity |].
  exact (legacy_range_query_is_never_chunked Z nat (Fixture.flaky 0)
           (Iso (midnight 2025 1 1)) (Iso (midnight 2025 12 31))
           100 None false Fixture.signed_in eq_refl).
Defined.

(** X4.  A client without a token whose authentication fails raises the
    authentication exception; it posts no query and keeps no token. *)
Theorem failed_authentication_posts_nothing :
  forall (Rec World : Type) (api : upstream Rec World) (q : query)
         (limit : Z) (sort : option string) (eumed : bool) (st : state World),
    no_token st = true ->
    fst (token_post api (world st)) = None ->
    let r := query_consumption api q limit sort eumed st in
    fst r = Raised AuthenticationRequired
    /\ sent (snd r) = sent st
    /\ access_token (snd r) = access_token st.
Proof.
  intros Rec World api q limit sort eumed st Htok Hfail r. subst r.
  unfold query_consumption, authenticate. rewrite Htok.
  destruct (token_post api (world st)) as [[tok |] w]; [discriminate |].
  repeat split.
Qed.

Lemma failed_authentication_posts_nothing_witness :
  let q := create_full_day_query (ADate (ymd 2025 5 1)) (ADate (ymd 2025 5 24)) in
  let r := query_consumption (Samples.locked 0) q 100 None false
                             Samples.signed_out in
  (no_token Samples.signed_out = true
   /\ fst (token_post (Samples.locked 0) (world Samples.signed_out)) = None)
  /\ fst r = Raised AuthenticationRequired
  /\ sent (snd r) = sent Samples.signed_out
  /\ access_token (snd r) = access_token Samples.signed_out.
Proof.
  cbv zeta. split; [split; reflexivity |].
  exact (failed_authentication_posts_nothing Z nat (Samples.locked 0)
           (create_full_day_query (ADate (ymd 2025 5 1)) (ADate (ymd 2025 5 24)))
           100 None false Samples.signed_out eq_refl eq_refl).
Defined.

(** X5.  A client that holds a token never turns to the token endpoint:
    two upstreams that answer the queries alike give the same result and
    the same state, whatever their token endpoints do. *)
Theorem signed_in_client_does_not_authenticate_again :
  forall (Rec World : Type) (api api' : upstream Rec World) (q : query)
         (limit : Z) (sort : option string) (eumed : bool) (st : state World),
    (forall r w, session_post api r w = session_post api' r w) ->
    no_token st = false ->
    query_consumption api q limit sort eumed st
    = query_consumption api' q limit sort eumed st.
Proof.
  intros Rec World api api' q limit sort eumed st Hsame Htok.
  rewrite !query_consumption_signed_in by assumption.
  unfold query_consumption_authenticated.
  assert (Hsingle : single_request api q limit sort eumed st
                    = single_request api' q limit sort eumed st).
  { unfold single_request, post. now rewrite Hsame. }
  destruct (datetime_range q) as [[[s e] |] |]; try exact Hsingle.
  destruct (td_days (e - s) >? 10); [| exact Hsingle].
  unfold _query_consumption_chunked. rewrite !chunk_loop_post_all.
  now rewrite (post_all_ext api api' _ st Hsame).
Qed.

Lemma signed_in_client_does_not_authenticate_again_witness :
  let q := create_full_day_query (ADate (ymd 2025 5 1)) (ADate (ymd 2025 5 24)) in
  (forall r w, session_post (Fixture.flaky 0) r w
               = session_post (Samples.locked 0) r w)
  /\ no_token Fixture.signed_in = false
  /\ query_consumption (Fixture.flaky 0) q 100 None false Fixture.signed_in
     = query_consumption (Samples.locked 0) q 100 None false Fixture.signed_in.
Proof.
  cbv zeta. split; [intros r w; reflexivity |]. split; [reflexivity |].
  exact (signed_in_client_does_not_authenticate_again Z nat (Fixture.flaky 0)
           (Samples.locked 0)
           (create_full_day_query (ADate (ymd 2025 5 1)) (ADate (ymd 2025 5 24)))
           100 None false Fixture.signed_in (fun r w => eq_refl) eq_refl).
Defined.

(** X6.  Every request of the chunk loop carries the caller's limit, sort
    and format flag, and its query differs from the base query in the
    "datetime" entry alone: every other filter is kept. *)
Theorem chunk_requests_keep_the_other_filters :
  forall (Rec World : Type) (api : upstream Rec World) (q : query)
         (limit : Z) (sort : option string) (eumed : bool)
         (s e : datetime) (st : state World),
    Forall (fun r =>
              req_limit r = limit /\ req_eumed r = eumed
              /\ req_sort r = sort_entry sort
              /\ forall k, k <> "datetime" ->
                           lookup String.eqb k (req_query r)
                           = lookup String.eqb k q)
           (skipn (List.length (sent st))
                  (sent (snd (_query_consumption_chunked api q limit sort eumed
                                                         s e st)))).
Proof.
  intros Rec World api q limit sort eumed s e st.
  rewrite chunked_sent, skipn_length_app. apply Forall_forall.
  intros r Hr. apply in_map_iff in Hr. destruct Hr as [c [<- _]].
  repeat split. intros k Hk. unfold chunk_request, request_body, chunk_query.
  cbn [req_query]. now apply lookup_set_other.
Qed.

Lemma tiling_length (s e : datetime) (cs : list (datetime * datetime)) :
  tiling s e cs ->
  Z.of_nat (List.length cs) = (e - s + days 10 - 1) / days 10.
Proof.
  pose proof days_10_pos as Hpos.
  induction 1 as [s e H1 H2 | s e cs H1 H2 IH].
  - cbn [List.length]. change (Z.of_nat 1) with 1.
    apply Z.div_unique with (r := e - s - 1); [left; lia | lia].
  - cbn [List.length]. rewrite Nat2Z.inj_succ, IH.
    replace (e - s + days 10 - 1)
      with (e - (s + days 10) + days 10 - 1 + 1 * days 10) by lia.
    rewrite Z.div_add by lia. lia.
Qed.

(** X7.  For [start <= end] the chunk loop posts as many requests as the
    span holds ten-day pieces, the last one counted whole:
    [(end - start + 10 days - 1) // 10 days]. *)
Theorem number_of_chunk_requests :
  forall (Rec World : Type) (api : upstream Rec World) (q : query)
         (limit : Z) (sort : option string) (eumed : bool)
         (s e : datetime) (st : state World),
    s <= e ->
    Z.of_nat (List.length (sent (snd (_query_consumption_chunked
                                        api q limit sort eumed s e st))))
    = Z.of_nat (List.length (sent st)) + (e - s + days 10 - 1) / days 10.
Proof.
  intros Rec World api q limit sort eumed s e st Hle.
  rewrite chunked_sent, length_app, length_map, Nat2Z.inj_add. f_equal.
  destruct (Z_lt_dec s e) as [Hlt | Hge].
  - apply tiling_length, date_chunks_tiling, Hlt.
  - rewrite date_chunks_done by assumption. cbn [List.length].
    replace e with s by lia. rewrite Z.sub_diag. cbn [Z.add].
    symmetry. apply Z.div_small. pose proof days_10_pos. lia.
Qed.

Lemma number_of_chunk_requests_witness :
  midnight 2025 5 1 <= midnight 2025 6 2
  /\ Z.of_nat (List.length (sent (snd (_query_consumption_chunked
                                         (Fixture.flaky 0) [] 100 None false
                                         (midnight 2025 5 1) (midnight 2025 6 2)
                                         Fixture.signed_in))))
     = 4.
Proof.
  split; [vm_compute; discriminate |].
  rewrite (number_of_chunk_requests Z nat (Fixture.flaky 0) [] 100 None false
             (midnight 2025 5 1) (midnight 2025 6 2) Fixture.signed_in);
    vm_compute; [reflexivity | discriminate].
Defined.

End FaenMore.

(** * query_generation and query_weather *)

Module FaenGetFacts.
Import Py Datetime Faen PyFacts FaenFacts FaenGet.

#[local] Arguments days : simpl never.

Section Get.
Context {Rec World : Type} (api : FaenGet.upstream Rec World).
Implicit Types (q : query) (st : FaenGet.state World) (ep : endpoint).

Lemma get_loop_step ep q limit sort e s (recs : list Rec) st :
  s < e ->
  chunk_loop api ep q limit sort e s recs st
  = let c := (s, Z.min (s + days 10) e) in
    let r := get api ep (chunk_params ep q limit sort c) st in
    chunk_loop api ep q limit sort e (snd c)
               (extend_records recs (fst r)) (snd r).
Proof.
  intros H. rewrite chunk_loop_equation_1.
  destruct (Z_lt_dec s e); [reflexivity | contradiction].
Qed.

Lemma get_loop_done ep q limit sort e s (recs : list Rec) st :
  ~ s < e -> chunk_loop api ep q limit sort e s recs st = (recs, st).
Proof.
  intros H. rewrite chunk_loop_equation_1.
  destruct (Z_lt_dec s e); [contradiction | reflexivity].
Qed.

Lemma get_loop_get_all ep q limit sort e s (recs : list Rec) st :
  chunk_loop api ep q limit sort e s recs st
  = let r := get_all api ep (map (chunk_params ep q limit sort)
                                 (date_chunks e s)) st in
    (recs ++ flat_map records_of (fst r), snd r).
Proof.
  remember (Z.to_nat (e - s)) as n eqn:Hn.
  revert s recs st Hn. induction n as [n IH] using lt_wf_ind.
  intros s recs st Hn.
  destruct (Z_lt_dec s e) as [Hlt | Hge].
  - rewrite get_loop_step, date_chunks_step by assumption.
    cbv zeta. cbn [map get_all snd]. unfold datetime in *.
    pose proof days_10_pos as Hpos.
    destruct (get api ep (chunk_params ep q limit sort
                            (s, Z.min (s + days 10) e)) st) as [resp st1].
    cbn [fst snd].
    rewrite (IH (Z.to_nat (e - Z.min (s + days 10) e))); [| lia | reflexivity].
    cbv zeta.
    destruct (get_all api ep _ st1) as [resps st2]. cbn [fst snd flat_map].
    now rewrite extend_records_app, <- app_assoc.
  - rewrite get_loop_done, date_chunks_done by assumption.
    simpl. now rewrite app_nil_r.
Qed.

Lemma get_all_sent ep (ps : list params) st :
  FaenGet.sent (snd (get_all api ep ps st))
  = FaenGet.sent st ++ map (pair ep) ps.
Proof.
  revert st. induction ps as [| p ps IH]; intros st; cbn [get_all map].
  - cbn. now rewrite app_nil_r.
  - unfold get at 1. destruct (session_get api ep p (FaenGet.world st)) as [resp w].
    match goal with |- context [get_all api ep ps ?s] =>
      specialize (IH s); destruct (get_all api ep ps s) as [resps st2] end.
    cbn [snd FaenGet.sent] in *. rewrite IH. now rewrite <- app_assoc.
Qed.

Lemma get_single_sent ep q limit sort st :
  FaenGet.sent (snd (FaenGet.single_request api ep q limit sort st))
  = FaenGet.sent st ++ [(ep, get_params q limit sort)].
Proof.
  unfold FaenGet.single_request, get.
  destruct (session_get api ep _ (FaenGet.world st)) as [[data |] w]; reflexivity.
Qed.

Lemma query_endpoint_signed_in ep q limit sort st :
  FaenGet.no_token st = false ->
  query_endpoint api ep q limit sort st
  = query_authenticated api ep q limit sort st.
Proof. intros H. unfold query_endpoint. now rewrite H. Qed.

End Get.

(** X8.  [query_generation] and [query_weather], signed in, on a query
    whose own date field holds a range of a day count above 10: the call
    returns whatever the answers; it requests every chunk of a tiling of
    the range, in ascending order, at its endpoint; each request sets the
    bounds of its chunk under the date field of the endpoint; and the list
    returned is the concatenation, in that order, of the records of the
    chunks that succeeded. *)
Theorem get_queries_skip_failed_chunks :
  forall (Rec World : Type) (api : FaenGet.upstream Rec World) (ep : endpoint)
         (q : query) (limit : Z) (sort : option string) (s e : datetime)
         (st : FaenGet.state World),
    FaenGet.no_token st = false ->
    field_range ep q = Some (Some (s, e)) ->
    td_days (e - s) > 10 ->
    exists cs,
      tiling s e cs
      /\ Forall (fun c =>
                   lookup String.eqb (date_field ep)
                          (param_query (chunk_params ep q limit sort c))
                   = Some [("$gte", isoformat (fst c));
                           ("$lt", isoformat (snd c))]) cs
      /\ let answers :=
            get_all api ep (map (chunk_params ep q limit sort) cs) st in
         query_endpoint api ep q limit sort st
         = (Returned (flat_map records_of (fst answers)), snd answers)
         /\ FaenGet.sent (snd answers)
            = FaenGet.sent st
              ++ map (fun c => (ep, chunk_params ep q limit sort c)) cs.
Proof.
  intros Rec World api ep q limit sort s e st Htok Hrange Hdays.
  pose proof (td_days_gt_10 _ Hdays) as H11.
  assert (Hlt : s < e) by (unfold days, us_per_day in H11; lia).
  exists (date_chunks e s). split; [apply date_chunks_tiling, Hlt |].
  split.
  { apply Forall_forall. intros c _. unfold chunk_params, get_params.
    cbn [param_query]. apply lookup_set_same. }
  cbv zeta. split.
  - rewrite query_endpoint_signed_in by assumption.
    unfold query_authenticated. rewrite Hrange.
    destruct (Z.gtb_spec (td_days (e - s)) 10) as [_ |]; [| lia].
    unfold query_chunked. rewrite get_loop_get_all. reflexivity.
  - rewrite get_all_sent, map_map. reflexivity.
Qed.

Lemma get_queries_skip_failed_chunks_witness :
  let q := create_weather_query (ADate (ymd 2025 5 1)) (ADate (ymd 2025 5 24)) in
  let s := midnight 2025 5 1 in
  let e := midnight 2025 5 25 in
  let api := Samples.flaky_get (midnight 2025 5 11) in
  (FaenGet.no_token Samples.signed_in_get = false
   /\ field_range Weather q = Some (Some (s, e)) /\ td_days (e - s) > 10)
  /\ exists cs,
      tiling s e cs
      /\ Forall (fun c =>
                   lookup String.eqb (date_field Weather)
                          (param_query (chunk_params Weather q 100 None c))
                   = Some [("$gte", isoformat (fst c));
                           ("$lt", isoformat (snd c))]) cs
      /\ let answers :=
            get_all api Weather (map (chunk_params Weather q 100 None) cs)
                    Samples.signed_in_get in
         query_endpoint api Weather q 100 None Samples.signed_in_get
         = (Returned (flat_map records_of (fst answers)), snd answers)
         /\ FaenGet.sent (snd answers)
            = FaenGet.sent Samples.signed_in_get
              ++ map (fun c => (Weather, chunk_params Weather q 100 None c)) cs.
Proof.
  cbv zeta. split; [repeat split; vm_compute; reflexivity |].
  apply (get_queries_skip_failed_chunks Z nat
           (Samples.flaky_get (midnight 2025 5 11)) Weather
           (create_weather_query (ADate (ymd 2025 5 1)) (ADate (ymd 2025 5 24)))
           100 None (midnight 2025 5 1) (midnight 2025 5 25)
           Samples.signed_in_get); vm_compute; reflexivity.
Defined.

(** X9.  Each endpoint looks for the range under its own field only:
    signed in, [query_generation] given the query of
    [create_weather_query], and [query_weather] given the query of
    [create_full_day_query], send exactly one request with the query as
    built, however long the range. *)
Theorem endpoints_chunk_on_their_own_field_only :
  forall (Rec World : Type) (api : FaenGet.upstream Rec World)
         (a b : date_arg) (limit : Z) (sort : option string)
         (st : FaenGet.state World),
    FaenGet.no_token st = false ->
    FaenGet.sent (snd (query_generation api (create_weather_query a b)
                                        limit sort st))
    = FaenGet.sent st
      ++ [(Generation, get_params (create_weather_query a b) limit sort)]
    /\ FaenGet.sent (snd (query_weather api (create_full_day_query a b)
                                        limit sort st))
       = FaenGet.sent st
         ++ [(Weather, get_params (create_full_day_query a b) limit sort)].
Proof.
  intros Rec World api a b limit sort st Htok.
  unfold query_generation, query_weather.
  rewrite !query_endpoint_signed_in by assumption.
  unfold query_authenticated. cbn [field_range date_field lookup
    create_weather_query create_full_day_query String.eqb Ascii.eqb Bool.eqb].
  split; apply get_single_sent.
Qed.

Lemma endpoints_chunk_on_their_own_field_only_witness :
  let a := ADate (ymd 2025 1 1) in
  let b := ADate (ymd 2025 12 31) in
  FaenGet.no_token Samples.signed_in_get = false
  /\ FaenGet.sent (snd (query_generation (Samples.flaky_get 0)
                          (create_weather_query a b) 100 None
                          Samples.signed_in_get))
     = FaenGet.sent Samples.signed_in_get
       ++ [(Generation, get_params (create_weather_query a b) 100 None)]
  /\ FaenGet.sent (snd (query_weather (Samples.flaky_get 0)
                          (create_full_day_query a b) 100 None
                          Samples.signed_in_get))
     = FaenGet.sent Samples.signed_in_get
       ++ [(Weather, get_params (create_full_day_query a b) 100 None)].
Proof.
  cbv zeta. split; [reflexivity |].
  exact (endpoints_chunk_on_their_own_field_only Z nat (Samples.flaky_get 0)
           (ADate (ymd 2025 1 1)) (ADate (ymd 2025 12 31)) 100 None
           Samples.signed_in_get eq_refl).
Defined.

End FaenGetFacts.

(** * More of add_datapoints_batch *)

Module CdeMore.
Import Py Cde PyFacts CdeFacts.

Lemma payload_concat (gs : list (list datapoint)) :
  List.concat (map payload gs) = payload (List.concat gs).
Proof.
  unfold payload. induction gs as [| g gs IH]; [reflexivity |].
  cbn [map List.concat]. now rewrite IH, filter_app, map_app.
Qed.

Lemma nth_error_seq_0 (k i : nat) :
  nth_error (seq 0 k) i = if (i <? k)%nat then Some i else None.
Proof.
  destruct (Nat.ltb_spec i k) as [Hlt | Hge].
  - rewrite (nth_error_nth' _ 0%nat) by (now rewrite length_seq).
    now rewrite seq_nth.
  - apply nth_error_None. now rewrite length_seq.
Qed.

Lemma batches_neg_none (dps : list datapoint) (bs : Z) :
  bs < 0 -> 2 <= Z.of_nat (List.length dps) -> batches dps bs = [].
Proof.
  intros Hbs Hn. unfold batches. cbv zeta.
  set (n := Z.of_nat (List.length dps)) in *.
  assert (Hk : (n + bs - 1) / bs <= 0).
  { pose proof (Z.div_mod (n + bs - 1) bs ltac:(lia)) as Hdm.
    pose proof (Z.mod_neg_bound (n + bs - 1) bs Hbs) as Hmod. nia. }
  unfold range. replace (Z.to_nat ((n + bs - 1) / bs)) with 0%nat by lia.
  reflexivity.
Qed.

Lemma batches_length (dps : list datapoint) (bs : Z) :
  0 < bs ->
  Z.of_nat (List.length (batches dps bs))
  = (Z.of_nat (List.length dps) + bs - 1) / bs.
Proof.
  intros Hbs. unfold batches, range. cbv zeta.
  rewrite !length_map, length_seq. apply Z2Nat.id.
  apply Z.div_pos; lia.
Qed.

(** The sizes of the groups for a positive batch size. *)
Lemma batches_sizes (dps : list datapoint) (bs : Z) (i : nat)
    (g : list datapoint) :
  0 < bs ->
  nth_error (batches dps bs) i = Some g ->
  if (S i <? List.length (batches dps bs))%nat
  then Z.of_nat (List.length g) = bs
  else 0 < Z.of_nat (List.length g) <= bs.
Proof.
  intros Hbs Hg.
  pose proof (batches_length dps bs Hbs) as Hlen.
  rewrite batches_pos in Hg by assumption.
  set (n := Z.of_nat (List.length dps)) in *.
  set (K := Z.to_nat ((n + bs - 1) / bs)) in *.
  rewrite nth_error_map, nth_error_seq_0 in Hg.
  destruct (Nat.ltb_spec i K) as [Hi | Hi]; [| discriminate].
  cbn [option_map] in Hg. injection Hg as <-.
  assert (HK : Z.of_nat K = (n + bs - 1) / bs).
  { unfold K. apply Z2Nat.id. apply Z.div_pos; lia. }
  assert (Hlast : (Z.of_nat K - 1) * bs < n).
  { pose proof (Z.mul_div_le (n + bs - 1) bs Hbs). nia. }
  rewrite length_firstn, length_skipn.
  assert (Hb : Z.of_nat (Z.to_nat bs) = bs) by lia.
  assert (Hib : Z.of_nat (i * Z.to_nat bs) = Z.of_nat i * bs) by nia.
  assert (Hlen' : Z.of_nat (List.length (batches dps bs)) = Z.of_nat K) by lia.
  destruct (Nat.ltb_spec (S i) (List.length (batches dps bs))) as [Hs | Hs].
  - assert ((Z.of_nat i + 1) * bs <= (Z.of_nat K - 1) * bs) by nia.
    assert (Z.of_nat (List.length dps - i * Z.to_nat bs) >= bs) by (fold n; nia).
    lia.
  - assert (Z.of_nat i = Z.of_nat K - 1) by lia.
    assert (0 < Z.of_nat (List.length dps - i * Z.to_nat bs)) by (fold n; nia).
    lia.
Qed.

Section Run.
Context {World : Type} (cde : downstream World).
Implicit Types (st : state World) (dps : list datapoint).

(** A run on a non-empty list with a batch size other than zero, once the
    directory is made: the counts and the uploads. *)
Lemma run_summary dps (bs : Z) (name : string) (sd ed : option string) st :
  dps <> [] -> bs <> 0 -> fst (fs_mkdir cde (world st)) = true ->
  exists s f st',
    add_datapoints_batch cde dps bs name sd ed st
    = (Returned (mk_result s f (Z.of_nat (List.length dps))), st')
    /\ 0 <= s /\ 0 <= f /\ s + f = total_length (batches dps bs)
    /\ map (fun u => snd (fst u)) (uploads (since st st'))
       = map payload (batches dps bs).
Proof.
  intros Hne Hbs Hmk.
  rewrite add_datapoints_batch_uploads by assumption. cbv zeta.
  set (st1 := log Mkdir (snd (fs_mkdir cde (world st))) st).
  destruct (save_files_events cde dps name sd ed st1) as (ws & Hws & Hwu & _).
  set (st2 := save_files cde dps name sd ed st1) in *.
  pose proof (spec_upload_groups_counts cde (batches dps bs) 1 0 0 st2) as Hc.
  destruct (spec_upload_groups cde 1 (batches dps bs) (0, 0, st2))
    as [[s f] st3].
  destruct Hc as (Hs & Hf & Hsum & evs & Hev & _ & Hrows & _).
  exists s, f, st3. split; [reflexivity |].
  repeat split; try lia.
  assert (E : since st st3 = Mkdir :: ws ++ evs).
  { apply since_app. rewrite Hev, Hws. unfold st1, log. cbn [events].
    now rewrite <- !app_assoc. }
  rewrite E. change (uploads (Mkdir :: ws ++ evs)) with (uploads (ws ++ evs)).
  rewrite uploads_app, Hwu. exact Hrows.
Qed.

End Run.

(** X10.  With a positive batch size every datapoint is counted exactly
    once: whenever the call returns, success + failed = total. *)
Theorem positive_batch_size_counts_every_datapoint :
  forall (World : Type) (cde : downstream World) (datapoints : list datapoint)
         (batch_size : Z) (dataset_name : string)
         (start_date end_date : option string) (st st' : state World)
         (r : upload_result),
    0 < batch_size ->
    add_datapoints_batch cde datapoints batch_size dataset_name
                         start_date end_date st = (Returned r, st') ->
    success r + failed r = total r.
Proof.
  intros World cde dps bs name sd ed st st' r Hbs Hrun.
  destruct dps as [| dp0 dps0] eqn:Edps.
  { cbn in Hrun. injection Hrun as <- <-. reflexivity. }
  rewrite <- Edps in *. assert (Hne : dps <> []) by (subst dps; discriminate).
  clear Edps.
  destruct (fst (fs_mkdir cde (world st))) eqn:Hmk.
  2:{ unfold add_datapoints_batch in Hrun. destruct dps; [contradiction |].
      destruct (fs_mkdir cde (world st)) as [made w]. cbn in Hmk. subst made.
      discriminate. }
  destruct (run_summary cde dps bs name sd ed st Hne ltac:(lia) Hmk)
    as (s & f & st3 & E & _ & _ & Hsum & _).
  rewrite E in Hrun. injection Hrun as <- <-. cbn [success failed total].
  rewrite Hsum. unfold total_length. now rewrite batches_concat.
Qed.

Lemma positive_batch_size_counts_every_datapoint_witness :
  exists r st',
    0 < 2
    /\ add_datapoints_batch (Fixture.platform [2]) Fixture.three_readings 2
                            "edg" None None Fixture.fresh = (Returned r, st')
    /\ success r + failed r = total r.
Proof.
  eexists. eexists. split; [reflexivity |].
  split; [vm_compute; reflexivity |].
  eapply (positive_batch_size_counts_every_datapoint nat (Fixture.platform [2])
            Fixture.three_readings 2 "edg" None None Fixture.fresh);
    [reflexivity | vm_compute; reflexivity].
Defined.

(** X11.  With a negative batch size, once the directory is made, a
    non-empty list is reported as (0, 0, total): no row is uploaded (an
    upload, if any, has an empty payload), and for two datapoints or more
    no upload is made at all. *)
Theorem negative_batch_size_uploads_no_row :
  forall (World : Type) (cde : downstream World) (datapoints : list datapoint)
         (batch_size : Z) (dataset_name : string)
         (start_date end_date : option string) (st : state World),
    batch_size < 0 -> datapoints <> [] ->
    fst (fs_mkdir cde (world st)) = true ->
    let run := add_datapoints_batch cde datapoints batch_size dataset_name
                                    start_date end_date st in
    fst run = Returned (mk_result 0 0 (Z.of_nat (List.length datapoints)))
    /\ Forall (fun u => snd (fst u) = []) (uploads (since st (snd run)))
    /\ (2 <= Z.of_nat (List.length datapoints) ->
        uploads (since st (snd run)) = []).
Proof.
  intros World cde dps bs name sd ed st Hbs Hne Hmk run. subst run.
  destruct (run_summary cde dps bs name sd ed st Hne ltac:(lia) Hmk)
    as (s & f & st3 & E & Hs & Hf & Hsum & Hrows).
  rewrite E. cbn [fst snd].
  pose proof (batches_neg_empty dps bs Hbs) as Hempty.
  assert (Hzero : total_length (batches dps bs) = 0).
  { unfold total_length. now rewrite (concat_all_nil _ Hempty). }
  assert (s = 0 /\ f = 0) as [-> ->] by lia.
  split; [reflexivity |]. split.
  - assert (Hp : Forall (fun rows : list row => rows = [])
                        (map (fun u => snd (fst u)) (uploads (since st st3)))).
    { rewrite Hrows. apply Forall_map.
      eapply Forall_impl; [| exact Hempty]. intros g ->. reflexivity. }
    apply Forall_map in Hp. exact Hp.
  - intros Hn. rewrite (batches_neg_none dps bs Hbs Hn) in Hrows.
    cbn [map] in Hrows. now apply map_eq_nil in Hrows.
Qed.

Lemma negative_batch_size_uploads_no_row_witness :
  let run := add_datapoints_batch (Fixture.platform []) Fixture.three_readings
                                  (-1) "edg" None None Fixture.fresh in
  (-1 < 0 /\ Fixture.three_readings <> []
   /\ fst (fs_mkdir (Fixture.platform []) (world Fixture.fresh)) = true)
  /\ fst run = Returned (mk_result 0 0 3)
  /\ uploads (since Fixture.fresh (snd run)) = [].
Proof.
  cbv zeta. split; [repeat split; discriminate |].
  destruct (negative_batch_size_uploads_no_row nat (Fixture.platform [])
              Fixture.three_readings (-1) "edg" None None Fixture.fresh
              eq_refl ltac:(discriminate) eq_refl) as (H1 & _ & H3).
  split; [exact H1 | apply H3; vm_compute; discriminate].
Defined.

(** X12.  The call raises only before any upload: either the directory
    could not be made, and nothing else was done, or the batch size is zero
    on a non-empty list. *)
Theorem raises_only_before_any_upload :
  forall (World : Type) (cde : downstream World) (datapoints : list datapoint)
         (batch_size : Z) (dataset_name : string)
         (start_date end_date : option string) (st st' : state World)
         (e : exn),
    add_datapoints_batch cde datapoints batch_size dataset_name
                         start_date end_date st = (Raised e, st') ->
    uploads (since st st') = []
    /\ ((e = OSError /\ fst (fs_mkdir cde (world st)) = false
         /\ since st st' = [Mkdir])
        \/ (e = ZeroDivisionError /\ batch_size = 0 /\ datapoints <> [])).
Proof.
  intros World cde dps bs name sd ed st st' e Hrun.
  unfold add_datapoints_batch in Hrun.
  destruct dps as [| dp0 dps0]; [discriminate |].
  destruct (fs_mkdir cde (world st)) as [made w] eqn:Hmk.
  set (st1 := log Mkdir w st) in *.
  destruct made.
  - cbv zeta in Hrun.
    destruct (Z.eqb_spec bs 0) as [-> | Hbs].
    + injection Hrun as <- <-.
      destruct (save_files_events cde (dp0 :: dps0) name sd ed st1)
        as (ws & Hws & Hwu & _).
      split.
      * erewrite since_app; [| rewrite Hws; unfold st1, log; cbn [events];
                                rewrite <- app_assoc; reflexivity].
        exact Hwu.
      * right. repeat split. discriminate.
    + destruct (fold_left _ _ _) as [[s f] st3]. discriminate.
  - injection Hrun as <- <-.
    assert (E : since st st1 = [Mkdir]) by (apply since_app; reflexivity).
    rewrite E. split; [reflexivity |]. left. repeat split.
Qed.

Lemma raises_only_before_any_upload_witness :
  exists st',
    add_datapoints_batch (Fixture.platform []) Fixture.three_readings 0
                         "edg" None None Fixture.fresh
    = (Raised ZeroDivisionError, st')
    /\ uploads (since Fixture.fresh st') = [].
Proof.
  eexists. split; [vm_compute; reflexivity |].
  refine (proj1 (raises_only_before_any_upload nat (Fixture.platform [])
                   Fixture.three_readings 0 "edg" None None Fixture.fresh _
                   ZeroDivisionError _)).
  vm_compute. reflexivity.
Defined.

(** X13.  For a positive batch size and a non-empty list, once the
    directory is made, the call makes ceil(total / batch_size) uploads; the
    groups behind them are never empty, and each but the last holds
    exactly [batch_size] datapoints. *)
Theorem number_and_size_of_upload_groups :
  forall (World : Type) (cde : downstream World) (datapoints : list datapoint)
         (batch_size : Z) (dataset_name : string)
         (start_date end_date : option string) (st : state World),
    0 < batch_size -> datapoints <> [] ->
    fst (fs_mkdir cde (world st)) = true ->
    let run := add_datapoints_batch cde datapoints batch_size dataset_name
                                    start_date end_date st in
    Z.of_nat (List.length (uploads (since st (snd run))))
    = (Z.of_nat (List.length datapoints) + batch_size - 1) / batch_size
    /\ List.length (uploads (since st (snd run)))
       = List.length (batches datapoints batch_size)
    /\ forall i g,
         nth_error (batches datapoints batch_size) i = Some g ->
         if (S i <? List.length (batches datapoints batch_size))%nat
         then Z.of_nat (List.length g) = batch_size
         else 0 < Z.of_nat (List.length g) <= batch_size.
Proof.
  intros World cde dps bs name sd ed st Hbs Hne Hmk run. subst run.
  destruct (run_summary cde dps bs name sd ed st Hne ltac:(lia) Hmk)
    as (s & f & st3 & E & _ & _ & _ & Hrows).
  rewrite E. cbn [snd].
  assert (Hlen : List.length (uploads (since st st3))
                 = List.length (batches dps bs)).
  { rewrite <- (length_map (fun u => snd (fst u))), Hrows. apply length_map. }
  split; [rewrite Hlen; now apply batches_length |].
  split; [exact Hlen |].
  intros i g Hg. now apply batches_sizes.
Qed.

Lemma number_and_size_of_upload_groups_witness :
  let run := add_datapoints_batch (Fixture.platform [2]) Fixture.three_readings
                                  2 "edg" None None Fixture.fresh in
  (0 < 2 /\ Fixture.three_readings <> []
   /\ fst (fs_mkdir (Fixture.platform [2]) (world Fixture.fresh)) = true)
  /\ Z.of_nat (List.length (uploads (since Fixture.fresh (snd run)))) = 2.
Proof.
  cbv zeta. split; [repeat split; discriminate |].
  exact (proj1 (number_and_size_of_upload_groups nat (Fixture.platform [2])
                  Fixture.three_readings 2 "edg" None None Fixture.fresh
                  eq_refl ltac:(discriminate) eq_refl)).
Defined.

(** X14.  For a positive batch size and a non-empty list, once the
    directory is made, the payloads of the uploads, put end to end, are the
    rows of the datapoints that have their five values, each once and in
    the order given; a datapoint missing a value is in no payload. *)
Theorem uploaded_rows_are_the_complete_datapoints :
  forall (World : Type) (cde : downstream World) (datapoints : list datapoint)
         (batch_size : Z) (dataset_name : string)
         (start_date end_date : option string) (st : state World),
    0 < batch_size -> datapoints <> [] ->
    fst (fs_mkdir cde (world st)) = true ->
    let run := add_datapoints_batch cde datapoints batch_size dataset_name
                                    start_date end_date st in
    List.concat (map (fun u => snd (fst u)) (uploads (since st (snd run))))
    = map cells (filter complete datapoints).
Proof.
  intros World cde dps bs name sd ed st Hbs Hne Hmk run. subst run.
  destruct (run_summary cde dps bs name sd ed st Hne ltac:(lia) Hmk)
    as (s & f & st3 & E & _ & _ & _ & Hrows).
  rewrite E. cbn [snd]. rewrite Hrows, payload_concat.
  now rewrite batches_concat.
Qed.

Lemma uploaded_rows_are_the_complete_datapoints_witness :
  let run := add_datapoints_batch (Fixture.platform [2]) Fixture.three_readings
                                  2 "edg" None None Fixture.fresh in
  (0 < 2 /\ Fixture.three_readings <> []
   /\ fst (fs_mkdir (Fixture.platform [2]) (world Fixture.fresh)) = true)
  /\ List.concat (map (fun u => snd (fst u))
                      (uploads (since Fixture.fresh (snd run))))
     = map cells (filter complete Fixture.three_readings).
Proof.
  cbv zeta. split; [repeat split; discriminate |].
  exact (uploaded_rows_are_the_complete_datapoints nat (Fixture.platform [2])
           Fixture.three_readings 2 "edg" None None Fixture.fresh
           eq_refl ltac:(discriminate) eq_refl).
Defined.

End CdeMore.

(** * More of edg.py and of the mappings *)

Module EdgMore.
Import Py Datetime Descriptor Edg EdgTransform PyFacts EdgFacts.

Lemma endswith_Z_app (s : string) (c : ascii) (t : string) :
  endswith_Z (s ++ String c t) = endswith_Z (String c t).
Proof.
  induction s as [| a s IH]; [reflexivity |].
  cbn [String.append]. rewrite <- IH.
  destruct s; reflexivity.
Qed.

Lemma normalize_ends_with_Z (s : string) :
  endswith_Z (normalize_timestamp s) = true.
Proof.
  unfold normalize_timestamp. destruct (endswith_Z s) eqn:E; [exact E |].
  destruct (contains_T s); now rewrite endswith_Z_app.
Qed.

Lemma normalize_fixed (s : string) :
  endswith_Z s = true -> normalize_timestamp s = s.
Proof. intros H. unfold normalize_timestamp. now rewrite H. Qed.

Lemma endswith_Z_nonempty (s : string) : endswith_Z s = true -> s <> "".
Proof. intros H ->. discriminate. Qed.

(** X15.  The timestamp normalisation always yields a text that ends in
    "Z", and normalising twice is normalising once. *)
Theorem normalize_timestamp_is_idempotent :
  forall s : string,
    endswith_Z (normalize_timestamp s) = true
    /\ normalize_timestamp (normalize_timestamp s) = normalize_timestamp s.
Proof.
  intros s. split; [apply normalize_ends_with_Z |].
  apply normalize_fixed, normalize_ends_with_Z.
Qed.

Lemma insert_sorted_sorted (x : string) (l : list string) :
  Sorted.StronglySorted le_str l ->
  Sorted.StronglySorted le_str (insert_sorted x l).
Proof.
  induction 1 as [| h l Hl IH Hh]; cbn [insert_sorted].
  - repeat constructor.
  - destruct (str_leb x h) eqn:E.
    + constructor; [now constructor |]. constructor; [exact E |].
      eapply Forall_impl; [| exact Hh]. intros y Hy.
      exact (str_leb_trans _ _ _ E Hy).
    + constructor; [exact IH |]. apply Forall_forall. intros y Hy.
      apply insert_sorted_in in Hy. destruct Hy as [-> | Hy].
      * now apply str_leb_false.
      * exact (proj1 (Forall_forall _ _) Hh y Hy).
Qed.

Lemma sorted_is_sorted (l : list string) :
  Sorted.StronglySorted le_str (sorted l).
Proof.
  unfold sorted. induction l as [| x l IH]; cbn [fold_right].
  - constructor.
  - now apply insert_sorted_sorted.
Qed.

Lemma strictly_sorted (l : list string) :
  Sorted.StronglySorted le_str l -> NoDup l ->
  Sorted.StronglySorted String_as_OT.lt l.
Proof.
  induction 1 as [| h l Hl IH Hh]; intros Hnd; [constructor |].
  inversion Hnd as [| ? ? Hnot Hnd']; subst.
  constructor; [now apply IH |].
  apply Forall_forall. intros y Hy.
  pose proof (proj1 (Forall_forall _ _) Hh y Hy) as Hle.
  apply str_leb_iff in Hle. destruct Hle as [-> | Hlt]; [contradiction | exact Hlt].
Qed.

(** X16.  The records of [aggregate_by_timestamp] come in strictly
    ascending order of their timestamps, and every timestamp ends in "Z". *)
Theorem aggregated_records_are_sorted :
  forall (V : Type) (zero : V) (add : V -> V -> V) (records : list (record V)),
    Sorted.StronglySorted String_as_OT.lt
      (map agg_timestamp (aggregate_by_timestamp zero add records))
    /\ Forall (fun ts => endswith_Z ts = true)
              (map agg_timestamp (aggregate_by_timestamp zero add records)).
Proof.
  intros V zero add records. rewrite aggregate_timestamps. split.
  - apply strictly_sorted; [apply sorted_is_sorted |].
    apply sorted_nodup, keys_fold_nodup. constructor.
  - apply Forall_forall. intros ts Hts.
    rewrite sorted_in, keys_fold_in in Hts. cbn [keys map In] in Hts.
    destruct Hts as [[] | Hts]. apply in_map_iff in Hts.
    destruct Hts as (r & <- & _). apply normalize_ends_with_Z.
Qed.

Section Transformer.
Context (py_float : pyval -> option float).

Lemma datapoint_well_formed (measurement unit ts : string) (x : float)
    (timeseries_id : pyval) :
  truthy timeseries_id = true -> endswith_Z ts = true ->
  well_formed [("measurement", PyStr measurement); ("unit", PyStr unit);
               ("value", PyFloat x); ("timestamp", PyStr ts);
               ("timeseries_id", timeseries_id)].
Proof.
  intros Hid Hts. split; [| exists ts; split; [reflexivity | exact Hts]].
  unfold Cde.complete, Cde.cells.
  match goal with |- context [Cde.timeseries_id ?dp] =>
    assert (E : Cde.timeseries_id dp = timeseries_id) end.
  { unfold Cde.timeseries_id.
    change (get "timeseries" _) with PyNone.
    change (get "timeseries_id" _) with timeseries_id.
    change (get "timeseriesId" _) with PyNone.
    unfold py_or at 2. cbn [truthy]. unfold py_or. now rewrite Hid. }
  rewrite E.
  change (get "measurement" _) with (PyStr measurement).
  change (get "timestamp" _) with (PyStr ts).
  change (get "value" _) with (PyFloat x).
  change (get "unit" _) with (PyStr unit).
  destruct timeseries_id; [discriminate Hid | reflexivity ..].
Qed.

Lemma record_datapoints_well_formed (record : dict string pyval) (ts : string)
    (mapping : dict string pyval)
    (fields : list (string * (string * string * string)))
    (acc out : list Cde.datapoint) :
  endswith_Z ts = true -> Forall well_formed acc ->
  record_datapoints py_float record ts mapping fields acc = Datapoints out ->
  Forall well_formed out.
Proof.
  intros Hts. revert acc.
  induction fields as [| [name [[field m] u]] fields IH]; intros acc Hacc Hrun;
    cbn [record_datapoints] in Hrun.
  - now injection Hrun as <-.
  - destruct (is_none (get name record)); [exact (IH acc Hacc Hrun) |].
    destruct (truthy (get field mapping)) eqn:Hid; cbn [negb] in Hrun;
      [| exact (IH acc Hacc Hrun)].
    destruct (py_float (get name record)) as [x |]; [| discriminate].
    refine (IH _ _ Hrun). apply Forall_app. split; [exact Hacc |].
    constructor; [| constructor].
    exact (datapoint_well_formed m u ts x _ Hid Hts).
Qed.

Lemma transform_loop_well_formed (data : list (dict string pyval))
    (mapping : dict string pyval) (acc out : list Cde.datapoint) (k : Z) :
  Forall well_formed acc ->
  transform_loop py_float data mapping acc k = Datapoints out ->
  Forall well_formed out.
Proof.
  revert acc k. induction data as [| record data IH]; intros acc k Hacc Hrun;
    cbn [transform_loop] in Hrun.
  - now injection Hrun as <-.
  - destruct (truthy (get "timestamp" record)); cbn [negb] in Hrun;
      [| exact (IH _ _ Hacc Hrun)].
    destruct (get "timestamp" record) as [| n | x | text]; try discriminate.
    destruct (record_datapoints py_float record (normalize_timestamp text)
                                mapping FIELD_MAPPINGS acc) as [acc' |] eqn:E;
      [| discriminate].
    apply (IH acc' k); [| exact Hrun].
    exact (record_datapoints_well_formed _ _ _ _ _ _
             (normalize_ends_with_Z text) Hacc E).
Qed.

End Transformer.

(** X17.  Every datapoint [transform_to_datapoints] returns has its five
    values (so the uploader never counts it as missing a field), and its
    timestamp is a text that ends in "Z". *)
Theorem transformed_datapoints_are_complete :
  forall (py_float : pyval -> option float)
         (aggregated_data : list (dict string pyval))
         (timeseries_mapping : dict string pyval)
         (datapoints : list Cde.datapoint),
    transform_to_datapoints py_float aggregated_data timeseries_mapping
    = Datapoints datapoints ->
    Forall (fun dp =>
              Cde.complete dp = true
              /\ exists ts, get "timestamp" dp = PyStr ts
                            /\ endswith_Z ts = true) datapoints.
Proof.
  intros py_float data mapping dps Hrun.
  exact (transform_loop_well_formed py_float data mapping [] dps 0
           (Forall_nil _) Hrun).
Qed.

Lemma transformed_datapoints_are_complete_witness :
  let mapping := [("consumedEnergy", PyStr "ts-C")] in
  let data := map as_dict (aggregate_floats Fixture.bankya_records) in
  exists dps,
    transform_to_datapoints float_of data mapping = Datapoints dps
    /\ Forall (fun dp =>
                 Cde.complete dp = true
                 /\ exists ts, get "timestamp" dp = PyStr ts
                               /\ endswith_Z ts = true) dps.
Proof.
  cbv zeta. eexists. split; [vm_compute; reflexivity |].
  apply (transformed_datapoints_are_complete float_of
           (map as_dict (aggregate_floats Fixture.bankya_records))
           [("consumedEnergy", PyStr "ts-C")]).
  vm_compute. reflexivity.
Defined.

Lemma aggregate_timestamps_end_in_Z (records : list (record float)) :
  Forall (fun a => endswith_Z (agg_timestamp a) = true)
         (aggregate_floats records).
Proof.
  apply Forall_forall. intros a Ha.
  assert (Hts : In (agg_timestamp a)
                   (map agg_timestamp (aggregate_floats records)))
    by (apply in_map, Ha).
  unfold aggregate_floats in Hts. rewrite aggregate_timestamps in Hts.
  rewrite sorted_in, keys_fold_in in Hts. cbn [keys map In] in Hts.
  destruct Hts as [[] | Hts]. apply in_map_iff in Hts.
  destruct Hts as (r & <- & _). apply normalize_ends_with_Z.
Qed.

Lemma transform_loop_aggregated (py_float : pyval -> option float)
    (mapping : dict string pyval) (ags : list (aggregated_record float)) :
  (forall x, py_float (PyFloat x) = Some x) ->
  truthy (get "consumedEnergy" mapping) = true ->
  truthy (get "generatedEnergy" mapping) = true ->
  Forall (fun a => endswith_Z (agg_timestamp a) = true) ags ->
  forall (acc : list Cde.datapoint) (k : Z),
    transform_loop py_float (map as_dict ags) mapping acc k
    = Datapoints
        (acc ++ flat_map (fun a =>
                   [datapoint_of "consumedEnergy" (agg_timestamp a)
                                 (agg_consumedEnergy a)
                                 (get "consumedEnergy" mapping);
                    datapoint_of "generatedEnergy" (agg_timestamp a)
                                 (agg_generatedEnergy a)
                                 (get "generatedEnergy" mapping)]) ags).
Proof.
  intros Hfloat Hc Hg. induction 1 as [| a ags Ha _ IH]; intros acc k.
  - cbn. now rewrite app_nil_r.
  - cbn [map transform_loop flat_map].
    change (get "timestamp" (as_dict a)) with (PyStr (agg_timestamp a)).
    assert (Hne : truthy (PyStr (agg_timestamp a)) = true).
    { cbn [truthy]. apply negb_true_iff, String.eqb_neq.
      now apply endswith_Z_nonempty. }
    rewrite Hne. cbn [negb]. rewrite (normalize_fixed _ Ha).
    cbn [record_datapoints FIELD_MAPPINGS].
    change (get "consumedEnergy" (as_dict a)) with (PyFloat (agg_consumedEnergy a)).
    change (get "generatedEnergy" (as_dict a)) with (PyFloat (agg_generatedEnergy a)).
    cbn [is_none]. rewrite Hc, Hg, !Hfloat. cbn [negb].
    rewrite IH. unfold datapoint_of. now rewrite <- !app_assoc.
Qed.

(** X18.  On the records of [aggregate_by_timestamp], with a mapping that
    holds an id for both fields, the transformer returns, for each record
    in order, its consumedEnergy datapoint and then its generatedEnergy
    datapoint, with the timestamp of the record unchanged: two datapoints
    for every timestamp. *)
Theorem transform_of_aggregated_records :
  forall (py_float : pyval -> option float) (records : list (record float))
         (timeseries_mapping : dict string pyval),
    (forall x, py_float (PyFloat x) = Some x) ->
    truthy (get "consumedEnergy" timeseries_mapping) = true ->
    truthy (get "generatedEnergy" timeseries_mapping) = true ->
    transform_to_datapoints py_float
      (map as_dict (aggregate_floats records)) timeseries_mapping
    = Datapoints
        (flat_map (fun a =>
                     [datapoint_of "consumedEnergy" (agg_timestamp a)
                                   (agg_consumedEnergy a)
                                   (get "consumedEnergy" timeseries_mapping);
                      datapoint_of "generatedEnergy" (agg_timestamp a)
                                   (agg_generatedEnergy a)
                                   (get "generatedEnergy" timeseries_mapping)])
                  (aggregate_floats records)).
Proof.
  intros py_float records mapping Hfloat Hc Hg.
  unfold transform_to_datapoints.
  now rewrite (transform_loop_aggregated py_float mapping _ Hfloat Hc Hg
                 (aggregate_timestamps_end_in_Z records)).
Qed.

Lemma transform_of_aggregated_records_witness :
  let mapping := [("consumedEnergy", PyStr "ts-C");
                  ("generatedEnergy", PyStr "ts-G")] in
  ((forall x, float_of (PyFloat x) = Some x)
   /\ truthy (get "consumedEnergy" mapping) = true
   /\ truthy (get "generatedEnergy" mapping) = true)
  /\ transform_to_datapoints float_of
       (map as_dict (aggregate_floats Fixture.bankya_records)) mapping
     = Datapoints
         [datapoint_of "consumedEnergy" "2025-05-01T00:00:00Z" 15
                       (PyStr "ts-C");
          datapoint_of "generatedEnergy" "2025-05-01T00:00:00Z" 2
                       (PyStr "ts-G")].
Proof.
  cbv zeta. split; [repeat split |].
  rewrite (transform_of_aggregated_records float_of Fixture.bankya_records
             [("consumedEnergy", PyStr "ts-C"); ("generatedEnergy", PyStr "ts-G")]
             (fun x => eq_refl) eq_refl eq_refl).
  vm_compute. reflexivity.
Defined.

Section Loading.
Context {V : Type}.
Context (parse_datetime : string -> option datetime).
Context (parse_value : string -> option V).

Lemma load_row_keep (start_date end_date : option date) (row : csv_row)
    (r : record V) :
  load_row parse_datetime parse_value start_date end_date row = Keep r ->
  in_range parse_datetime start_date end_date r.
Proof.
  unfold load_row, in_range.
  destruct (lookup String.eqb "timestamp" row) as [[text |] |]; try discriminate.
  destruct (parse_datetime (remove_Z text)) as [t |] eqn:Ht; [| discriminate].
  cbv zeta.
  destruct (match start_date with Some d => date_of t <? d | None => false end)
    eqn:Es; [discriminate |].
  destruct (match end_date with Some d => date_of t >=? d | None => false end)
    eqn:Ee; [discriminate |].
  destruct (lookup String.eqb "value" row) as [[cell |] |]; try discriminate.
  destruct (parse_value cell) as [v |]; [| discriminate].
  destruct (lookup String.eqb "BUS_name" row) as [bus |]; [| discriminate].
  destruct (lookup String.eqb "measurement" row) as [m |]; [| discriminate].
  destruct (lookup String.eqb "unit" row) as [u |]; [| discriminate].
  intros [= <-]. cbn [timestamp]. exists t. split; [exact Ht |]. split.
  - intros d ->. apply Z.ltb_ge in Es. exact Es.
  - intros d ->. destruct (Z.geb_spec (date_of t) d); [discriminate | lia].
Qed.

Lemma load_rows_in_range (start_date end_date : option date)
    (rows : list csv_row) (acc out : list (record V)) (k k' : Z) :
  Forall (in_range parse_datetime start_date end_date) acc ->
  load_rows parse_datetime parse_value start_date end_date rows acc k
  = Returned (out, k') ->
  Forall (in_range parse_datetime start_date end_date) out
  /\ (List.length out <= List.length acc + List.length rows)%nat.
Proof.
  revert acc k. induction rows as [| row rows IH]; intros acc k Hacc Hrun;
    cbn [load_rows] in Hrun.
  - injection Hrun as <- _. split; [exact Hacc | lia].
  - destruct (load_row parse_datetime parse_value start_date end_date row)
      as [r | | e] eqn:E; [| | discriminate].
    + destruct (IH _ _ (proj2 (Forall_app _ _ _)
                          (conj Hacc (Forall_cons _ (load_row_keep _ _ _ _ E)
                                                  (Forall_nil _)))) Hrun)
        as [Hout Hlen].
      split; [exact Hout |]. rewrite length_app in Hlen. cbn [List.length] in *. lia.
    + destruct (IH _ _ Hacc Hrun) as [Hout Hlen].
      split; [exact Hout |]. cbn [List.length]. lia.
Qed.

Lemma load_row_from_row (start_date end_date : option date) (row : csv_row)
    (r : record V) :
  load_row parse_datetime parse_value start_date end_date row = Keep r ->
  from_row parse_value row r.
Proof.
  unfold load_row, from_row.
  destruct (lookup String.eqb "timestamp" row) as [[text |] |]; try discriminate.
  destruct (parse_datetime (remove_Z text)) as [t |]; [| discriminate].
  cbv zeta.
  destruct (match start_date with Some d => date_of t <? d | None => false end);
    [discriminate |].
  destruct (match end_date with Some d => date_of t >=? d | None => false end);
    [discriminate |].
  destruct (lookup String.eqb "value" row) as [[cell |] |]; try discriminate.
  destruct (parse_value cell) as [v |] eqn:Hv; [| discriminate].
  destruct (lookup String.eqb "BUS_name" row) as [bus |]; [| discriminate].
  destruct (lookup String.eqb "measurement" row) as [m |]; [| discriminate].
  destruct (lookup String.eqb "unit" row) as [u |]; [| discriminate].
  intros [= <-]. cbn [timestamp BUS_name measurement unit value].
  repeat split. exists cell. now split.
Qed.

Lemma load_rows_from_rows (start_date end_date : option date)
    (rows : list csv_row) (acc out : list (record V)) (k k' : Z) :
  load_rows parse_datetime parse_value start_date end_date rows acc k
  = Returned (out, k') ->
  exists news,
    out = acc ++ news
    /\ Forall2 (from_row parse_value)
               (filter (is_kept parse_datetime parse_value start_date end_date)
                       rows) news.
Proof.
  revert acc k. induction rows as [| row rows IH]; intros acc k Hrun;
    cbn [load_rows filter] in *.
  - injection Hrun as <- _. exists []. split; [now rewrite app_nil_r | constructor].
  - unfold is_kept at 1.
    destruct (load_row parse_datetime parse_value start_date end_date row)
      as [r | | e] eqn:E; [| | discriminate].
    + destruct (IH _ _ Hrun) as (news & -> & Hnews).
      exists (r :: news). split; [now rewrite <- app_assoc |].
      constructor; [exact (load_row_from_row _ _ _ _ E) | exact Hnews].
    + exact (IH _ _ Hrun).
Qed.

End Loading.

(** X26.  The records [load_csv] returns are made, in file order, of a
    selection of the rows: each holds the timestamp, bus, measurement and
    unit texts of its row and the value read from its value text.  The day
    of that timestamp is on or after the start date and before the end
    date, where these are given; there are no more records than rows, and
    none when the two dates are the same day. *)
Theorem loaded_records_lie_in_the_date_range :
  forall (V : Type) (parse_datetime : string -> option datetime)
         (parse_value : string -> option V)
         (start_date end_date : option date)
         (rows : list csv_row) (records : list (record V)),
    load_csv parse_datetime parse_value (Some rows) start_date end_date
    = Returned records ->
    (exists keep : csv_row -> bool,
        Forall2 (from_row parse_value) (filter keep rows) records)
    /\ Forall (fun r =>
                 exists t,
                   parse_datetime (remove_Z (timestamp r)) = Some t
                   /\ (forall d, start_date = Some d -> d <= date_of t)
                   /\ (forall d, end_date = Some d -> date_of t < d)) records
    /\ (List.length records <= List.length rows)%nat
    /\ (forall d, start_date = Some d -> end_date = Some d -> records = []).
Proof.
  intros V parse_datetime parse_value start_date end_date rows records Hrun.
  unfold load_csv, records_only in Hrun.
  destruct (load_rows parse_datetime parse_value start_date end_date rows [] 0)
    as [[out k'] | e] eqn:E; [| discriminate].
  injection Hrun as ->.
  destruct (load_rows_in_range parse_datetime parse_value _ _ _ _ _ _ _
              (Forall_nil _) E) as [Hout Hlen].
  destruct (load_rows_from_rows parse_datetime parse_value _ _ _ _ _ _ _ E)
    as (news & Hnews & Hfrom). cbn [app] in Hnews. subst news.
  split; [now exists (is_kept parse_datetime parse_value start_date end_date) |].
  split; [exact Hout |]. split; [exact Hlen |].
  intros d -> ->. destruct records as [| r records]; [reflexivity |].
  inversion Hout as [| ? ? (t & _ & Hs & He) _]; subst.
  specialize (Hs d eq_refl). specialize (He d eq_refl). lia.
Qed.

Lemma loaded_records_lie_in_the_date_range_witness :
  let rows :=
    [Fixture.csv_line "Bus1" "2025-05-01T00:00:00Z" "consumedEnergy" "10";
     Fixture.csv_line "Bus2" "yesterday" "consumedEnergy" "5";
     Fixture.csv_line "Bus1" "2025-06-01T00:00:00" "generatedEnergy" "2";
     Fixture.csv_line "Bus1" "2025-05-01T00:00:00" "generatedEnergy" "2"] in
  let start_date := Some (ymd 2025 5 1) in
  let end_date := Some (ymd 2025 6 1) in
  exists records,
    load_csv Fixture.read_datetime Fixture.read_value (Some rows)
             start_date end_date = Returned records
    /\ map timestamp records
       = ["2025-05-01T00:00:00Z"; "2025-05-01T00:00:00"]
    /\ (exists keep : csv_row -> bool,
          Forall2 (from_row Fixture.read_value) (filter keep rows) records)
    /\ Forall (fun r =>
                 exists t,
                   Fixture.read_datetime (remove_Z (timestamp r)) = Some t
                   /\ (forall d, start_date = Some d -> d <= date_of t)
                   /\ (forall d, end_date = Some d -> date_of t < d)) records.
Proof.
  intros rows start_date end_date. eexists.
  split; [vm_compute; reflexivity |]. split; [reflexivity |].
  pose proof (loaded_records_lie_in_the_date_range float
                Fixture.read_datetime Fixture.read_value
                start_date end_date rows _ eq_refl) as (Hfrom & Hrange & _).
  split; [exact Hfrom | exact Hrange].
Defined.

End EdgMore.

(** * The mappings: the last descriptor that binds a name wins *)

Module MappingFacts.
Import Py Descriptor EdgTransform PyFacts MainFacts.

Section LastWriter.
Context {T : Type} (binds : T -> option string) (value : T -> pyval).

Lemma lookup_fold_last (l : list T) (d : dict string pyval) (name : string) :
  lookup String.eqb name
    (fold_left (fun m x => match binds x with
                           | Some n => set String.eqb n (value x) m
                           | None => m
                           end) l d)
  = match find (fun x => match binds x with
                         | Some n => String.eqb n name
                         | None => false
                         end) (rev l) with
    | Some x => Some (value x)
    | None => lookup String.eqb name d
    end.
Proof.
  induction l as [| x l IH] using rev_ind; [reflexivity |].
  rewrite fold_left_app, rev_app_distr. cbn [fold_left rev app find].
  destruct (binds x) as [n |]; [| exact IH].
  destruct (String.eqb_spec n name) as [-> | Hne].
  - apply lookup_set_same.
  - rewrite lookup_set_other by congruence. exact IH.
Qed.

End LastWriter.

Lemma fold_left_pointwise {A B : Type} (f g : A -> B -> A) (l : list B) (a : A) :
  (forall a b, f a b = g a b) -> fold_left f l a = fold_left g l a.
Proof.
  intros H. revert a. induction l as [| b l IH]; intros a; [reflexivity |].
  cbn [fold_left]. now rewrite H, IH.
Qed.

Lemma grid_mapping_lookup (l : list timeseries) (name : string) :
  lookup String.eqb name (fst (Edg.create_timeseries_mapping l))
  = last_binding grid_binds name l.
Proof.
  unfold Edg.create_timeseries_mapping, last_binding. cbn [fst].
  rewrite (fold_left_pointwise Edg.mapping_step
             (fun m x => match grid_binds x with
                         | Some n => set String.eqb n (id x) m
                         | None => m
                         end)).
  - rewrite lookup_fold_last. now destruct (find _ (rev l)).
  - intros m ts. unfold Edg.mapping_step, grid_binds.
    now destruct (truthy (field_id ts) && truthy (id ts)).
Qed.

Lemma mem_lookup (name : string) (d : dict string pyval) :
  mem String.eqb name d = false <-> lookup String.eqb name d = None.
Proof. unfold mem. destruct (lookup String.eqb name d); split; congruence. Qed.

(** X19.  In the mapping of the grid dataset a field name holds the id of
    the last descriptor, among those with a field ID and an id, whose field
    ID is that of the name; a name is reported missing exactly when it is
    expected and no such descriptor exists. *)
Theorem grid_mapping_keeps_the_last_binding :
  forall (l : list timeseries) (name : string),
    lookup String.eqb name (fst (Edg.create_timeseries_mapping l))
    = last_binding grid_binds name l
    /\ (In name (snd (Edg.create_timeseries_mapping l))
        <-> In name ["consumedEnergy"; "generatedEnergy"]
            /\ last_binding grid_binds name l = None).
Proof.
  intros l name. split; [apply grid_mapping_lookup |].
  rewrite <- grid_mapping_lookup.
  unfold Edg.create_timeseries_mapping. cbn [fst snd].
  rewrite missing_from_in, mem_lookup. reflexivity.
Qed.

Lemma generation_fold_binds (l : list timeseries) (d : dict string pyval) :
  fold_left Main.spec_step (filter Main.usable l) d
  = fold_left (fun m x => match generation_binds x with
                          | Some n => set String.eqb n (id x) m
                          | None => m
                          end) l d.
Proof.
  revert d. induction l as [| ts l IH]; intros d; [reflexivity |].
  cbn [filter fold_left]. unfold generation_binds at 2.
  destruct (Main.usable ts); [| apply IH].
  cbn [fold_left]. rewrite IH. reflexivity.
Qed.

(** X20.  In the mapping of the generation dataset a name holds the id of
    the last usable descriptor that binds it, by field ID or else by field
    name: a later descriptor overwrites an earlier one. *)
Theorem generation_mapping_keeps_the_last_binding :
  forall (l : list timeseries) (name : string),
    lookup String.eqb name (fst (Main.generation_mapping l))
    = last_binding generation_binds name l.
Proof.
  intros l name.
  destruct (generation_mapping_shape l) as (more & -> & _).
  cbn [fst]. unfold Main.spec_resolve, last_binding.
  rewrite generation_fold_binds, lookup_fold_last.
  now destruct (find _ (rev l)).
Qed.

(** The two implementations of the MRAE mapping. *)
Lemma mrae_main_fold (l : list timeseries) (d : dict string pyval)
    (warnings : list Mrae.warning) :
  fst (fold_left Mrae.main_step l (d, warnings))
  = fold_left Mrae.mapping_step l d.
Proof.
  revert d warnings. induction l as [| ts l IH]; intros d warnings;
    [reflexivity |].
  cbn [fold_left]. unfold Mrae.main_step at 2, Mrae.mapping_step at 2.
  destruct (truthy (field_id ts)), (truthy (id ts)); cbn [negb orb andb];
    try apply IH.
  destruct (Mrae.field_map (field_id ts)); apply IH.
Qed.

(** X21.  The loop of main.py for the MRAE dataset and
    [MRAEDataTransformer.create_timeseries_mapping] build the same mapping
    from the same descriptors, and main.py warns of missing names exactly
    when the transformer's version reports some. *)
Theorem mrae_mappings_agree :
  forall l : list timeseries,
    fst (Mrae.main_mapping l) = fst (Mrae.create_timeseries_mapping l)
    /\ (forall names,
          In (Mrae.MissingMappings names) (snd (Mrae.main_mapping l))
          <-> names = snd (Mrae.create_timeseries_mapping l) /\ names <> []).
Proof.
  intros l. unfold Mrae.main_mapping, Mrae.create_timeseries_mapping.
  pose proof (mrae_main_fold l [] []) as Hfst.
  assert (Hw : forall names,
             ~ In (Mrae.MissingMappings names)
                  (snd (fold_left Mrae.main_step l ([], [])))).
  { assert (G : forall l d ws names,
               ~ In (Mrae.MissingMappings names) ws ->
               ~ In (Mrae.MissingMappings names)
                    (snd (fold_left Mrae.main_step l (d, ws)))).
    { clear. induction l as [| ts l IH]; intros d ws names Hws; [exact Hws |].
      cbn [fold_left]. unfold Mrae.main_step at 2.
      destruct (negb (truthy (field_id ts)) || negb (truthy (id ts))).
      - apply IH. rewrite in_app_iff. intros [H | [H | []]];
          [contradiction | discriminate].
      - destruct (Mrae.field_map (field_id ts)); apply IH; [exact Hws |].
        rewrite in_app_iff. intros [H | [H | []]];
          [contradiction | discriminate]. }
    intros names. apply G. intros []. }
  destruct (fold_left Mrae.main_step l _) as [m ws] eqn:E.
  change (fold_left Mrae.main_step l ([], [])) with (m, ws) in Hfst, Hw.
  cbn [fst snd] in *. subst m. clear E. split; [reflexivity |].
  intros names. specialize (Hw names).
  destruct (missing_from Mrae.expected_fields
              (fold_left Mrae.mapping_step l [])) as [| n ns] eqn:E.
  - split; [contradiction | intros [H1 H2]; contradiction].
  - rewrite in_app_iff. cbn [In]. split.
    + intros [H | [H | []]]; [contradiction |]. injection H as <-.
      split; [reflexivity | discriminate].
    + intros [-> _]. right. now left.
Qed.

End MappingFacts.

(** * The MRAE transformer *)

Module MraeFacts.
Import Py Descriptor Mrae PyFacts.

Lemma ends_with_app (suffix s : string) : ends_with suffix (s ++ suffix) = true.
Proof.
  induction s as [| c s IH]; cbn [String.append ends_with].
  - destruct suffix; cbn [ends_with]; now rewrite String.eqb_refl.
  - rewrite IH. apply orb_true_r.
Qed.

Lemma ends_with_app_longer (suffix prefix s : string) :
  ends_with suffix (s ++ prefix ++ suffix) = true.
Proof.
  rewrite <- (ends_with_app suffix (s ++ prefix)). f_equal.
  induction s as [| c s IH]; cbn [String.append]; [reflexivity | now rewrite IH].
Qed.

Lemma period_timestamp_suffix (period : string) :
  ends_with "Z" (period_timestamp period) = true
  \/ ends_with "+00:00" (period_timestamp period) = true.
Proof.
  unfold period_timestamp.
  destruct (ends_with "Z" period) eqn:Ez; cbn [negb andb]; [now left |].
  destruct (Edg.contains_T period); cbn [negb].
  - destruct (ends_with "+00:00" period) eqn:Ep; cbn [negb];
      [now right | left; apply ends_with_app].
  - left. exact (ends_with_app_longer "Z" "T00:00:00" period).
Qed.

Section Transformer.
Context (py_float : pyval -> option float).

Lemma mrae_datapoint_well_formed (measurement unit ts : string) (x : float)
    (timeseries_id : pyval) :
  truthy timeseries_id = true ->
  ends_with "Z" ts = true \/ ends_with "+00:00" ts = true ->
  well_formed [("measurement", PyStr measurement); ("unit", PyStr unit);
               ("value", PyFloat x); ("timestamp", PyStr ts);
               ("timeseries_id", timeseries_id)].
Proof.
  intros Hid Hts. split; [| exists ts; split; [reflexivity | exact Hts]].
  unfold Cde.complete, Cde.cells.
  match goal with |- context [Cde.timeseries_id ?dp] =>
    assert (E : Cde.timeseries_id dp = timeseries_id) end.
  { unfold Cde.timeseries_id.
    change (get "timeseries" _) with PyNone.
    change (get "timeseries_id" _) with timeseries_id.
    change (get "timeseriesId" _) with PyNone.
    unfold py_or at 2. cbn [truthy]. unfold py_or. now rewrite Hid. }
  rewrite E.
  change (get "measurement" _) with (PyStr measurement).
  change (get "timestamp" _) with (PyStr ts).
  change (get "value" _) with (PyFloat x).
  change (get "unit" _) with (PyStr unit).
  destruct timeseries_id; [discriminate Hid | reflexivity ..].
Qed.

Lemma mrae_record_datapoints_well_formed (record : dict string pyval)
    (ts : string) (mapping : dict string pyval)
    (fields : list (string * (string * string * string)))
    (acc out : list Cde.datapoint) :
  ends_with "Z" ts = true \/ ends_with "+00:00" ts = true ->
  Forall well_formed acc ->
  record_datapoints py_float record ts mapping fields acc = Datapoints out ->
  Forall well_formed out.
Proof.
  intros Hts. revert acc.
  induction fields as [| [name [[field m] u]] fields IH]; intros acc Hacc Hrun;
    cbn [record_datapoints] in Hrun.
  - now injection Hrun as <-.
  - destruct (is_none (get name record)); [exact (IH acc Hacc Hrun) |].
    destruct (truthy (get field mapping)) eqn:Hid; cbn [negb] in Hrun;
      [| exact (IH acc Hacc Hrun)].
    destruct (py_float (get name record)) as [x |]; [| discriminate].
    refine (IH _ _ Hrun). apply Forall_app. split; [exact Hacc |].
    constructor; [| constructor].
    exact (mrae_datapoint_well_formed m u ts x _ Hid Hts).
Qed.

Lemma mrae_transform_loop_well_formed (data : list (dict string pyval))
    (mapping : dict string pyval) (acc out : list Cde.datapoint) (k : Z) :
  Forall well_formed acc ->
  transform_loop py_float data mapping acc k = Datapoints out ->
  Forall well_formed out.
Proof.
  revert acc k. induction data as [| record data IH]; intros acc k Hacc Hrun;
    cbn [transform_loop] in Hrun.
  - now injection Hrun as <-.
  - destruct (truthy (get "period" record)); cbn [negb] in Hrun;
      [| exact (IH _ _ Hacc Hrun)].
    destruct (get "period" record) as [| n | x | text];
      try exact (IH _ _ Hacc Hrun).
    destruct (record_datapoints py_float record (period_timestamp text)
                                mapping FIELD_MAPPINGS acc) as [acc' |] eqn:E;
      [| discriminate].
    apply (IH acc' k); [| exact Hrun].
    exact (mrae_record_datapoints_well_formed _ _ _ _ _ _
             (period_timestamp_suffix text) Hacc E).
Qed.

Lemma transform_loop_unmapped (data : list (dict string pyval))
    (mapping : dict string pyval) (acc : list Cde.datapoint) (k : Z) :
  truthy (get "consumedEnergy" mapping) = false ->
  transform_loop py_float data mapping acc k = Datapoints acc.
Proof.
  intros Hid. revert acc k.
  induction data as [| record data IH]; intros acc k; [reflexivity |].
  cbn [transform_loop].
  destruct (truthy (get "period" record)); cbn [negb]; [| apply IH].
  destruct (get "period" record) as [| n | x | text]; try apply IH.
  cbn [record_datapoints FIELD_MAPPINGS].
  destruct (is_none (get "total_kwh" record)); [apply IH |].
  rewrite Hid. cbn [negb]. apply IH.
Qed.

End Transformer.

(** X22.  Every datapoint the MRAE transformer returns has its five values,
    and its timestamp ends in "Z" or in "+00:00". *)
Theorem mrae_datapoints_are_complete :
  forall (py_float : pyval -> option float)
         (mrae_data : list (dict string pyval))
         (timeseries_mapping : dict string pyval)
         (datapoints : list Cde.datapoint),
    transform_to_datapoints py_float mrae_data timeseries_mapping
    = Datapoints datapoints ->
    Forall (fun dp =>
              Cde.complete dp = true
              /\ exists ts, get "timestamp" dp = PyStr ts
                            /\ (ends_with "Z" ts = true
                                \/ ends_with "+00:00" ts = true)) datapoints.
Proof.
  intros py_float data mapping dps Hrun.
  exact (mrae_transform_loop_well_formed py_float data mapping [] dps 0
           (Forall_nil _) Hrun).
Qed.

Lemma mrae_datapoints_are_complete_witness :
  let data := [[("period", PyStr "2025-05-01"); ("total_kwh", PyFloat 12.5)];
               [("period", PyInt 202506); ("total_kwh", PyFloat 1)];
               [("period", PyStr "2025-07-01T00:00:00+00:00");
                ("total_kwh", PyFloat 3)]] in
  let mapping := [("consumedEnergy", PyStr "ts-C")] in
  exists dps,
    transform_to_datapoints EdgTransform.float_of data mapping = Datapoints dps
    /\ List.length dps = 2%nat
    /\ Forall (fun dp =>
                 Cde.complete dp = true
                 /\ exists ts, get "timestamp" dp = PyStr ts
                               /\ (ends_with "Z" ts = true
                                   \/ ends_with "+00:00" ts = true)) dps.
Proof.
  intros data mapping. eexists. split; [vm_compute; reflexivity |].
  split; [reflexivity |].
  apply (mrae_datapoints_are_complete EdgTransform.float_of data mapping).
  vm_compute. reflexivity.
Defined.

(** X23.  Without an id for consumedEnergy in the mapping the MRAE
    transformer returns no datapoint, whatever the records hold: it does
    not reach [float] and so cannot raise. *)
Theorem mrae_transform_without_id_is_empty :
  forall (py_float : pyval -> option float)
         (mrae_data : list (dict string pyval))
         (timeseries_mapping : dict string pyval),
    truthy (get "consumedEnergy" timeseries_mapping) = false ->
    transform_to_datapoints py_float mrae_data timeseries_mapping
    = Datapoints [].
Proof.
  intros py_float data mapping Hid.
  exact (transform_loop_unmapped py_float data mapping [] 0 Hid).
Qed.

Lemma mrae_transform_without_id_is_empty_witness :
  truthy (get "consumedEnergy" [("generatedEnergy", PyStr "ts-G")]) = false
  /\ transform_to_datapoints (fun _ => None)
       [[("period", PyStr "2025-05-01"); ("total_kwh", PyStr "n/a")]]
       [("generatedEnergy", PyStr "ts-G")]
     = Datapoints [].
Proof.
  split; [reflexivity |].
  exact (mrae_transform_without_id_is_empty (fun _ => None)
           [[("period", PyStr "2025-05-01"); ("total_kwh", PyStr "n/a")]]
           [("generatedEnergy", PyStr "ts-G")] eq_refl).
Defined.

End MraeFacts.

(** * The date range and the limit typed at the console *)

Module ConsoleFacts.
Import Py Datetime Console.

Section Input.
Context {World : Type} (input : World -> typed * World).
Context (strip lower : string -> string).
Context (strptime : string -> option date).
Context (py_int : string -> option Z).

Lemma ordered_le (a b : date) : fst (ordered a b) <= snd (ordered a b).
Proof. unfold ordered. destruct (Z.gtb_spec a b); cbn [fst snd]; lia. Qed.

Lemma defaults_le : default_start_date <= default_end_date.
Proof. vm_compute. discriminate. Qed.

Lemma ask_date_range_le (w : World) :
  fst (fst (ask_date_range input strip strptime w))
  <= snd (fst (ask_date_range input strip strptime w)).
Proof.
  unfold ask_date_range.
  destruct (input w) as [[l1 | |] w1]; cbn [fst snd]; try apply defaults_le.
  destruct (input w1) as [[l2 | |] w2]; cbn [fst snd]; try apply defaults_le.
  apply ordered_le.
Qed.

End Input.

(** X24.  [get_date_range_input] always returns a start date that is not
    after the end date, whatever is passed or typed; and when it runs
    non-interactively with two readable dates it returns them in order
    without reading the console. *)
Theorem date_range_input_is_ordered :
  forall (World : Type) (input : World -> typed * World)
         (strip : string -> string) (strptime : string -> option date)
         (start_date_str end_date_str : option string)
         (non_interactive env : bool) (w : World),
    let r := get_date_range_input input strip strptime start_date_str
                                  end_date_str non_interactive env w in
    fst (fst r) <= snd (fst r)
    /\ (forall s e a b,
          non_interactive || env = true ->
          start_date_str = Some s -> end_date_str = Some e ->
          s <> "" -> e <> "" ->
          strptime s = Some a -> strptime e = Some b ->
          r = ((Z.min a b, Z.max a b), w)).
Proof.
  intros World input strip strptime ss es ni env w r. subst r. split.
  - unfold get_date_range_input.
    destruct ((ni || env) && given ss && given es);
      [| apply ask_date_range_le].
    destruct ss as [s |], es as [e |]; try apply ask_date_range_le.
    destruct (strptime s) as [a |], (strptime e) as [b |];
      try apply ask_date_range_le.
    apply ordered_le.
  - intros s e a b Hni -> -> Hs He Ha Hb.
    unfold get_date_range_input, given. rewrite Hni, Ha, Hb.
    apply String.eqb_neq in Hs, He. rewrite Hs, He. cbn [negb andb].
    unfold ordered. destruct (Z.gtb_spec a b); do 2 f_equal; lia.
Qed.

(** X25.  Without a custom limit [get_limit_input] returns the default or a
    positive number, and a number above 1000 only after a second line that
    reads "y" or "yes"; a custom limit is returned as it is, without
    reading the console. *)
Theorem limit_input_is_default_or_positive :
  forall (World : Type) (input : World -> typed * World)
         (strip lower : string -> string) (py_int : string -> option Z)
         (default_limit : Z) (custom_limit : option Z) (w : World),
    let r := get_limit_input input strip lower py_int default_limit
                             custom_limit w in
    (custom_limit = None ->
       fst r = default_limit
       \/ 0 < fst r <= 1000
       \/ (1000 < fst r
           /\ exists confirm,
                fst (input (snd (input w))) = Line confirm
                /\ says_yes strip lower confirm = true))
    /\ (forall limit, custom_limit = Some limit -> r = (limit, w)).
Proof.
  intros World input strip lower py_int default custom w r. subst r.
  split; [intros -> | intros limit ->; reflexivity].
  unfold get_limit_input.
  destruct (input w) as [[text | |] w1]; cbn [fst snd]; try (now left).
  destruct (String.eqb (strip text) ""); [now left |].
  destruct (py_int (strip text)) as [limit |]; [| now left].
  destruct (Z.leb_spec limit 0); [now left |].
  destruct (Z.gtb_spec limit 1000).
  - destruct (input w1) as [[confirm | |] w2] eqn:E; cbn [fst snd];
      try (now left).
    destruct (says_yes strip lower confirm) eqn:Hyes; [| now left].
    right. right. cbn [fst snd]. split; [lia |]. exists confirm. now split.
  - right. left. cbn [fst]. lia.
Qed.

End ConsoleFacts.
